(** * MediPredict: dose log store, feature builder and risk estimator

    A shallow embedding of the data pipeline shared by the MediPredict
    prototypes: the SQLite tables and the statements the pages run against
    them, the pandas feature engineering, the scikit-learn pipeline, and the
    credential hashing.  Each variant of the application is a module named
    after its source file:

    - [Dash15]   : [15.py]  (users / meds / doses, day-name dashboard; the
                   dashboard of [14.py] differs only in the order of the
                   day choices)
    - [Medi12]   : [12medi.py] (users / meds / dose_log, [train_predictor])
    - [Predict1] : [1medipredict.py] (patients / medications / logs)
    - [Medi5]    : [5medi.py] (bcrypt credentials)

    Library code the application calls is modelled in [Sha256]
    (hashlib), [Sqlite] (rowid tables), [Pandas] (datetime accessors,
    groupby, merge) and [Sklearn] (one-hot encoder, logistic regression).
    Floating point numbers are idealised as real numbers. *)

From Stdlib Require Import String Ascii.
From Stdlib Require Import Reals Lra.
From Stdlib Require Import ZArith QArith List Bool Lia Sorted.
Import ListNotations.
Open Scope string_scope.
Open Scope list_scope.
Open Scope Z_scope.

(** [str.encode()]: a [string] holds the UTF-8 bytes of the Python string. *)
Definition str_encode (s : string) : list Z :=
  map (fun c => Z.of_N (N_of_ascii c)) (list_ascii_of_string s).

(* ------------------------------------------------------------------------- *)
(** ** hashlib.sha256 *)
(* ------------------------------------------------------------------------- *)

Module Sha256.

(** 32-bit words are integers with the wrap-around written out. *)
Definition mask32 : Z := 0xffffffff.
Definition w32 (x : Z) : Z := Z.land x mask32.
Definition add32 (a b : Z) : Z := w32 (a + b).
Definition not32 (x : Z) : Z := Z.lxor x mask32.
Definition rotr (n x : Z) : Z :=
  Z.lor (Z.shiftr x n) (w32 (Z.shiftl x (32 - n))).
Definition shr (n x : Z) : Z := Z.shiftr x n.

Definition Ch (x y z : Z) : Z := Z.lxor (Z.land x y) (Z.land (not32 x) z).
Definition Maj (x y z : Z) : Z :=
  Z.lxor (Z.lxor (Z.land x y) (Z.land x z)) (Z.land y z).
Definition bsig0 (x : Z) : Z := Z.lxor (Z.lxor (rotr 2 x) (rotr 13 x)) (rotr 22 x).
Definition bsig1 (x : Z) : Z := Z.lxor (Z.lxor (rotr 6 x) (rotr 11 x)) (rotr 25 x).
Definition ssig0 (x : Z) : Z := Z.lxor (Z.lxor (rotr 7 x) (rotr 18 x)) (shr 3 x).
Definition ssig1 (x : Z) : Z := Z.lxor (Z.lxor (rotr 17 x) (rotr 19 x)) (shr 10 x).

(** The constants are defined as the standard defines them: the first 32
    bits of the fractional parts of the cube roots (square roots for the
    initial hash value) of the first primes. *)
Definition is_prime (p : Z) : bool :=
  forallb (fun d => negb (p mod d =? 0))
          (map Z.of_nat (List.seq 2 (Z.to_nat p - 2))).

Definition first_primes : list Z :=
  filter is_prime (map Z.of_nat (List.seq 2 310)).

(** The integer [k]-th root of [n], found bit by bit from [2^bits] down. *)
Fixpoint iroot (k n : Z) (bits : nat) (r : Z) : Z :=
  match bits with
  | O => r
  | S b =>
      let c := r + 2 ^ Z.of_nat b in
      iroot k n b (if c ^ k <=? n then c else r)
  end.

Definition frac32 (k p : Z) : Z :=
  w32 (iroot k (p * 2 ^ (32 * k)) 40 0).

Definition K : list Z := Eval vm_compute in map (frac32 3) first_primes.

(** The eight working variables, also the chaining value. *)
Record state := State
  { sa : Z; sb : Z; sc : Z; sd : Z; se : Z; sf : Z; sg : Z; sh : Z }.

Definition H0 : state :=
  Eval vm_compute in
    match map (frac32 2) (firstn 8 first_primes) with
    | [a; b; c; d; e; f; g; h] => State a b c d e f g h
    | _ => State 0 0 0 0 0 0 0 0
    end.

(** Big-endian bytes of a number, [n] of them. *)
Fixpoint be_bytes (n : nat) (x : Z) : list Z :=
  match n with
  | O => []
  | S m => Z.land (Z.shiftr x (8 * Z.of_nat m)) 0xff :: be_bytes m x
  end.

(** Padding: the bit 1, zeros up to 56 mod 64, the bit length on 8 bytes. *)
Definition pad (msg : list Z) : list Z :=
  let len := Z.of_nat (length msg) in
  msg ++ [0x80] ++ repeat 0 (Z.to_nat ((55 - len) mod 64))
      ++ be_bytes 8 (8 * len).

Fixpoint words_of_bytes (l : list Z) : list Z :=
  match l with
  | b0 :: b1 :: b2 :: b3 :: t =>
      Z.lor (Z.shiftl b0 24) (Z.lor (Z.shiftl b1 16) (Z.lor (Z.shiftl b2 8) b3))
        :: words_of_bytes t
  | _ => []
  end.

Fixpoint chunks {A} (fuel : nat) (n : nat) (l : list A) : list (list A) :=
  match fuel, l with
  | S f, _ :: _ => firstn n l :: chunks f n (skipn n l)
  | _, _ => []
  end.

(** Message schedule, newest word first: [r] holds W[t-1], W[t-2], ... *)
Fixpoint extend (n : nat) (r : list Z) : list Z :=
  match n with
  | O => r
  | S m =>
      let w := add32 (add32 (ssig1 (nth 1 r 0)) (nth 6 r 0))
                     (add32 (ssig0 (nth 14 r 0)) (nth 15 r 0)) in
      extend m (w :: r)
  end.

Definition schedule (block : list Z) : list Z := rev (extend 48 (rev block)).

Definition round (s : state) (kw : Z * Z) : state :=
  let '(k, w) := kw in
  let t1 := add32 (add32 (add32 (sh s) (bsig1 (se s)))
                         (add32 (Ch (se s) (sf s) (sg s)) k)) w in
  let t2 := add32 (bsig0 (sa s)) (Maj (sa s) (sb s) (sc s)) in
  State (add32 t1 t2) (sa s) (sb s) (sc s) (add32 (sd s) t1) (se s) (sf s) (sg s).

Definition compress (h : state) (block : list Z) : state :=
  let s := fold_left round (combine K (schedule block)) h in
  State (add32 (sa h) (sa s)) (add32 (sb h) (sb s)) (add32 (sc h) (sc s))
        (add32 (sd h) (sd s)) (add32 (se h) (se s)) (add32 (sf h) (sf s))
        (add32 (sg h) (sg s)) (add32 (sh h) (sh s)).

Definition sha256 (msg : list Z) : state :=
  let ws := words_of_bytes (pad msg) in
  fold_left compress (chunks (length ws) 16 ws) H0.

Definition hexchar (d : Z) : ascii :=
  nth (Z.to_nat d) (list_ascii_of_string "0123456789abcdef") "0"%char.

Definition hex32 (w : Z) : list ascii :=
  map (fun i => hexchar (Z.land (Z.shiftr w (4 * i)) 0xf)) [7; 6; 5; 4; 3; 2; 1; 0].

Definition hexdigest (s : state) : string :=
  string_of_list_ascii
    (hex32 (sa s) ++ hex32 (sb s) ++ hex32 (sc s) ++ hex32 (sd s) ++
     hex32 (se s) ++ hex32 (sf s) ++ hex32 (sg s) ++ hex32 (sh s)).

End Sha256.


(* ------------------------------------------------------------------------- *)
(** ** Exceptions *)
(* ------------------------------------------------------------------------- *)

(** The Python exceptions the modelled statements can raise. *)
Inductive exn :=
| IntegrityError | ValueError | IndexError | KeyError | OverflowError.

Inductive result (A : Type) :=
| Ok (a : A)
| Raise (e : exn).
Arguments Ok {A} a.
Arguments Raise {A} e.

Definition bind {A B} (c : result A) (k : A -> result B) : result B :=
  match c with
  | Ok a => k a
  | Raise e => Raise e
  end.

Notation "x <- c ;; k" := (bind c (fun x => k))
  (at level 61, c at next level, right associativity).

(* ------------------------------------------------------------------------- *)
(** ** sqlite3: rowid tables with AUTOINCREMENT *)
(* ------------------------------------------------------------------------- *)

Module Sqlite.

Section Table.
Variable Row : Type.

(** A table is its rows in storage (rowid) order, each with its
    [INTEGER PRIMARY KEY AUTOINCREMENT] id, and the largest rowid ever
    used, which SQLite keeps in [sqlite_sequence]. *)
Record table := Table { rows : list (Z * Row); sequence : Z }.

Definition empty : table := Table [] 0.

Definition max_rowid (l : list (Z * Row)) : Z :=
  fold_right (fun r m => Z.max (fst r) m) 0 l.

(** AUTOINCREMENT: one more than the largest rowid that ever existed. *)
Definition next_rowid (t : table) : Z :=
  Z.max (sequence t) (max_rowid (rows t)) + 1.

(** [INSERT INTO t (...) VALUES (...)] with the id left to SQLite. *)
Definition insert (t : table) (r : Row) : table :=
  let i := next_rowid t in
  Table (rows t ++ [(i, r)]) i.

(** [SELECT * FROM t WHERE p], no [ORDER BY]: a scan in rowid order. *)
Definition select (p : Row -> bool) (t : table) : list (Z * Row) :=
  filter (fun r => p (snd r)) (rows t).

(** The representation invariant SQLite maintains: rowids strictly
    increase along the storage order and never exceed the sequence. *)
Definition wf (t : table) : Prop :=
  StronglySorted Z.lt (map fst (rows t)) /\
  Forall (fun r => 0 < fst r <= sequence t) (rows t).
End Table.

Arguments Table {Row} rows sequence.
Arguments rows {Row} t.
Arguments sequence {Row} t.
Arguments empty {Row}.
Arguments max_rowid {Row} l.
Arguments next_rowid {Row} t.
Arguments insert {Row} t r.
Arguments select {Row} p t.
Arguments wf {Row} t.

(** How [sqlite3] binds a Python [int] parameter: as a 64-bit INTEGER.
    Outside that range [execute] raises [OverflowError] while it binds, and
    the statement is not run. *)
Definition fits_int64 (n : Z) : bool := (- 2 ^ 63 <=? n) && (n <? 2 ^ 63).

Definition bind_int (n : Z) : result Z :=
  if fits_int64 n then Ok n else Raise OverflowError.

(** A stored value, for a column in which the code stores integers and
    blobs.  [sqlite3] binds an object that has the buffer protocol, such
    as a [numpy.int64], as a BLOB of its bytes. *)
Inductive value := Integer (n : Z) | Blob (bytes : list Z).

End Sqlite.

(* ------------------------------------------------------------------------- *)
(** ** pandas: datetime accessors, unique, sorted, groupby, merge *)
(* ------------------------------------------------------------------------- *)

Module Pandas.

(** A timestamp is what [pd.to_datetime] makes of the stored ISO text of
    [datetime.now()]: the naive local instant, counted in microseconds from
    1970-01-01T00:00:00. *)
Definition Timestamp := Z.

Definition US_PER_SECOND : Z := 1000000.
Definition US_PER_HOUR : Z := 3600 * US_PER_SECOND.
Definition US_PER_DAY : Z := 24 * US_PER_HOUR.

(** Days from 1970-01-01 to the civil date y-m-d (proleptic Gregorian). *)
Definition days_from_civil (y m d : Z) : Z :=
  let y' := if m <=? 2 then y - 1 else y in
  let era := y' / 400 in
  let yoe := y' - era * 400 in
  let mp := if m <=? 2 then m + 9 else m - 3 in
  let doy := (153 * mp + 2) / 5 + d - 1 in
  let doe := yoe * 365 + yoe / 4 - yoe / 100 + doy in
  era * 146097 + doe - 719468.

(** [datetime(y, m, d, hh, mm, ss)] as a timestamp. *)
Definition datetime (y m d hh mm ss : Z) : Timestamp :=
  days_from_civil y m d * US_PER_DAY + hh * US_PER_HOUR
  + (mm * 60 + ss) * US_PER_SECOND.

(** [.dt.hour] *)
Definition dt_hour (ts : Timestamp) : Z := (ts / US_PER_HOUR) mod 24.

(** [.dt.dayofweek]: Monday is 0; 1970-01-01 was a Thursday. *)
Definition dt_dayofweek (ts : Timestamp) : Z := (ts / US_PER_DAY + 3) mod 7.

Definition day_names : list string :=
  ["Monday"; "Tuesday"; "Wednesday"; "Thursday"; "Friday"; "Saturday"; "Sunday"].

(** [.dt.day_name()] *)
Definition dt_day_name (ts : Timestamp) : string :=
  nth (Z.to_nat (dt_dayofweek ts)) day_names "".

Section Ordered.
Context {A : Type}.
Variable eqb : A -> A -> bool.
Variable leb : A -> A -> bool.

(** [Series.unique()]: the distinct values in order of first appearance. *)
Definition unique (l : list A) : list A :=
  fold_left (fun acc x => if existsb (eqb x) acc then acc else acc ++ [x]) l [].

(** The position at which [x] first appears in [l]. *)
Fixpoint first_index (x : A) (l : list A) : nat :=
  match l with
  | [] => 0
  | y :: t => if eqb x y then 0 else S (first_index x t)
  end.

Fixpoint insert_sorted (x : A) (l : list A) : list A :=
  match l with
  | [] => [x]
  | y :: t => if leb x y then x :: l else y :: insert_sorted x t
  end.

(** [sorted(...)] *)
Definition sorted (l : list A) : list A :=
  fold_right insert_sorted [] l.
End Ordered.

Section GroupBy.
Context {K : Type}.
Variable cmp : K -> K -> comparison.

(** One more occurrence of the key [k] in the sorted table of counts. *)
Fixpoint bump (k : K) (l : list (K * Z)) : list (K * Z) :=
  match l with
  | [] => [(k, 1)]
  | (k', n) :: t =>
      match cmp k k' with
      | Eq => (k', n + 1) :: t
      | Lt => (k, 1) :: l
      | Gt => (k', n) :: bump k t
      end
  end.

(** [groupby(keys).size().reset_index(name="count")]: one row per
    distinct key, in key order, with the number of its occurrences. *)
Definition groupby_size (keys : list K) : list (K * Z) :=
  fold_left (fun acc k => bump k acc) keys [].
End GroupBy.

(** The sum of the [count] column. *)
Fixpoint total {K} (l : list (K * Z)) : Z :=
  match l with
  | [] => 0
  | (_, n) :: t => n + total t
  end.

(** Whether [x] is the key [k], by the comparison of the keys. *)
Definition is_key {K} (cmp : K -> K -> comparison) (k x : K) : bool :=
  match cmp k x with Eq => true | _ => false end.

(** The order of the rows of a table of counts. *)
Definition key_lt {K} (cmp : K -> K -> comparison) (x y : K * Z) : Prop :=
  cmp (fst x) (fst y) = Lt.

(** The sum of the counts listed under the key [k]. *)
Definition listed {K} (cmp : K -> K -> comparison) (k : K) (l : list (K * Z)) : Z :=
  total (filter (fun e => is_key cmp k (fst e)) l).

(** [left.merge(right, left_on=..., right_on=..., how="left")] for a
    single carried column: every left row in order, once per matching
    right row, and once with a missing value when nothing matches. *)
Definition merge_left {L R V} (on : L -> R -> bool) (col : R -> V)
    (left : list L) (right : list R) : list (L * option V) :=
  flat_map (fun l =>
    match filter (on l) right with
    | [] => [(l, None)]
    | ms => map (fun r => (l, Some (col r))) ms
    end) left.

End Pandas.

(* ------------------------------------------------------------------------- *)
(** ** scikit-learn: OneHotEncoder, LogisticRegression, Pipeline *)
(* ------------------------------------------------------------------------- *)

Module Sklearn.

(** Categorical values: equality and the order [np.unique] sorts by. *)
Class Category (A : Type) := {
  cat_eqb : A -> A -> bool;
  cat_leb : A -> A -> bool
}.

#[export] Instance string_category : Category string :=
  {| cat_eqb := String.eqb; cat_leb := String.leb |}.

(** A column of strings with missing values (NaN): the missing value is a
    category of its own and sorts last. *)
#[export] Instance missing_category : Category (option string) :=
  {| cat_eqb := fun a b =>
       match a, b with
       | Some x, Some y => String.eqb x y
       | None, None => true
       | _, _ => false
       end;
     cat_leb := fun a b =>
       match a, b with
       | Some x, Some y => String.leb x y
       | _, None => true
       | None, Some _ => false
       end |}.

(** The comparison of a category type decides equality. *)
Class CategoryLaws (A : Type) `{Category A} := {
  cat_eqb_eq : forall x y : A, cat_eqb x y = true <-> x = y
}.

Inductive handle_unknown := HU_error | HU_ignore.

(** A fitted [OneHotEncoder]. *)
Record OneHotEncoder (A : Type) := Encoder {
  handle : handle_unknown;
  categories_ : list A
}.
Arguments Encoder {A} handle categories_.
Arguments handle {A} o.
Arguments categories_ {A} o.

Section Encoder.
Context {A : Type} `{Category A}.

(** [fit]: the categories are the sorted distinct values of the column. *)
Definition ohe_fit (hu : handle_unknown) (col : list A) : OneHotEncoder A :=
  Encoder hu (Pandas.sorted cat_leb (Pandas.unique cat_eqb col)).

Definition known (enc : OneHotEncoder A) (v : A) : bool :=
  existsb (cat_eqb v) (categories_ enc).

(** One column per category, 1 in the column of [v]. *)
Definition one_hot (cats : list A) (v : A) : list Z :=
  map (fun c => Z.b2z (cat_eqb v c)) cats.

(** [transform] of one value.  An unknown value raises [ValueError]
    under [handle_unknown="error"] (the default) and is encoded by the
    row of its (absent) column under ["ignore"]. *)
Definition ohe_transform (enc : OneHotEncoder A) (v : A) : result (list Z) :=
  match handle enc, known enc v with
  | HU_error, false => Raise ValueError
  | _, _ => Ok (one_hot (categories_ enc) v)
  end.
End Encoder.

(** A fitted binary [LogisticRegression]: one weight per input column. *)
Record LogReg := Clf { coef_ : list R; intercept_ : R }.

(** The optimisation inside [LogisticRegression(max_iter=...).fit(X, y)]:
    it is the library's; the application only hands it the table and keeps
    the result, or lets its exception propagate. *)
Class Solver := { lbfgs : Z -> list (list Z) -> list Z -> result LogReg }.

(** [self.classes_ = np.unique(y)] *)
Definition classes_of (y : list Z) : list Z :=
  Pandas.sorted Z.leb (Pandas.unique Z.eqb y).

(** [LogisticRegression.fit] looks at the classes of [y] before it runs the
    optimiser: with fewer than two it raises [ValueError] ("This solver
    needs samples of at least 2 classes in the data, but the data contains
    only one class"). *)
Definition logreg_fit `{Solver} (max_iter : Z) (X : list (list Z)) (y : list Z)
  : result LogReg :=
  if (length (classes_of y) <? 2)%nat then Raise ValueError
  else lbfgs max_iter X y.

(** A stand-in optimiser with which the definitions can be run on
    concrete tables: it answers a table of two classes or more with all
    weights 0, and like the library it has no answer for fewer. *)
Definition null_solver : Solver :=
  {| lbfgs := fun _ X y =>
       if (length (classes_of y) <? 2)%nat then Raise ValueError
       else Ok (Clf (repeat 0%R (length (hd [] X))) 0%R) |}.

Definition decision_function (clf : LogReg) (x : list Z) : R :=
  fold_right (fun wx acc => (fst wx * IZR (snd wx) + acc)%R)
             (intercept_ clf) (combine (coef_ clf) x).

Definition expit (z : R) : R := (1 / (1 + exp (- z)))%R.

(** [predict_proba] of one row: the probabilities of the two classes in
    the order of [classes_] (0 then 1, [False] then [True]). *)
Definition predict_proba (clf : LogReg) (x : list Z) : R * R :=
  let p := expit (decision_function clf x) in ((1 - p)%R, p).

(** A fitted [Pipeline] of a [ColumnTransformer] with one one-hot encoded
    column and [remainder="passthrough"], followed by the classifier. *)
Record Pipeline (A : Type) := Pipe { pre : OneHotEncoder A; clf : LogReg }.
Arguments Pipe {A} pre clf.
Arguments pre {A} p.
Arguments clf {A} p.

Section Pipeline.
Context {A : Type} `{Category A} `{Solver}.

(** The transformer's output row: the encoded column first, then the
    passed-through columns in their original order. *)
Definition ct_transform (enc : OneHotEncoder A) (row : A * list Z)
  : result (list Z) :=
  oh <- ohe_transform enc (fst row) ;; Ok (oh ++ snd row).

Fixpoint ct_transform_all (enc : OneHotEncoder A) (X : list (A * list Z))
  : result (list (list Z)) :=
  match X with
  | [] => Ok []
  | row :: t =>
      r <- ct_transform enc row ;;
      rs <- ct_transform_all enc t ;;
      Ok (r :: rs)
  end.

(** [Pipeline([...]).fit(X, y)] *)
Definition pipeline_fit (hu : handle_unknown) (max_iter : Z)
    (X : list (A * list Z)) (y : list Z) : result (Pipeline A) :=
  let enc := ohe_fit hu (map fst X) in
  Xt <- ct_transform_all enc X ;;
  m <- logreg_fit max_iter Xt y ;;
  Ok (Pipe enc m).

(** [pipe.predict_proba(row)[0]] *)
Definition pipeline_predict_proba (p : Pipeline A) (row : A * list Z)
  : result (R * R) :=
  x <- ct_transform (pre p) row ;; Ok (predict_proba (clf p) x).
End Pipeline.

End Sklearn.

(* ------------------------------------------------------------------------- *)
(** ** 15.py: the day-name dashboard *)
(* ------------------------------------------------------------------------- *)

Module Dash15.
Import Sqlite Pandas Sklearn.

Record user := User
  { username : string; password : string; age : Z; gender : string }.
Record med := Med
  { med_user_id : Z; med_name : string; dosage : string; schedule : string }.
Record dose := Dose
  { dose_user_id : Z; med_id : Z; timestamp : Timestamp; status : string }.

Record db := DB
  { users : table user; meds : table med; doses : table dose }.

(** [init_db] on a fresh file: the three tables, empty. *)
Definition init_db : db := DB empty empty empty.

Definition hash_pw (pw : string) : string :=
  Sha256.hexdigest (Sha256.sha256 (str_encode pw)).

(** What a page shows after an action. *)
Inductive message :=
| CredentialsRequired | AccountCreated | UsernameTaken
| Saved | AddMedicineFirst | Logged.

(** [INSERT INTO users ...]; [username] is [UNIQUE]. *)
Definition insert_user (d : db) (u : user) : result db :=
  if existsb (fun r => String.eqb (username (snd r)) (username u)) (rows (users d))
  then Raise IntegrityError
  else Ok (DB (insert (users d) u) (meds d) (doses d)).

Definition page_register (d : db) (u p : string) (a : Z) (g : string)
  : result (db * message) :=
  if String.eqb u "" || String.eqb p "" then Ok (d, CredentialsRequired)
  else
    match insert_user d (User u (hash_pw p) a g) with
    | Ok d' => Ok (d', AccountCreated)
    | Raise IntegrityError => Ok (d, UsernameTaken)
    | Raise e => Raise e
    end.

(** [SELECT id FROM users WHERE username=? AND password=?], [fetchone]. *)
Definition page_login (d : db) (u p : string) : option Z :=
  match select (fun r => String.eqb (username r) u
                         && String.eqb (password r) (hash_pw p)) (users d) with
  | [] => None
  | (i, _) :: _ => Some i
  end.

(** [page_dashboard] is modelled tab by tab.  Medicines tab, [Save]. *)
Definition page_dashboard_meds (d : db) (uid : Z) (m dos sched : string) : db * option message :=
  if String.eqb m "" then (d, None)
  else (DB (users d) (insert (meds d) (Med uid m dos sched)) (doses d), Some Saved).

(** The [CHECK(status IN ('Taken','Missed'))] of the [doses] table. *)
Definition status_check (s : string) : bool :=
  String.eqb s "Taken" || String.eqb s "Missed".

(** [INSERT INTO doses (user_id,med_id,timestamp,status) VALUES (?,?,?,?)]
    inside [with sqlite3.connect(DB)], on bound values with a text status:
    committed, or rolled back when the statement raises. *)
Definition insert_dose (d : db) (uid mid : Z) (ts : Timestamp) (st : string)
  : result db :=
  if status_check st
  then Ok (DB (users d) (meds d) (insert (doses d) (Dose uid mid ts st)))
  else Raise IntegrityError.



(** The two options of the [Status] radio. *)
Inductive Status := Taken | Missed.

Definition status_label (s : Status) : string :=
  match s with Taken => "Taken" | Missed => "Missed" end.

(** [SELECT id,med_name FROM meds WHERE user_id=?] *)
Definition user_meds (d : db) (uid : Z) : list (Z * string) :=
  map (fun r => (fst r, med_name (snd r)))
      (select (fun m => med_user_id m =? uid) (meds d)).

(** [meds.loc[meds.med_name==med,"id"].values[0]] *)
Definition resolve_med (ms : list (Z * string)) (med : string) : result Z :=
  match filter (fun r => String.eqb (snd r) med) ms with
  | [] => Raise IndexError
  | (i, _) :: _ => Ok i
  end.

(** Log Dose tab, [Save]: [med] is the value of the select box over the
    user's medicine names, [st] the radio, [now] the clock. *)
Definition page_dashboard_log (d : db) (uid : Z) (med : string) (st : Status)
    (now : Timestamp) : result (db * message) :=
  match user_meds d uid with
  | [] => Ok (d, AddMedicineFirst)
  | ms =>
      mid <- resolve_med ms med ;;
      d' <- insert_dose d uid mid now (status_label st) ;;
      Ok (d', Logged)
  end.

(** [SELECT * FROM doses WHERE user_id=?] *)
Definition user_doses (d : db) (uid : Z) : list (Z * dose) :=
  select (fun r => dose_user_id r =? uid) (doses d).

Definition heat_key : Type := string * Z * string.

Definition heat_key_compare (a b : heat_key) : comparison :=
  let '(d1, h1, s1) := a in
  let '(d2, h2, s2) := b in
  match String.compare d1 d2 with
  | Eq => match Z.compare h1 h2 with
          | Eq => String.compare s1 s2
          | c => c
          end
  | c => c
  end.

Definition day_of (r : Z * dose) : string := dt_day_name (timestamp (snd r)).
Definition hour_of (r : Z * dose) : Z := dt_hour (timestamp (snd r)).

(** [df.groupby(["day","hour","status"]).size().reset_index(name="count")] *)
Definition heat (df : list (Z * dose)) : list (heat_key * Z) :=
  groupby_size heat_key_compare
    (map (fun r => (day_of r, hour_of r, status (snd r))) df).

(** [X=df[["hour","day"]]]: the encoded column and the passed-through one. *)
Definition features (df : list (Z * dose)) : list (string * list Z) :=
  map (fun r => (day_of r, [hour_of r])) df.

(** [y=df["miss"]] with [df["miss"]=df.status=="Missed"] *)
Definition labels (df : list (Z * dose)) : list Z :=
  map (fun r => Z.b2z (String.eqb (status (snd r)) "Missed")) df.

(** The options of the [Day] select box: [sorted(df.day.unique())]; in
    [14.py], [df["day"].unique()]. *)
Definition day_choices (df : list (Z * dose)) : list string :=
  sorted String.leb (unique String.eqb (map day_of df)).
Definition day_choices14 (df : list (Z * dose)) : list string :=
  unique String.eqb (map day_of df).

(** The pipeline of the Insights tab, fitted on the user's rows. *)
Definition fit_pipe `{Solver} (df : list (Z * dose)) : result (Pipeline string) :=
  pipeline_fit HU_error 100 (features df) (labels df).

(** [pipe.predict_proba(pd.DataFrame([[h,d]],...))[0][1]] *)
Definition query_risk (pipe : Pipeline string) (h : Z) (d : string) : result R :=
  pr <- pipeline_predict_proba pipe (d, [h]) ;; Ok (snd pr).

(** What the Insights tab renders: the notice, or the heat-map rows and
    then the risk metric (or the exception raised on the way to it). *)
Inductive insights_view :=
| NoLogsYet
| HeatAndRisk (heat : list (heat_key * Z)) (risk : result R).

(** Insights tab: [h] is the slider, [d] the value of the day select box.
    The tab only reads the store. *)
Definition page_dashboard_insights `{Solver} (d : db) (uid : Z) (h : Z) (day : string)
  : db * insights_view :=
  match user_doses d uid with
  | [] => (d, NoLogsYet)
  | df =>
      (d, HeatAndRisk (heat df)
            (pipe <- fit_pipe df ;; query_risk pipe h day))
  end.

(** Every table of the store satisfies the rowid invariant. *)
Definition db_wf (d : db) : Prop :=
  wf (users d) /\ wf (meds d) /\ wf (doses d).

(** The stores the application itself can build. *)
Inductive reachable : db -> Prop :=
| reach_init : reachable init_db
| reach_register d u p a g d' m :
    reachable d -> page_register d u p a g = Ok (d', m) -> reachable d'
| reach_meds d uid m dos sched :
    reachable d -> reachable (fst (page_dashboard_meds d uid m dos sched))
| reach_log d uid med st now d' m :
    reachable d -> page_dashboard_log d uid med st now = Ok (d', m) -> reachable d'.

(** *** Consistency of the store *)

(** The user names of the accounts, in storage order. *)
Definition usernames (d : db) : list string :=
  map (fun r => username (snd r)) (rows (users d)).

(** A dose has one of the two statuses and the medicine it names is a
    medicine of the user who logged it. *)
Definition dose_consistent (d : db) (r : Z * dose) : Prop :=
  (status (snd r) = "Taken" \/ status (snd r) = "Missed")
  /\ exists m, In (med_id (snd r), m) (rows (meds d))
               /\ med_user_id m = dose_user_id (snd r).

(** A store with the account of alice, her medicine and one dose of it. *)
Definition sample_store : db :=
  let d1 := match page_register init_db "alice" "hunter2" 30 "Female" with
            | Ok (d, _) => d
            | Raise _ => init_db
            end in
  let d2 := fst (page_dashboard_meds d1 1 "Aspirin" "10mg" "Morning") in
  match page_dashboard_log d2 1 "Aspirin" Taken (datetime 2025 6 9 8 0 0) with
  | Ok (d, _) => d
  | Raise _ => d2
  end.

(** *** The session, the sidebar and the router *)

(** [st.session_state]: the logged-in user id, the page, the rerun flag. *)
Record session := Session { uid : option Z; page : string; rerun : bool }.

Definition initial_session : session := Session None "home" false.

(** [if st.session_state.uid]: [None] and 0 are false. *)
Definition logged_in (s : session) : bool :=
  match uid s with
  | Some i => negb (i =? 0)
  | None => false
  end.

(** What the user does in one run of the script: nothing, a click on a
    sidebar button (named by the page key [nav_link] gives it), or the
    submission of one of the forms. *)
Inductive event :=
| NoEvent
| Click (page_key : string)
| SubmitRegister (u p : string) (a : Z) (g : string)
| SubmitLogin (u p : string)
| SaveMedicine (m dos sched : string)
| SaveDose (med : string) (st : Status).

(** The page keys of the buttons [sidebar] shows. *)
Definition sidebar_links (s : session) : list string :=
  if logged_in s then ["home"; "dash"; "logout"] else ["home"; "login"; "reg"].

(** [sidebar]: a click on a button that is shown sets the page. *)
Definition sidebar (s : session) (ev : event) : session :=
  match ev with
  | Click k =>
      if existsb (String.eqb k) (sidebar_links s)
      then Session (uid s) k (rerun s)
      else s
  | _ => s
  end.

Record app := App { store : db; sess : session }.

(** How a run of the script ends: at its last line, at [st.stop()], or on
    an exception. *)
Inductive outcome := Finished | Stopped | Crashed (e : exn).

(** [page_login] with its effect on the session. *)
Definition login_step (a : app) (ev : event) : app * outcome :=
  match ev with
  | SubmitLogin u p =>
      match page_login (store a) u p with
      | Some i => (App (store a) (Session (Some i) "dash" true), Stopped)
      | None => (a, Finished)
      end
  | _ => (a, Finished)
  end.

(** [page_register] with its effect on the session. *)
Definition register_step (a : app) (ev : event) : app * outcome :=
  match ev with
  | SubmitRegister u p ag g =>
      match page_register (store a) u p ag g with
      | Ok (d', AccountCreated) =>
          (App d' (Session (uid (sess a)) "login" true), Stopped)
      | Ok (d', _) => (App d' (sess a), Finished)
      | Raise e => (a, Crashed e)
      end
  | _ => (a, Finished)
  end.

(** [page_dashboard]: the three tabs in turn.  A tab that saves sets the
    rerun flag and stops the script; the Insights tab ends the run with the
    exception of the fit or of the query, if one is raised. *)
Definition dashboard_step `{Solver} (a : app) (i : Z) (ev : event)
    (now : Timestamp) (h : Z) (day : string) : app * outcome :=
  let saved d' := (App d' (Session (uid (sess a)) (page (sess a)) true), Stopped) in
  let insights :=
    match snd (page_dashboard_insights (store a) i h day) with
    | HeatAndRisk _ (Raise e) => (a, Crashed e)
    | _ => (a, Finished)
    end in
  match ev with
  | SaveMedicine m dos sched =>
      match page_dashboard_meds (store a) i m dos sched with
      | (d', Some _) => saved d'
      | (_, None) => insights
      end
  | SaveDose med st =>
      match page_dashboard_log (store a) i med st now with
      | Ok (d', Logged) => saved d'
      | Ok (_, _) => insights
      | Raise e => (a, Crashed e)
      end
  | _ => insights
  end.

(** The router: the page function of [st.session_state.page]. *)
Definition router `{Solver} (a : app) (ev : event) (now : Timestamp)
    (h : Z) (day : string) : app * outcome :=
  let s := sess a in
  if String.eqb (page s) "home" then (a, Finished)
  else if String.eqb (page s) "reg" then register_step a ev
  else if String.eqb (page s) "login" then login_step a ev
  else if String.eqb (page s) "dash" then
    match uid s with
    | Some i => if logged_in s then dashboard_step a i ev now h day
                else login_step a ev
    | None => login_step a ev
    end
  else if String.eqb (page s) "logout" then
    (App (store a) (Session None "home" true), Stopped)
  else (a, Finished).

(** One interaction: the script runs with the event; when it reaches its
    last lines with the rerun flag set, the flag is cleared and the script
    runs again, without an event.  [None]: more reruns than [fuel]. *)
Fixpoint run `{Solver} (fuel : nat) (a : app) (ev : event) (now : Timestamp)
    (h : Z) (day : string) : option (app * outcome) :=
  let '(a2, o) := router (App (store a) (sidebar (sess a) ev)) ev now h day in
  match o with
  | Finished =>
      if rerun (sess a2) then
        match fuel with
        | O => None
        | S f =>
            run f (App (store a2) (Session (uid (sess a2)) (page (sess a2)) false))
                NoEvent now h day
        end
      else Some (a2, Finished)
  | _ => Some (a2, o)
  end.

Definition initial_app : app := App init_db initial_session.

(** The states of the application a user can bring about. *)
Inductive app_reachable `{Solver} : app -> Prop :=
| app_init : app_reachable initial_app
| app_step a ev now h day a' o :
    app_reachable a -> run 1 a ev now h day = Some (a', o) -> app_reachable a'.

(** The account of the session exists, in a store the pages can build. *)
Definition session_ok (a : app) : Prop :=
  reachable (store a)
  /\ forall i, uid (sess a) = Some i -> exists r, In (i, r) (rows (users (store a))).

(** A session for the examples: a visitor opens the registration page,
    registers, and logs in. *)
Definition interact (a : app) (ev : event) : app :=
  match @run null_solver 1 a ev (datetime 2025 6 9 8 0 0) 8 "Monday" with
  | Some (a', _) => a'
  | None => a
  end.

Definition sample_app : app :=
  interact (interact (interact initial_app (Click "reg"))
                     (SubmitRegister "alice" "hunter2" 30 "Female"))
           (SubmitLogin "alice" "hunter2").

End Dash15.

(* ------------------------------------------------------------------------- *)
(** ** 12medi.py: helpers, [train_predictor] and the dashboard tabs *)
(* ------------------------------------------------------------------------- *)

Module Medi12.
Import Sqlite Pandas Sklearn.

Record user := User
  { username : string; email : string; pwd_hash : string; age : Z;
    doctor_name : string; doctor_phone : string }.
Record med := Med
  { med_username : string; med_name : string; dose : string;
    time_of_day : string }.
(** [taken]: 1 taken, 0 missed. *)
Record log := Log
  { log_username : string; med_id : Z; ts : Timestamp; taken : Z }.

Record db := DB
  { users : table user; meds : table med; dose_log : table log }.

Definition init_db : db := DB empty empty empty.

(** Every table of the store satisfies the rowid invariant. *)
Definition db_wf (d : db) : Prop :=
  wf (users d) /\ wf (meds d) /\ wf (dose_log d).

Definition hash_pwd (password : string) : string :=
  Sha256.hexdigest (Sha256.sha256 (str_encode password)).

Definition verify_pwd (password hashed : string) : bool :=
  String.eqb (hash_pwd password) hashed.

(** [username] is the [PRIMARY KEY] of [users]. *)
Definition create_user (d : db) (u e p : string) (a : Z) (dn dp : string)
  : result db :=
  if existsb (fun r => String.eqb (username (snd r)) u) (rows (users d))
  then Raise IntegrityError
  else Ok (DB (insert (users d) (User u e (hash_pwd p) a dn dp)) (meds d) (dose_log d)).

Definition get_user (d : db) (u : string) : option user :=
  match select (fun r => String.eqb (username r) u) (users d) with
  | [] => None
  | (_, r) :: _ => Some r
  end.

Definition add_med (d : db) (u name dos tod : string) : db :=
  DB (users d) (insert (meds d) (Med u name dos tod)) (dose_log d).

Definition get_user_meds (d : db) (u : string) : list (Z * med) :=
  select (fun m => String.eqb (med_username m) u) (meds d).

(** [log_dose], the [INSERT] it runs on the values [sqlite3] has bound: the
    row is inserted as given, stamped with the clock. *)
Definition log_dose (d : db) (u : string) (mid : Z) (tk : Z) (now : Timestamp) : db :=
  DB (users d) (meds d) (insert (dose_log d) (Log u mid now tk)).

(** A call [log_dose(username, med_id, taken)] with Python ints: [sqlite3]
    binds them first, then the row is inserted. *)
Definition call_log_dose (d : db) (u : string) (mid : Z) (tk : Z) (now : Timestamp)
  : result db :=
  m <- bind_int mid ;; t <- bind_int tk ;; Ok (log_dose d u m t now).

Definition get_logs (d : db) (u : string) : list (Z * log) :=
  select (fun l => String.eqb (log_username l) u) (dose_log d).

(** [df = logs.merge(meds[["id","time_of_day"]], left_on="med_id",
    right_on="id", how="left")] *)
Definition merged (logs : list (Z * log)) (ms : list (Z * med))
  : list ((Z * log) * option string) :=
  merge_left (fun l m => fst m =? med_id (snd l))
             (fun m => time_of_day (snd m)) logs ms.

(** [X = df[["hour","dayofweek","time_of_day"]]]: the encoded column
    [time_of_day], then [hour] and [dayofweek] passed through. *)
Definition features (logs : list (Z * log)) (ms : list (Z * med))
  : list (option string * list Z) :=
  map (fun r => (snd r, [dt_hour (ts (snd (fst r)));
                         dt_dayofweek (ts (snd (fst r)))]))
      (merged logs ms).

(** [y = df["taken"]] *)
Definition labels (logs : list (Z * log)) (ms : list (Z * med)) : list Z :=
  map (fun r => taken (snd (fst r))) (merged logs ms).

(** [train_predictor]: [None] (with a notice) on an empty log, else the
    fitted pipeline. *)
Definition train_predictor `{Solver} (logs : list (Z * log)) (ms : list (Z * med))
  : result (option (Pipeline (option string))) :=
  match logs with
  | [] => Ok None
  | _ =>
      p <- pipeline_fit HU_ignore 1000 (features logs ms) (labels logs ms) ;;
      Ok (Some p)
  end.

(** The two options of the [Status] radio. *)
Inductive Status := Taken | Missed.

Definition en_dash : string :=
  String (ascii_of_nat 226) (String (ascii_of_nat 128) (String (ascii_of_nat 147) "")).

(** [f"{row.med_name} – {row.time_of_day}"] *)
Definition med_label (m : med) : string :=
  String.append (med_name m)
    (String.append " " (String.append en_dash (String.append " " (time_of_day m)))).

(** [med_dict]: the entries in row order; a later entry replaces an
    earlier one with the same key. *)
Definition med_dict (ms : list (Z * med)) : list (string * Z) :=
  map (fun m => (med_label (snd m), fst m)) ms.

(** [dict[k]] *)
Definition dict_get (dict : list (string * Z)) (k : string) : result Z :=
  match filter (fun e => String.eqb (fst e) k) (rev dict) with
  | [] => Raise KeyError
  | e :: _ => Ok (snd e)
  end.

(** [log_tab], [Save Log]: [choice] is the value of the select box over
    the keys of [med_dict]. *)
Definition log_tab (d : db) (u : string) (choice : string) (st : Status)
    (now : Timestamp) : result db :=
  match get_user_meds d u with
  | [] => Ok d
  | ms =>
      mid <- dict_get (med_dict ms) choice ;;
      Ok (log_dose d u mid (match st with Taken => 1 | Missed => 0 end) now)
  end.

(** [f"{h:02d}:00"] *)
Definition hh00 (h : Z) : string :=
  let digit n := ascii_of_nat (48 + Z.to_nat n) in
  String (digit (h / 10)) (String (digit (h mod 10)) ":00").

(** The 24 rows of [future] for the weekday [today]. *)
Definition future (today : Z) : list (option string * list Z) :=
  map (fun h => (Some (hh00 h), [h; today])) (map Z.of_nat (List.seq 0%nat 24%nat)).

(** [clf.predict_proba(future)[:, 0]]: the probability of a miss. *)
Fixpoint predict_proba_col0 (p : Pipeline (option string))
    (X : list (option string * list Z)) : result (list R) :=
  match X with
  | [] => Ok []
  | row :: t =>
      pr <- pipeline_predict_proba p row ;;
      rest <- predict_proba_col0 p t ;;
      Ok (fst pr :: rest)
  end.

(** [insights_tab], the predictor part: nothing without logs or without a
    model, else the miss probabilities of the next 24 hours, [today] being
    [datetime.today().weekday()].  The stored timestamps are taken as
    parsed: the charts and [pd.to_datetime], which pandas 2 lets raise on a
    column of mixed formats, are outside this model. *)
Definition insights_tab `{Solver} (d : db) (u : string) (today : Z)
  : result (option (list R)) :=
  let logs := get_logs d u in
  let ms := get_user_meds d u in
  match logs with
  | [] => Ok None
  | _ =>
      clf <- train_predictor logs ms ;;
      match clf with
      | Some p => probs <- predict_proba_col0 p (future today) ;; Ok (Some probs)
      | None => Ok None
      end
  end.

(** *** Registration, login, the schedule tab and the first boot *)

Inductive notice := AccountCreated | UsernameExists.

(** [register_screen]: [submit] is the form button, [agree] the check box. *)
Definition register_screen (d : db) (u e p : string) (a : Z) (dn dp : string)
    (agree submit : bool) : result (db * option notice) :=
  if submit && agree then
    match get_user d u with
    | None => d' <- create_user d u e p a dn dp ;; Ok (d', Some AccountCreated)
    | Some _ => Ok (d, Some UsernameExists)
    end
  else Ok (d, None).

(** [login_screen], [Login]: the user name the session is given, or [None]
    for invalid credentials. *)
Definition login_screen (d : db) (u p : string) : option string :=
  match get_user d u with
  | Some user => if verify_pwd p (pwd_hash user) then Some u else None
  | None => None
  end.

(** [f"{n:02d}"] and [strftime("%H:%M")] of a [datetime.time(h, m)]. *)
Definition two_digits (n : Z) : string :=
  let digit k := ascii_of_nat (48 + Z.to_nat k) in
  String (digit (n / 10)) (String (digit (n mod 10)) "").

Definition strftime_HM (h m : Z) : string :=
  String.append (two_digits h) (String.append ":" (two_digits m)).

(** [schedule_tab], [Add Medicine]: [h] and [m] are the time of the time
    input. *)
Definition schedule_tab (d : db) (u name dos : string) (h m : Z) : db :=
  add_med d u name dos (strftime_HM h m).

Definition demo_phone : string :=
  String.append "+91"
    (String (ascii_of_nat 226) (String (ascii_of_nat 128) (String (ascii_of_nat 145)
       "9999999999"))).

(** The space in the two seeded dosages is U+202F, a narrow no-break
    space (bytes e2 80 af). *)
Definition nnbsp : string :=
  String (ascii_of_nat 226) (String (ascii_of_nat 128) (String (ascii_of_nat 175) "")).

Definition dose_500_mg : string := String.append "500" (String.append nnbsp "mg").
Definition dose_20_mg : string := String.append "20" (String.append nnbsp "mg").

(** [main], the seeding of the sample user on the first boot. *)
Definition main_seed (d : db) : result db :=
  match get_user d "demo" with
  | None =>
      d1 <- create_user d "demo" "demo@med.com" "demo" 42 "Dr. Strange" demo_phone ;;
      Ok (add_med (add_med d1 "demo" "Metformin" dose_500_mg "08:00")
                  "demo" "Atorvastatin" dose_20_mg "21:00")
  | Some _ => Ok d
  end.

End Medi12.

(* ------------------------------------------------------------------------- *)
(** ** 1medipredict.py: the log helpers and the Risk Prediction page *)
(* ------------------------------------------------------------------------- *)

Module Predict1.
Import Sqlite Pandas Sklearn.

Record log := Log
  { patient_id : Z; medication_id : Z; scheduled_time : string;
    status : string; timestamp : Timestamp }.

(** Only the [logs] table takes part in what follows. *)
Record db := DB { logs : table log }.

Definition init_db : db := DB empty.

Definition log_dose (d : db) (pid mid : Z) (sched st : string) (now : Timestamp) : db :=
  DB (insert (logs d) (Log pid mid sched st now)).

(** [get_logs(patient_id=None)]: every row when no patient is given. *)
Definition get_logs (d : db) (pid : option Z) : list (Z * log) :=
  match pid with
  | None => select (fun _ => true) (logs d)
  | Some p => select (fun l => patient_id l =? p) (logs d)
  end.

(** [X = logs[["hour", "dayofweek"]]] *)
Definition features (ls : list (Z * log)) : list (list Z) :=
  map (fun r => [dt_hour (timestamp (snd r)); dt_dayofweek (timestamp (snd r))]) ls.

(** [logs["status"].apply(lambda s: 1 if s == "Taken" else 0)] *)
Definition labels (ls : list (Z * log)) : list Z :=
  map (fun r => if String.eqb (status (snd r)) "Taken" then 1 else 0) ls.



(** *** Doctors, patients and the Adherence Insights page *)

Record doctor := Doctor { doctor_name : string; doctor_email : string }.
(** [doctor_id] is kept as it is stored: the column takes what the caller
    binds, an integer or a blob. *)
Record patient := Patient
  { patient_name : string; patient_age : Z; patient_email : string;
    doctor_id : value }.

(** The bytes of a [numpy.int64], least significant first: the buffer that
    [sqlite3] stores as a BLOB when it is given one as a parameter. *)
Definition int64_bytes (n : Z) : list Z :=
  map (fun k => (n / 256 ^ Z.of_nat k) mod 256) (List.seq 0%nat 8%nat).

Record registry := Registry { doctors : table doctor; patients : table patient }.

Definition init_registry : registry := Registry empty empty.

(** [add_doctor]: [email] is [UNIQUE]; the insert is rolled back when it
    raises. *)
Definition add_doctor (r : registry) (name email : string) : result registry :=
  if existsb (fun x => String.eqb (doctor_email (snd x)) email) (rows (doctors r))
  then Raise IntegrityError
  else Ok (Registry (insert (doctors r) (Doctor name email)) (patients r)).

Definition get_doctors (r : registry) : list (Z * doctor) :=
  select (fun _ => true) (doctors r).

Definition add_patient (r : registry) (name : string) (age : Z) (email : string)
    (did : value) : registry :=
  Registry (doctors r) (insert (patients r) (Patient name age email did)).

Inductive doctor_notice := DoctorAdded | NameRequired.

(** The Doctors page, [Add Doctor]. *)
Definition doctors_page (r : registry) (d_name d_email : string)
  : result (registry * doctor_notice) :=
  if String.eqb d_name "" then Ok (r, NameRequired)
  else r' <- add_doctor r d_name d_email ;; Ok (r', DoctorAdded).

(** The value of [st.selectbox(label, options)] when the user picks the
    option of index [pick]: [None] when there is no option. *)
Definition selectbox (options : list string) (pick : nat) : option string :=
  match options with
  | [] => None
  | first :: _ => Some (nth pick options first)
  end.

(** [doctors_df[doctors_df["name"] == doctor_choice]["id"].iloc[0]] *)
Definition chosen_doctor (ds : list (Z * doctor)) (choice : option string)
  : result Z :=
  match filter (fun d => match choice with
                         | Some c => String.eqb (doctor_name (snd d)) c
                         | None => false
                         end) ds with
  | [] => Raise IndexError
  | (did, _) :: _ => Ok did
  end.

(** The Patients page, [Add Patient]: [pick] is the index chosen in the
    select box of doctors.  [.iloc[0]] gives the id as a [numpy.int64], and
    the page passes it on as it is. *)
Definition patients_page (r : registry) (p_name : string) (p_age : Z)
    (p_email : string) (pick : nat) : result registry :=
  let doctors_df := get_doctors r in
  let doctor_choice := selectbox (map (fun d => doctor_name (snd d)) doctors_df) pick in
  did <- chosen_doctor doctors_df doctor_choice ;;
  Ok (add_patient r p_name p_age p_email (Blob (int64_bytes did))).

(** The Adherence Insights page: the notice ([None]) without logs, else the
    overall adherence in percent,
    [logs[logs["status"] == "Taken"].shape[0] / logs.shape[0] * 100]. *)
(** Two doctors of one name, for the examples. *)
Definition two_doctors : registry :=
  Registry (insert (insert empty (Doctor "Dr. Rao" "rao@clinic.org"))
                   (Doctor "Dr. Rao" "rao2@clinic.org"))
           empty.

Definition taken_rate (d : db) (pid : Z) : option Q :=
  match get_logs d (Some pid) with
  | [] => None
  | ls =>
      Some (inject_Z (Z.of_nat (length (filter (fun l => String.eqb (status (snd l)) "Taken") ls)))
            / inject_Z (Z.of_nat (length ls)) * 100)%Q
  end.

End Predict1.

(* ------------------------------------------------------------------------- *)
(** ** 5medi.py: bcrypt credentials *)
(* ------------------------------------------------------------------------- *)

Module Medi5.
Import Sqlite.

(** [bcrypt.hashpw(password, salt)] returns the salt followed by the hash
    it derives from the password under that salt; the derivation is the
    library's, and passwords it refuses (over 72 bytes, from bcrypt 5.0)
    are outside this model.  [bcrypt.gensalt()] draws the salt: 29 bytes, the prefix
    [$2b$12$] and 22 characters. *)
Class Bcrypt := { bcrypt_raw : list Z -> list Z -> list Z }.

Definition hashpw `{Bcrypt} (password salt : list Z) : list Z :=
  salt ++ bcrypt_raw password salt.

Definition GENSALT_LEN : nat := 29.

(** A stand-in derivation with which the definitions can be run. *)
Definition null_bcrypt : Bcrypt := {| bcrypt_raw := fun _ _ => repeat 46 31 |}.

(** [hash_password]: [salt] is what [bcrypt.gensalt()] drew. *)
Definition hash_password `{Bcrypt} (password : string) (salt : list Z) : list Z :=
  hashpw (str_encode password) salt.

Record user := User { username : string; password_hash : list Z }.

Record db := DB { users : table user }.

Definition init_db : db := DB empty.

(** [db.query(User).filter(User.username == username).first()] *)
Definition get_user (d : db) (u : string) : option user :=
  match select (fun r => String.eqb (username r) u) (users d) with
  | [] => None
  | (_, r) :: _ => Some r
  end.

(** [username] is [unique]. *)
Definition create_user `{Bcrypt} (d : db) (u p : string) (salt : list Z) : result db :=
  if existsb (fun r => String.eqb (username (snd r)) u) (rows (users d))
  then Raise IntegrityError
  else Ok (DB (insert (users d) (User u (hash_password p salt)))).

Inductive message :=
| PasswordsDoNotMatch | UsernameExists | FillAllFields | RegistrationSuccessful.

(** [register_page], [Register]. *)
Definition register_page `{Bcrypt} (d : db) (new_username new_password
    confirm_password : string) (salt : list Z) : result (db * message) :=
  if negb (String.eqb new_password confirm_password) then Ok (d, PasswordsDoNotMatch)
  else match get_user d new_username with
       | Some _ => Ok (d, UsernameExists)
       | None =>
           if String.eqb new_username "" || String.eqb new_password ""
           then Ok (d, FillAllFields)
           else d' <- create_user d new_username new_password salt ;;
                Ok (d', RegistrationSuccessful)
       end.

End Medi5.

(* ========================================================================= *)
(** * Properties *)
(* ========================================================================= *)

Import Sqlite Pandas Sklearn.

(** The digest is computed on concrete passwords only. *)
Arguments Sha256.sha256 : simpl never.
Arguments Dash15.hash_pw : simpl never.
Arguments Medi12.hash_pwd : simpl never.

(** ** Known answers of the embedded library functions *)

Example sha256_abc :
  Sha256.hexdigest (Sha256.sha256 (str_encode "abc"))
  = "ba7816bf8f01cfea414140de5dae2223b00361a396177a9cb410ff61f20015ad".
Proof. vm_compute. reflexivity. Qed.

Example sha256_empty :
  Sha256.hexdigest (Sha256.sha256 (str_encode ""))
  = "e3b0c44298fc1c149afbf4c8996fb92427ae41e4649b934ca495991b7852b855".
Proof. vm_compute. reflexivity. Qed.

Example sha256_two_blocks :
  Sha256.hexdigest (Sha256.sha256 (repeat 97 56))
  = "b35439a4ac6f0948b6d6f9e3c6af0f5f590ce20f1bde7090ef7970686ec6738a".
Proof. vm_compute. reflexivity. Qed.

Example monday_morning :
  (dt_hour (datetime 2025 6 9 8 0 0), dt_dayofweek (datetime 2025 6 9 8 0 0),
   dt_day_name (datetime 2025 6 9 8 0 0)) = (8, 0, "Monday").
Proof. reflexivity. Qed.

Example sunday_night :
  (dt_hour (datetime 2025 11 2 23 59 59), dt_day_name (datetime 2025 11 2 23 59 59))
  = (23, "Sunday").
Proof. reflexivity. Qed.

(** ** Tables *)

Section TableFacts.
Context {Row : Type}.
Implicit Types (t : table Row) (r : Row).

Lemma max_rowid_ge (l : list (Z * Row)) x : In x l -> fst x <= max_rowid l.
Proof.
  induction l as [|y l IH]; simpl; [tauto|].
  intros [->|Hin]; [lia|]. specialize (IH Hin). lia.
Qed.

Lemma max_rowid_nonneg (l : list (Z * Row)) : 0 <= max_rowid l.
Proof. induction l; simpl; lia. Qed.

Lemma next_rowid_fresh t x : In x (rows t) -> fst x < next_rowid t.
Proof. intros Hin. apply max_rowid_ge in Hin. unfold next_rowid. lia. Qed.

Lemma next_rowid_pos t : 0 < next_rowid t.
Proof. unfold next_rowid. pose proof (max_rowid_nonneg (rows t)). lia. Qed.

Lemma rows_insert t r : rows (insert t r) = rows t ++ [(next_rowid t, r)].
Proof. reflexivity. Qed.

Lemma select_insert (p : Row -> bool) t r :
  select p (insert t r)
  = select p t ++ (if p r then [(next_rowid t, r)] else []).
Proof.
  unfold select. rewrite rows_insert, filter_app. simpl.
  destruct (p r); reflexivity.
Qed.

Lemma select_In (p : Row -> bool) t x :
  In x (select p t) <-> In x (rows t) /\ p (snd x) = true.
Proof. unfold select. apply filter_In. Qed.

Lemma wf_empty : wf (@empty Row).
Proof. split; constructor. Qed.

Lemma StronglySorted_snoc (l : list Z) (x : Z) :
  StronglySorted Z.lt l -> Forall (fun y => y < x) l ->
  StronglySorted Z.lt (l ++ [x]).
Proof.
  induction 1 as [|y l Hs IH Hy]; intros Hall; simpl.
  - repeat constructor.
  - inversion Hall; subst. constructor; [auto|].
    apply Forall_app; split; [assumption|]. constructor; [assumption|constructor].
Qed.

Lemma wf_insert t r : wf t -> wf (insert t r).
Proof.
  intros [Hs Hb]. split.
  - rewrite rows_insert, map_app. simpl. apply StronglySorted_snoc; [assumption|].
    apply Forall_map, Forall_forall. intros x Hin. now apply next_rowid_fresh.
  - rewrite rows_insert. simpl. apply Forall_app. split.
    + apply Forall_forall. intros x Hin. rewrite Forall_forall in Hb.
      specialize (Hb x Hin). pose proof (next_rowid_fresh t x Hin). lia.
    + constructor; [|constructor]. simpl. pose proof (next_rowid_pos t). lia.
Qed.

Lemma StronglySorted_map_filter {A B} (R : B -> B -> Prop) (f : A -> B)
    (p : A -> bool) (l : list A) :
  StronglySorted R (map f l) -> StronglySorted R (map f (filter p l)).
Proof.
  induction l as [|x l IH]; simpl; intros Hs; [constructor|].
  inversion Hs as [|? ? Hs' Hall]; subst.
  destruct (p x); simpl; [constructor|]; auto.
  rewrite Forall_forall in *. intros y Hy. apply Hall.
  apply in_map_iff in Hy as [z [<- Hz]]. apply filter_In in Hz as [Hz _].
  now apply in_map.
Qed.

Lemma select_sorted (p : Row -> bool) t :
  wf t -> StronglySorted Z.lt (map fst (select p t)).
Proof. intros [Hs _]. now apply StronglySorted_map_filter. Qed.

Lemma StronglySorted_lt_NoDup (l : list Z) : StronglySorted Z.lt l -> NoDup l.
Proof.
  induction 1 as [|x l Hs IH Hall]; constructor; auto.
  intros Hin. rewrite Forall_forall in Hall. specialize (Hall x Hin). lia.
Qed.

(** The rowids of a scan are distinct. *)
Lemma select_NoDup (p : Row -> bool) t : wf t -> NoDup (map fst (select p t)).
Proof. intros Hwf. now apply StronglySorted_lt_NoDup, select_sorted. Qed.
End TableFacts.

Section TableAppend.
Context {Row : Type}.

Lemma filter_nil_iff {A} (f : A -> bool) (l : list A) :
  (forall x, In x l -> f x = false) -> filter f l = [].
Proof.
  induction l as [|y l IH]; simpl; intros Hf; [reflexivity|].
  rewrite (Hf y (or_introl eq_refl)). apply IH. intros x Hx. apply Hf. now right.
Qed.

(** A row inserted into a table shows up exactly once, as it was given,
    at the end of every scan whose condition it meets. *)
Lemma select_insert_once (p : Row -> bool) (t : table Row) (r : Row) :
  p r = true ->
  select p (insert t r) = select p t ++ [(next_rowid t, r)]
  /\ length (filter (fun x => fst x =? next_rowid t) (select p (insert t r))) = 1%nat
  /\ (forall x, In x (select p (insert t r)) -> fst x = next_rowid t -> snd x = r).
Proof.
  intros Hp. rewrite select_insert, Hp.
  assert (Hold : forall x, In x (select p t) -> (fst x =? next_rowid t) = false).
  { intros x Hx. apply select_In in Hx as [Hx _].
    apply next_rowid_fresh in Hx. apply Z.eqb_neq. lia. }
  split; [reflexivity|]. split.
  - rewrite filter_app, (filter_nil_iff _ _ Hold). simpl.
    now rewrite Z.eqb_refl.
  - intros x Hx Hid. apply in_app_or in Hx as [Hx|[<-|[]]]; [|reflexivity].
    apply Hold in Hx. apply Z.eqb_neq in Hx. contradiction.
Qed.

Lemma select_insert_other (p : Row -> bool) (t : table Row) (r : Row) :
  p r = false -> select p (insert t r) = select p t.
Proof. intros Hp. rewrite select_insert, Hp. apply app_nil_r. Qed.
End TableAppend.

(** ** C5: append, then list *)

(** C5. For every (user, medication, status) triple, [log_dose] followed by
    [get_logs] of that user yields the user's earlier events followed by the
    new one: the new event (identified by the id the table gave it) occurs
    exactly once, with the status, medication and time passed to
    [log_dose].  Stated for [12medi.py] and for [1medipredict.py]. *)
Theorem C5_append_then_list_once :
  (forall (d : Medi12.db) (u : string) (mid tk : Z) (now : Timestamp),
      let d' := Medi12.log_dose d u mid tk now in
      let id := next_rowid (Medi12.dose_log d) in
      Medi12.get_logs d' u = Medi12.get_logs d u ++ [(id, Medi12.Log u mid now tk)]
      /\ length (filter (fun x => fst x =? id) (Medi12.get_logs d' u)) = 1%nat
      /\ (forall x, In x (Medi12.get_logs d' u) -> fst x = id ->
                    snd x = Medi12.Log u mid now tk))
  /\
  (forall (d : Predict1.db) (pid mid : Z) (sched st : string) (now : Timestamp),
      let d' := Predict1.log_dose d pid mid sched st now in
      let id := next_rowid (Predict1.logs d) in
      Predict1.get_logs d' (Some pid)
      = Predict1.get_logs d (Some pid) ++ [(id, Predict1.Log pid mid sched st now)]
      /\ length (filter (fun x => fst x =? id) (Predict1.get_logs d' (Some pid))) = 1%nat
      /\ (forall x, In x (Predict1.get_logs d' (Some pid)) -> fst x = id ->
                    snd x = Predict1.Log pid mid sched st now)).
Proof.
  split.
  - intros d u mid tk now d' id. subst d' id.
    unfold Medi12.get_logs, Medi12.log_dose. simpl.
    apply select_insert_once. simpl. apply String.eqb_refl.
  - intros d pid mid sched st now d' id. subst d' id.
    unfold Predict1.get_logs, Predict1.log_dose. simpl.
    apply select_insert_once. simpl. apply Z.eqb_refl.
Qed.

Example log_then_list :
  Medi12.get_logs
    (Medi12.log_dose
       (Medi12.log_dose Medi12.init_db "demo" 1 1 (datetime 2025 6 9 8 0 0))
       "demo" 2 0 (datetime 2025 6 9 21 5 0)) "demo"
  = [(1, Medi12.Log "demo" 1 (datetime 2025 6 9 8 0 0) 1);
     (2, Medi12.Log "demo" 2 (datetime 2025 6 9 21 5 0) 0)].
Proof. reflexivity. Qed.

(** ** C4: listing a user's events *)

(** C4 (as amended). [get_logs] returns all of the user's rows and only
    those, in storage (rowid, that is insertion) order: there is no
    [ORDER BY].  The result is ordered by occurrence time whenever the
    stored clock readings do not decrease along the table; for a user with
    no events it is the empty sequence. *)
Theorem C4_get_logs_in_insertion_order (d : Medi12.db) (u : string) :
  wf (Medi12.dose_log d) ->
  (forall x, In x (Medi12.get_logs d u)
             <-> In x (rows (Medi12.dose_log d)) /\ Medi12.log_username (snd x) = u)
  /\ StronglySorted Z.lt (map fst (Medi12.get_logs d u))
  /\ (StronglySorted Z.le (map (fun x => Medi12.ts (snd x)) (rows (Medi12.dose_log d))) ->
      StronglySorted Z.le (map (fun x => Medi12.ts (snd x)) (Medi12.get_logs d u)))
  /\ ((forall x, In x (rows (Medi12.dose_log d)) -> Medi12.log_username (snd x) <> u) ->
      Medi12.get_logs d u = [])
  /\ (forall (S : Solver) (d15 : Dash15.db) (uid h : Z) (day : string),
         (forall x, In x (rows (Dash15.doses d15)) -> Dash15.dose_user_id (snd x) <> uid) ->
         Dash15.user_doses d15 uid = []
         /\ snd (Dash15.page_dashboard_insights d15 uid h day) = Dash15.NoLogsYet).
Proof.
  intros Hwf. unfold Medi12.get_logs. split; [|split; [|split; [|split]]].
  - intros x. rewrite select_In, String.eqb_eq. reflexivity.
  - now apply select_sorted.
  - apply StronglySorted_map_filter.
  - intros Hnone. apply filter_nil_iff. intros x Hx.
    apply String.eqb_neq. now apply Hnone.
  - intros S d15 uid h day Hnone.
    assert (Hd : Dash15.user_doses d15 uid = []).
    { apply filter_nil_iff. intros x Hx. apply Z.eqb_neq. now apply Hnone. }
    split; [assumption|]. unfold Dash15.page_dashboard_insights. now rewrite Hd.
Qed.

Lemma C4_get_logs_in_insertion_order_witness :
  let d := Medi12.log_dose
             (Medi12.log_dose Medi12.init_db "demo" 1 1 (datetime 2025 6 9 8 0 0))
             "bob" 2 0 (datetime 2025 6 9 21 5 0) in
  map fst (Medi12.get_logs d "demo") = [1]
  /\ StronglySorted Z.lt (map fst (Medi12.get_logs d "demo")).
Proof.
  split; [reflexivity|].
  apply (C4_get_logs_in_insertion_order
           (Medi12.log_dose
              (Medi12.log_dose Medi12.init_db "demo" 1 1 (datetime 2025 6 9 8 0 0))
              "bob" 2 0 (datetime 2025 6 9 21 5 0)) "demo").
  simpl. apply wf_insert, wf_insert, wf_empty.
Defined.

(** The clock is the naive local [datetime.now()]: on 2 November 2025 a
    dose logged at 01:50 and another twenty minutes later, after the clocks
    went back, at 01:10, are listed in the order they were logged. *)
Lemma C4_counterexample :
  let d := Medi12.log_dose
             (Medi12.log_dose Medi12.init_db "demo" 1 1 (datetime 2025 11 2 1 50 0))
             "demo" 1 1 (datetime 2025 11 2 1 10 0) in
  ~ Sorted Z.le (map (fun x => Medi12.ts (snd x)) (Medi12.get_logs d "demo")).
Proof.
  cbv zeta. intros Hs. vm_compute in Hs.
  inversion Hs as [|? ? _ Hhd]; subst. inversion Hhd as [|? ? Hle]; subst.
  vm_compute in Hle. apply Hle. reflexivity.
Qed.

(** ** The Log Dose tab of [15.py] *)

Section LogDose15.
Import Dash15.


Lemma status_check_label st : status_check (status_label st) = true.
Proof. destruct st; reflexivity. Qed.

(** A row of the select box is a medicine of that user. *)
Lemma user_meds_owned d uid i name :
  In (i, name) (user_meds d uid) <->
  exists m, In (i, m) (rows (meds d)) /\ med_user_id m = uid /\ med_name m = name.
Proof.
  unfold user_meds. rewrite in_map_iff. split.
  - intros [[j m] [Heq Hin]]. simpl in Heq. inversion Heq; subst.
    apply select_In in Hin as [Hin Hu]. simpl in Hu. apply Z.eqb_eq in Hu.
    exists m. auto.
  - intros [m [Hin [Hu Hn]]]. exists (i, m). simpl. split; [now rewrite Hn|].
    apply select_In. split; [assumption|]. simpl. now apply Z.eqb_eq.
Qed.

Lemma user_meds_sorted d uid :
  wf (meds d) -> StronglySorted Z.lt (map fst (user_meds d uid)).
Proof.
  intros Hwf. unfold user_meds. rewrite map_map. simpl.
  now apply select_sorted.
Qed.

(** What [resolve_med] returns: the first row with that name. *)
Lemma resolve_med_spec ms med :
  In med (map snd ms) ->
  exists i pre post,
    resolve_med ms med = Ok i /\ ms = pre ++ (i, med) :: post
    /\ (forall x, In x pre -> snd x <> med).
Proof.
  unfold resolve_med. induction ms as [|[j n] ms IH]; simpl; [tauto|].
  intros Hin. destruct (String.eqb_spec n med) as [->|Hne].
  - exists j, [], ms. simpl. repeat split; tauto.
  - destruct Hin as [Heq|Hin]; [contradiction|].
    destruct (IH Hin) as [i [pre [post [Hr [-> Hpre]]]]].
    exists i, ((j, n) :: pre), post. simpl. repeat split; [assumption|].
    intros x [<-|Hx]; simpl; auto.
Qed.

Lemma resolve_med_In ms med i :
  resolve_med ms med = Ok i -> In (i, med) ms.
Proof.
  unfold resolve_med.
  destruct (filter _ ms) as [|[j n] l] eqn:Hf; [discriminate|].
  intros [= ->].
  assert (Hin : In (i, n) (filter (fun r => String.eqb (snd r) med) ms))
    by (rewrite Hf; now left).
  apply filter_In in Hin as [Hin Hn]. simpl in Hn.
  apply String.eqb_eq in Hn. now subst.
Qed.

(** What the Log Dose tab does to the store. *)
Lemma page_dashboard_log_inv d uid med st now d' m :
  page_dashboard_log d uid med st now = Ok (d', m) ->
  (m = AddMedicineFirst /\ d' = d /\ user_meds d uid = [])
  \/ (m = Logged /\ exists mid,
        resolve_med (user_meds d uid) med = Ok mid
        /\ d' = DB (users d) (meds d)
                   (insert (doses d) (Dose uid mid now (status_label st)))).
Proof.
  unfold page_dashboard_log. destruct (user_meds d uid) as [|x l] eqn:Hm.
  - intros [= <- <-]. left. auto.
  - destruct (resolve_med (x :: l) med) as [mid|e] eqn:Hr; simpl; [|discriminate].
    unfold insert_dose. rewrite status_check_label. simpl.
    intros [= <- <-]. right. split; [reflexivity|]. exists mid. auto.
Qed.
End LogDose15.

(** ** C3: what is checked when a dose is logged *)



(** A status number of 64 bits and more is not stored. *)
Example log_dose_overflow :
  Medi12.call_log_dose Medi12.init_db "demo" 1 (2 ^ 63) (datetime 2025 6 9 8 0 0)
  = Raise OverflowError
  /\ exists d1,
       Medi12.call_log_dose Medi12.init_db "demo" 1 (2 ^ 63 - 1)
         (datetime 2025 6 9 8 0 0) = Ok d1.
Proof. split; [reflexivity|]. eexists. reflexivity. Qed.

(** ** C10: medicines with the same name *)

Lemma StronglySorted_app_lt (pre post : list Z) (x y : Z) :
  StronglySorted Z.lt (pre ++ x :: post) -> In y post -> x < y.
Proof.
  induction pre as [|p pre IH]; simpl; intros Hs Hin.
  - inversion Hs as [|? ? _ Hall]; subst. rewrite Forall_forall in Hall. auto.
  - inversion Hs; subst. auto.
Qed.

(** C10. When the name chosen in the Log Dose tab is the name of several of
    the user's medicines, the tab resolves it to the one with the smallest
    id, the first stored, and the event it appends is attributed to that
    medicine. *)
Theorem C10_same_name_resolves_to_smallest_id
    (d : Dash15.db) (uid : Z) (med : string) (st : Dash15.Status) (now : Timestamp) :
  wf (Dash15.meds d) ->
  In med (map snd (Dash15.user_meds d uid)) ->
  exists mid,
    Dash15.page_dashboard_log d uid med st now
    = Ok (Dash15.DB (Dash15.users d) (Dash15.meds d)
            (insert (Dash15.doses d)
               (Dash15.Dose uid mid now (Dash15.status_label st))),
          Dash15.Logged)
    /\ In (mid, med) (Dash15.user_meds d uid)
    /\ (forall i, In (i, med) (Dash15.user_meds d uid) -> mid <= i).
Proof.
  intros Hwf Hin.
  pose proof (user_meds_sorted d uid Hwf) as Hs.
  destruct (resolve_med_spec _ _ Hin) as [mid [pre [post [Hr [Hms Hpre]]]]].
  exists mid. split; [|split].
  - unfold Dash15.page_dashboard_log.
    destruct (Dash15.user_meds d uid) eqn:Hm; [destruct pre; discriminate|].
    rewrite Hr. simpl. unfold Dash15.insert_dose. now rewrite status_check_label.
  - rewrite Hms. apply in_or_app. right. now left.
  - intros i Hi. rewrite Hms in Hi, Hs.
    apply in_app_or in Hi as [Hi|[Hi|Hi]].
    + apply Hpre in Hi. simpl in Hi. contradiction.
    + inversion Hi. lia.
    + rewrite map_app in Hs. simpl in Hs.
      pose proof (StronglySorted_app_lt _ _ _ i Hs (in_map fst _ _ Hi)). simpl in *. lia.
Qed.

(** Two medicines named Aspirin, ids 1 and 2: the dose goes to 1. *)
Lemma C10_same_name_resolves_to_smallest_id_witness :
  let d := fst (Dash15.page_dashboard_meds
                  (fst (Dash15.page_dashboard_meds Dash15.init_db 1 "Aspirin" "10mg" "Morning"))
                  1 "Aspirin" "20mg" "Evening") in
  map fst (Dash15.user_meds d 1) = [1; 2]
  /\ exists mid,
       Dash15.page_dashboard_log d 1 "Aspirin" Dash15.Missed (datetime 2025 6 9 8 0 0)
       = Ok (Dash15.DB (Dash15.users d) (Dash15.meds d)
               (insert (Dash15.doses d)
                  (Dash15.Dose 1 mid (datetime 2025 6 9 8 0 0) "Missed")),
             Dash15.Logged)
       /\ In (mid, "Aspirin") (Dash15.user_meds d 1)
       /\ (forall i, In (i, "Aspirin") (Dash15.user_meds d 1) -> mid <= i).
Proof.
  split; [reflexivity|].
  apply (C10_same_name_resolves_to_smallest_id
           (fst (Dash15.page_dashboard_meds
                   (fst (Dash15.page_dashboard_meds Dash15.init_db 1 "Aspirin" "10mg" "Morning"))
                   1 "Aspirin" "20mg" "Evening"))
           1 "Aspirin" Dash15.Missed (datetime 2025 6 9 8 0 0)).
  - simpl. apply wf_insert, wf_insert, wf_empty.
  - simpl. left. reflexivity.
Defined.

Example same_name_first_id :
  let d := fst (Dash15.page_dashboard_meds
                  (fst (Dash15.page_dashboard_meds Dash15.init_db 1 "Aspirin" "10mg" "Morning"))
                  1 "Aspirin" "20mg" "Evening") in
  Dash15.resolve_med (Dash15.user_meds d 1) "Aspirin" = Ok 1.
Proof. reflexivity. Qed.

(** ** C8: the stored credential *)

Lemma length_string_of_list_ascii (l : list ascii) :
  String.length (string_of_list_ascii l) = length l.
Proof. induction l; simpl; congruence. Qed.

Lemma hexdigest_length (s : Sha256.state) :
  String.length (Sha256.hexdigest s) = 64%nat.
Proof.
  unfold Sha256.hexdigest. rewrite length_string_of_list_ascii.
  rewrite !length_app. reflexivity.
Qed.

Lemma existsb_app_false {A} (f : A -> bool) (l1 l2 : list A) :
  existsb f (l1 ++ l2) = false -> existsb f l2 = false.
Proof. rewrite existsb_app. now intros [_ H]%orb_false_iff. Qed.

Lemma page_register_created d u p a g d' :
  Dash15.page_register d u p a g = Ok (d', Dash15.AccountCreated) ->
  existsb (fun r => String.eqb (Dash15.username (snd r)) u) (rows (Dash15.users d)) = false
  /\ d' = Dash15.DB (insert (Dash15.users d) (Dash15.User u (Dash15.hash_pw p) a g))
                    (Dash15.meds d) (Dash15.doses d).
Proof.
  unfold Dash15.page_register, Dash15.insert_user. simpl.
  destruct (String.eqb u "" || String.eqb p ""); [discriminate|].
  destruct (existsb _ _); [discriminate|]. intros [= <-]. auto.
Qed.

Section Bcrypt5.
Context `{Medi5.Bcrypt}.

(** The output of [hashpw] starts with the salt: salts of one length that
    differ give outputs that differ. *)
Lemma hashpw_salt_inj (p1 p2 s1 s2 : list Z) :
  length s1 = length s2 -> Medi5.hashpw p1 s1 = Medi5.hashpw p2 s2 -> s1 = s2.
Proof.
  unfold Medi5.hashpw. intros Hl He.
  apply (f_equal (firstn (length s1))) in He.
  rewrite firstn_app, firstn_all, Nat.sub_diag in He.
  rewrite Hl, firstn_app, firstn_all, Nat.sub_diag in He.
  simpl in He. now rewrite !app_nil_r in He.
Qed.

Lemma get_user5_none d u :
  Medi5.get_user d u = None <->
  existsb (fun r => String.eqb (Medi5.username (snd r)) u) (rows (Medi5.users d)) = false.
Proof.
  unfold Medi5.get_user, select.
  induction (rows (Medi5.users d)) as [|[i r] l IH]; simpl; [tauto|].
  destruct (String.eqb (Medi5.username r) u); simpl; [split; discriminate|exact IH].
Qed.

Lemma register_page_ok d u p c salt d' :
  Medi5.register_page d u p c salt = Ok (d', Medi5.RegistrationSuccessful) ->
  p = c /\ Medi5.get_user d u = None
  /\ d' = Medi5.DB (insert (Medi5.users d) (Medi5.User u (Medi5.hash_password p salt))).
Proof.
  unfold Medi5.register_page.
  destruct (String.eqb_spec p c) as [->|Hne]; simpl; [|discriminate].
  destruct (Medi5.get_user d u) eqn:Hg; [discriminate|].
  destruct (String.eqb u "" || String.eqb c ""); [discriminate|].
  unfold Medi5.create_user. rewrite (proj1 (get_user5_none d u) Hg). simpl.
  intros [= <-]. auto.
Qed.

Lemma get_user5_insert_same d u h :
  Medi5.get_user d u = None ->
  Medi5.get_user (Medi5.DB (insert (Medi5.users d) (Medi5.User u h))) u
  = Some (Medi5.User u h).
Proof.
  unfold Medi5.get_user. simpl. rewrite select_insert. simpl.
  rewrite String.eqb_refl.
  destruct (select _ (Medi5.users d)) as [|[i r] l]; [reflexivity|discriminate].
Qed.

Lemma get_user5_insert_other d u v h :
  u <> v ->
  Medi5.get_user (Medi5.DB (insert (Medi5.users d) (Medi5.User v h))) u
  = Medi5.get_user d u.
Proof.
  intros Hne. unfold Medi5.get_user. simpl. rewrite select_insert_other; [reflexivity|].
  simpl. apply String.eqb_neq. congruence.
Qed.
End Bcrypt5.

(** C8 (as amended).  In [15.py] and [12medi.py] the credential stored at
    registration is the unsalted SHA-256 hex digest of the password: two
    users who register with the same password get the same stored
    credential.  What is stored is the 64 character digest, not the
    password (any password of another length differs from it).  In
    [5medi.py] the credential is the bcrypt hash under a salt drawn at
    registration: the same password under two salts that differ gives two
    credentials that differ. *)
Theorem C8_stored_credential :
  (forall (d d1 d2 : Dash15.db) (u1 u2 p : string) (a1 a2 : Z) (g1 g2 : string),
      Dash15.page_register d u1 p a1 g1 = Ok (d1, Dash15.AccountCreated) ->
      Dash15.page_register d1 u2 p a2 g2 = Ok (d2, Dash15.AccountCreated) ->
      u1 <> u2
      /\ rows (Dash15.users d2)
         = rows (Dash15.users d)
           ++ [(next_rowid (Dash15.users d), Dash15.User u1 (Dash15.hash_pw p) a1 g1);
               (next_rowid (Dash15.users d1), Dash15.User u2 (Dash15.hash_pw p) a2 g2)])
  /\
  (forall (d d1 d2 : Medi12.db) (u1 u2 e1 e2 p : string) (a1 a2 : Z)
          (n1 n2 t1 t2 : string),
      Medi12.create_user d u1 e1 p a1 n1 t1 = Ok d1 ->
      Medi12.create_user d1 u2 e2 p a2 n2 t2 = Ok d2 ->
      u1 <> u2
      /\ Medi12.get_user d2 u1 = Some (Medi12.User u1 e1 (Medi12.hash_pwd p) a1 n1 t1)
      /\ Medi12.get_user d2 u2 = Some (Medi12.User u2 e2 (Medi12.hash_pwd p) a2 n2 t2))
  /\
  (forall p : string,
      Medi12.hash_pwd p = Dash15.hash_pw p
      /\ String.length (Dash15.hash_pw p) = 64%nat
      /\ (String.length p <> 64%nat -> Dash15.hash_pw p <> p))
  /\
  (forall (B : Medi5.Bcrypt) (d d1 d2 : Medi5.db) (u1 u2 p : string)
          (s1 s2 : list Z),
      Medi5.register_page d u1 p p s1 = Ok (d1, Medi5.RegistrationSuccessful) ->
      Medi5.register_page d1 u2 p p s2 = Ok (d2, Medi5.RegistrationSuccessful) ->
      u1 <> u2
      /\ Medi5.get_user d2 u1 = Some (Medi5.User u1 (Medi5.hash_password p s1))
      /\ Medi5.get_user d2 u2 = Some (Medi5.User u2 (Medi5.hash_password p s2))
      /\ (length s1 = length s2 -> s1 <> s2 ->
          Medi5.hash_password p s1 <> Medi5.hash_password p s2)).
Proof.
  split; [|split; [|split]].
  - intros d d1 d2 u1 u2 p a1 a2 g1 g2 H1 H2.
    apply page_register_created in H1 as [_ ->].
    apply page_register_created in H2 as [Hex ->]. simpl in *.
    split.
    + apply existsb_app_false in Hex. simpl in Hex.
      rewrite orb_false_r in Hex. now apply String.eqb_neq in Hex.
    + rewrite <- app_assoc. reflexivity.
  - intros d d1 d2 u1 u2 e1 e2 p a1 a2 n1 n2 t1 t2.
    unfold Medi12.create_user.
    destruct (existsb _ (rows (Medi12.users d))) eqn:Hex1; [discriminate|].
    intros [= <-]. simpl.
    destruct (existsb _ (rows (Medi12.users d) ++ _)) eqn:Hex2; [discriminate|].
    intros [= <-]. simpl.
    assert (Hne : u1 <> u2).
    { apply existsb_app_false in Hex2. simpl in Hex2.
      rewrite orb_false_r in Hex2. now apply String.eqb_neq in Hex2. }
    assert (Hold1 : filter (fun r => String.eqb (Medi12.username (snd r)) u1)
                           (rows (Medi12.users d)) = []).
    { apply filter_nil_iff. intros x Hx.
      destruct (String.eqb (Medi12.username (snd x)) u1) eqn:E; [|reflexivity].
      exfalso. assert (existsb (fun r => String.eqb (Medi12.username (snd r)) u1)
                               (rows (Medi12.users d)) = true)
        by (apply existsb_exists; eauto). congruence. }
    assert (Hold2 : filter (fun r => String.eqb (Medi12.username (snd r)) u2)
                           (rows (Medi12.users d)) = []).
    { apply filter_nil_iff. intros x Hx.
      destruct (String.eqb (Medi12.username (snd x)) u2) eqn:E; [|reflexivity].
      exfalso. assert (existsb (fun r => String.eqb (Medi12.username (snd r)) u2)
                               (rows (Medi12.users d ) ++
                                [(next_rowid (Medi12.users d),
                                  Medi12.User u1 e1 (Medi12.hash_pwd p) a1 n1 t1)]) = true).
      { apply existsb_exists. exists x. split; [apply in_or_app; now left|assumption]. }
      congruence. }
    split; [assumption|].
    unfold Medi12.get_user, select. simpl.
    rewrite !filter_app, Hold1, Hold2. simpl.
    rewrite !String.eqb_refl.
    apply String.eqb_neq in Hne as Hne1. rewrite Hne1.
    assert (Hne2 : String.eqb u2 u1 = false) by (apply String.eqb_neq; congruence).
    rewrite Hne2. simpl. auto.
  - intros p. split; [reflexivity|]. split.
    + apply hexdigest_length.
    + intros Hlen Heq. apply Hlen. rewrite <- Heq at 1. apply hexdigest_length.
  - intros B d d1 d2 u1 u2 p s1 s2 H1 H2.
    apply register_page_ok in H1 as [_ [Hg1 ->]].
    apply register_page_ok in H2 as [_ [Hg2 ->]].
    assert (Hne : u1 <> u2).
    { intros ->. rewrite get_user5_insert_same in Hg2 by assumption. discriminate. }
    split; [assumption|]. split; [|split].
    + rewrite get_user5_insert_other by assumption.
      now apply get_user5_insert_same.
    + apply get_user5_insert_same. exact Hg2.
    + intros Hl Hs He. apply Hs. unfold Medi5.hash_password in He.
      now apply hashpw_salt_inj in He.
Qed.

(** [alice] and [bob] both choose [hunter2]. *)
Lemma C8_stored_credential_witness :
  exists d1 d2 : Dash15.db,
    "alice" <> "bob"
    /\ rows (Dash15.users d2)
       = rows (Dash15.users Dash15.init_db)
         ++ [(next_rowid (Dash15.users Dash15.init_db),
              Dash15.User "alice" (Dash15.hash_pw "hunter2") 30 "Female");
             (next_rowid (Dash15.users d1),
              Dash15.User "bob" (Dash15.hash_pw "hunter2") 41 "Male")].
Proof.
  eexists; eexists.
  apply (proj1 C8_stored_credential Dash15.init_db);
    vm_compute; reflexivity.
Defined.

(** Same password, same stored credential. *)
Lemma C8_counterexample :
  exists d1 d2 : Dash15.db,
    Dash15.page_register Dash15.init_db "alice" "hunter2" 30 "Female"
    = Ok (d1, Dash15.AccountCreated)
    /\ Dash15.page_register d1 "bob" "hunter2" 41 "Male"
       = Ok (d2, Dash15.AccountCreated)
    /\ map (fun r => (Dash15.username (snd r), Dash15.password (snd r)))
           (rows (Dash15.users d2))
       = [("alice", "f52fbd32b2b3b86ff88ef6c490628285f482af15ddcb29541f94bcf526a3f6c7");
          ("bob", "f52fbd32b2b3b86ff88ef6c490628285f482af15ddcb29541f94bcf526a3f6c7")].
Proof.
  eexists; eexists. split; [|split].
  - vm_compute. reflexivity.
  - vm_compute. reflexivity.
  - vm_compute. reflexivity.
Qed.

(** The credential check at login is the same digest: after a registration
    the user logs in with the password, and gets the id of the new row. *)
Lemma login_after_register d u p a g d' :
  Dash15.page_register d u p a g = Ok (d', Dash15.AccountCreated) ->
  Dash15.page_login d' u p = Some (next_rowid (Dash15.users d)).
Proof.
  intros Hreg. apply page_register_created in Hreg as [Hex ->].
  assert (Hold : select (fun r => String.eqb (Dash15.username r) u
                                  && String.eqb (Dash15.password r) (Dash15.hash_pw p))
                        (Dash15.users d) = []).
  { apply filter_nil_iff. intros x Hx. apply andb_false_iff. left.
    destruct (String.eqb (Dash15.username (snd x)) u) eqn:E; [|reflexivity].
    assert (existsb (fun r => String.eqb (Dash15.username (snd r)) u)
                    (rows (Dash15.users d)) = true)
      by (apply existsb_exists; eauto).
    congruence. }
  unfold Dash15.page_login. cbn [Dash15.users]. rewrite select_insert, Hold.
  cbn [Dash15.username Dash15.password app]. rewrite !String.eqb_refl.
  reflexivity.
Qed.

Lemma verify_pwd_hash (p : string) : Medi12.verify_pwd p (Medi12.hash_pwd p) = true.
Proof. apply String.eqb_refl. Qed.

(** Two users of [5medi.py] with one password and two salts. *)
Example bcrypt_two_salts :
  let s1 := repeat 65 29 in
  let s2 := repeat 66 29 in
  match @Medi5.register_page Medi5.null_bcrypt Medi5.init_db "alice" "hunter2" "hunter2" s1 with
  | Ok (d1, _) =>
      match @Medi5.register_page Medi5.null_bcrypt d1 "bob" "hunter2" "hunter2" s2 with
      | Ok (d2, _) =>
          map (fun r => firstn 1 (Medi5.password_hash (snd r))) (rows (Medi5.users d2))
      | Raise _ => []
      end
  | Raise _ => []
  end = [[65]; [66]].
Proof. reflexivity. Qed.

(** ** The heat-map *)

Section GroupByFacts.
Context {K : Type} (cmp : K -> K -> comparison).

Lemma total_bump (k : K) (l : list (K * Z)) : total (bump cmp k l) = total l + 1.
Proof.
  induction l as [|[k' n] l IH]; [reflexivity|].
  cbn [bump]. destruct (cmp k k'); cbn [total]; lia.
Qed.

(** The counts of a [groupby(...).size()] add up to the number of rows. *)
Lemma groupby_size_total (keys : list K) :
  total (groupby_size cmp keys) = Z.of_nat (length keys).
Proof.
  unfold groupby_size.
  assert (Hgen : forall acc, total (fold_left (fun acc k => bump cmp k acc) keys acc)
                             = total acc + Z.of_nat (length keys)).
  { induction keys as [|k keys IH]; intros acc; cbn [length fold_left]; [lia|].
    rewrite IH, total_bump. lia. }
  now rewrite Hgen.
Qed.
End GroupByFacts.

(** ** C9: viewing the insights twice *)

(** C9. The Insights tab only reads the store: viewing it twice in a row,
    with no dose logged in between, leaves the store as it was and renders
    the same heat-map counts and, the fit being a function of the table it
    is given, the same risk for the same query. *)
Theorem C9_insights_twice_identical `{Solver}
    (d : Dash15.db) (uid h : Z) (day : string) :
  let first := Dash15.page_dashboard_insights d uid h day in
  let second := Dash15.page_dashboard_insights (fst first) uid h day in
  fst first = d /\ fst second = d /\ snd second = snd first.
Proof.
  cbv zeta. unfold Dash15.page_dashboard_insights.
  destruct (Dash15.user_doses d uid) as [|x l] eqn:Hd; simpl; rewrite Hd; auto.
Qed.

(** Scenario A of the specification: the counts of the heat-map. *)
Example scenario_A_heat :
  let log d st ts :=
    match Dash15.page_dashboard_log d 1 "Aspirin" st ts with
    | Ok (d', _) => d'
    | Raise _ => d
    end in
  let d0 := fst (Dash15.page_dashboard_meds Dash15.init_db 1 "Aspirin" "10mg" "Morning") in
  let d3 := log (log (log d0 Dash15.Taken (datetime 2025 6 9 8 0 0))
                     Dash15.Missed (datetime 2025 6 9 8 30 0))
                Dash15.Taken (datetime 2025 6 10 8 1 0) in
  Dash15.heat (Dash15.user_doses d3 1)
  = [("Monday", 8, "Missed", 1); ("Monday", 8, "Taken", 1); ("Tuesday", 8, "Taken", 1)]
  /\ Dash15.day_choices (Dash15.user_doses d3 1) = ["Monday"; "Tuesday"]
  /\ Dash15.labels (Dash15.user_doses d3 1) = [0; 1; 0].
Proof. repeat split. Qed.

(** ** C7: whose events the outputs depend on *)




(** ** The encoder *)

#[export] Instance string_category_laws : CategoryLaws string.
Proof. constructor. intros x y. apply String.eqb_eq. Qed.

#[export] Instance missing_category_laws : CategoryLaws (option string).
Proof.
  constructor. intros [x|] [y|]; simpl; try (split; congruence).
  rewrite String.eqb_eq. split; congruence.
Qed.

Section EncoderFacts.
Context {A : Type} `{CategoryLaws A}.

Lemma existsb_cat_eqb (v : A) (l : list A) :
  existsb (cat_eqb v) l = true <-> In v l.
Proof.
  rewrite existsb_exists. split.
  - intros [x [Hin Heq]]. apply cat_eqb_eq in Heq. now subst.
  - intros Hin. exists v. split; [assumption|]. now apply cat_eqb_eq.
Qed.

Lemma unique_acc_In (l acc : list A) (x : A) :
  In x (fold_left (fun acc x => if existsb (cat_eqb x) acc then acc else acc ++ [x]) l acc)
  <-> In x acc \/ In x l.
Proof.
  revert acc. induction l as [|y l IH]; intros acc; simpl; [tauto|].
  rewrite IH. destruct (existsb (cat_eqb y) acc) eqn:E.
  - apply existsb_cat_eqb in E. split; [tauto|].
    intros [Hx|[<-|Hx]]; tauto.
  - rewrite in_app_iff. simpl. tauto.
Qed.

Lemma unique_In (l : list A) (x : A) : In x (unique cat_eqb l) <-> In x l.
Proof. unfold unique. rewrite unique_acc_In. simpl. tauto. Qed.

Lemma insert_sorted_In (leb : A -> A -> bool) (l : list A) (a x : A) :
  In x (insert_sorted leb a l) <-> x = a \/ In x l.
Proof.
  induction l as [|y l IH]; simpl.
  - split; intros [->|[]]; auto.
  - destruct (leb a y); simpl; [|rewrite IH]; split; intuition congruence.
Qed.

Lemma sorted_In (leb : A -> A -> bool) (l : list A) (x : A) :
  In x (sorted leb l) <-> In x l.
Proof.
  induction l as [|y l IH]; simpl; [tauto|].
  rewrite insert_sorted_In, IH. split; intuition congruence.
Qed.

(** The categories of a fitted encoder are the values of its column. *)
Lemma categories_fit (hu : handle_unknown) (col : list A) (v : A) :
  In v (categories_ (ohe_fit hu col)) <-> In v col.
Proof. unfold ohe_fit. simpl. now rewrite sorted_In, unique_In. Qed.

Lemma known_fit (hu : handle_unknown) (col : list A) (v : A) :
  known (ohe_fit hu col) v = true <-> In v col.
Proof. unfold known. now rewrite existsb_cat_eqb, categories_fit. Qed.

Lemma known_fit_false (hu : handle_unknown) (col : list A) (v : A) :
  known (ohe_fit hu col) v = false <-> ~ In v col.
Proof.
  rewrite <- known_fit with (hu := hu).
  destruct (known (ohe_fit hu col) v); split; congruence.
Qed.

(** An unknown value has no column: its row is all zeros. *)
Lemma one_hot_unknown (enc : OneHotEncoder A) (v : A) :
  known enc v = false ->
  one_hot (categories_ enc) v = repeat 0 (length (categories_ enc)).
Proof.
  unfold known, one_hot. induction (categories_ enc) as [|c l IH]; simpl;
    [reflexivity|].
  intros [-> Hl]%orb_false_iff. simpl. f_equal. auto.
Qed.

(** [handle_unknown="ignore"] never raises. *)
Lemma ohe_transform_ignore (enc : OneHotEncoder A) (v : A) :
  handle enc = HU_ignore ->
  ohe_transform enc v = Ok (one_hot (categories_ enc) v).
Proof. unfold ohe_transform. now intros ->. Qed.

(** The default policy raises on an unknown value, and only then. *)
Lemma ohe_transform_error (enc : OneHotEncoder A) (v : A) :
  handle enc = HU_error ->
  ohe_transform enc v
  = if known enc v then Ok (one_hot (categories_ enc) v) else Raise ValueError.
Proof. unfold ohe_transform. intros ->. now destruct (known enc v). Qed.

Lemma ohe_transform_known (enc : OneHotEncoder A) (v : A) :
  known enc v = true ->
  ohe_transform enc v = Ok (one_hot (categories_ enc) v).
Proof. unfold ohe_transform. intros ->. now destruct (handle enc). Qed.

(** Transforming the column the encoder was fitted on never raises. *)
Lemma ct_transform_all_fit (hu : handle_unknown) (col : list A)
    (X : list (A * list Z)) :
  (forall row, In row X -> In (fst row) col) ->
  ct_transform_all (ohe_fit hu col) X
  = Ok (map (fun row => one_hot (categories_ (ohe_fit hu col)) (fst row) ++ snd row) X).
Proof.
  induction X as [|row X IH]; intros Hcol; [reflexivity|].
  simpl. unfold ct_transform at 1.
  rewrite ohe_transform_known
    by (apply known_fit, Hcol; now left).
  simpl. rewrite IH by (intros r Hr; apply Hcol; now right). reflexivity.
Qed.

(** Fitting a pipeline is fitting the classifier on the encoded table:
    the outcome is that of [LogisticRegression.fit]. *)
Lemma pipeline_fit_eq `{Solver} (hu : handle_unknown) (max_iter : Z)
    (X : list (A * list Z)) (y : list Z) :
  let enc := ohe_fit hu (map fst X) in
  pipeline_fit hu max_iter X y
  = match logreg_fit max_iter
            (map (fun row => one_hot (categories_ enc) (fst row) ++ snd row) X) y with
    | Ok m => Ok (Pipe enc m)
    | Raise e => Raise e
    end.
Proof.
  cbv zeta. unfold pipeline_fit.
  rewrite ct_transform_all_fit by (intros row Hr; now apply in_map).
  reflexivity.
Qed.
End EncoderFacts.

(** ** The classifier *)

Lemma expit_range (z : R) : (0 < expit z < 1)%R.
Proof.
  unfold expit. pose proof (exp_pos (- z)) as He.
  split.
  - apply Rdiv_lt_0_compat; lra.
  - apply (Rmult_lt_reg_r (1 + exp (- z))); [lra|].
    unfold Rdiv. rewrite Rmult_assoc, Rinv_l by lra. lra.
Qed.

(** Closes a goal bounding a class probability of [predict_proba m x]. *)
Ltac proba_bounds m x :=
  let Hr := fresh "Hr" in
  pose proof (expit_range (decision_function m x)) as Hr;
  unfold predict_proba in *; simpl in *; lra.

(** Both class probabilities lie strictly between 0 and 1 and sum to 1. *)
Lemma predict_proba_range (m : LogReg) (x : list Z) :
  (0 < fst (predict_proba m x) < 1)%R /\ (0 < snd (predict_proba m x) < 1)%R
  /\ (fst (predict_proba m x) + snd (predict_proba m x) = 1)%R.
Proof.
  repeat split; proba_bounds m x.
Qed.

(** ** C6: the feature rows *)

Lemma dt_hour_range (ts : Timestamp) : 0 <= dt_hour ts <= 23.
Proof. unfold dt_hour. pose proof (Z.mod_pos_bound (ts / US_PER_HOUR) 24). lia. Qed.

Lemma dt_dayofweek_range (ts : Timestamp) : 0 <= dt_dayofweek ts <= 6.
Proof.
  unfold dt_dayofweek. pose proof (Z.mod_pos_bound (ts / US_PER_DAY + 3) 7). lia.
Qed.

Lemma dt_day_name_nth (ts : Timestamp) :
  nth_error day_names (Z.to_nat (dt_dayofweek ts)) = Some (dt_day_name ts).
Proof.
  unfold dt_day_name. apply nth_error_nth'.
  pose proof (dt_dayofweek_range ts). simpl. lia.
Qed.

Lemma filter_find_NoDup {Row} (ms : list (Z * Row)) (k : Z) :
  NoDup (map fst ms) ->
  filter (fun m => fst m =? k) ms
  = match find (fun m => fst m =? k) ms with
    | Some m => [m]
    | None => []
    end.
Proof.
  induction ms as [|[i m] ms IH]; simpl; intros Hnd; [reflexivity|].
  inversion Hnd as [|? ? Hni Hnd']; subst.
  destruct (Z.eqb_spec i k) as [->|Hne]; [|auto].
  f_equal. apply filter_nil_iff. intros [j r] Hin. simpl.
  apply Z.eqb_neq. intros ->. apply Hni.
  change k with (fst (k, r)). now apply in_map.
Qed.

Lemma merge_left_cons {L R V} (on : L -> R -> bool) (col : R -> V)
    (l : L) (left : list L) (right : list R) :
  merge_left on col (l :: left) right
  = match filter (on l) right with
    | [] => [(l, None)]
    | ms => map (fun r => (l, Some (col r))) ms
    end ++ merge_left on col left right.
Proof. reflexivity. Qed.

(** With unique medicine ids the left merge keeps one row per event. *)
Lemma merged_one_row_per_event (logs : list (Z * Medi12.log))
    (ms : list (Z * Medi12.med)) :
  NoDup (map fst ms) ->
  Medi12.merged logs ms
  = map (fun l =>
           (l, option_map (fun m => Medi12.time_of_day (snd m))
                 (find (fun m => fst m =? Medi12.med_id (snd l)) ms))) logs.
Proof.
  intros Hnd. unfold Medi12.merged.
  induction logs as [|l logs IH]; [reflexivity|].
  rewrite merge_left_cons, IH, (filter_find_NoDup ms _ Hnd).
  destruct (find _ ms) eqn:Hf; simpl; rewrite Hf; reflexivity.
Qed.

(** The medicines [insights_tab] passes to [train_predictor] have distinct
    ids. *)
Lemma get_user_meds_NoDup (d : Medi12.db) (u : string) :
  wf (Medi12.meds d) -> NoDup (map fst (Medi12.get_user_meds d u)).
Proof. apply select_NoDup. Qed.

(** C6 (as amended).  [train_predictor] of [12medi.py] builds, for a user
    whose medicine ids are distinct, one row per event: the hour (0..23)
    and the day of week (0..6) of the event's time and the time-of-day
    label of the event's medicine (missing when the medicine is not among
    the user's), with the stored [taken] as label, which the Log Dose tab
    writes as 1 for Taken and 0 for Missed.  The dashboard of [15.py]
    builds one row per event of the hour and the weekday name, without a
    medicine label, and its label is 1 for Missed and 0 for Taken. *)
Theorem C6_feature_rows :
  (forall (logs : list (Z * Medi12.log)) (ms : list (Z * Medi12.med)),
      NoDup (map fst ms) ->
      Medi12.features logs ms
      = map (fun l =>
               (option_map (fun m => Medi12.time_of_day (snd m))
                  (find (fun m => fst m =? Medi12.med_id (snd l)) ms),
                [dt_hour (Medi12.ts (snd l)); dt_dayofweek (Medi12.ts (snd l))])) logs
      /\ Medi12.labels logs ms = map (fun l => Medi12.taken (snd l)) logs)
  /\
  (forall (d : Medi12.db) (u choice : string) (st : Medi12.Status)
          (now : Timestamp) (mid : Z),
      Medi12.dict_get (Medi12.med_dict (Medi12.get_user_meds d u)) choice = Ok mid ->
      exists d',
        Medi12.log_tab d u choice st now = Ok d'
        /\ Medi12.get_logs d' u
           = Medi12.get_logs d u
             ++ [(next_rowid (Medi12.dose_log d),
                  Medi12.Log u mid now
                    (match st with Medi12.Taken => 1 | Medi12.Missed => 0 end))])
  /\
  (forall df : list (Z * Dash15.dose),
      length (Dash15.features df) = length df
      /\ length (Dash15.labels df) = length df
      /\ forall (n : nat) (r : Z * Dash15.dose),
           nth_error df n = Some r ->
           nth_error (Dash15.features df) n
           = Some (dt_day_name (Dash15.timestamp (snd r)),
                   [dt_hour (Dash15.timestamp (snd r))])
           /\ (Dash15.status (snd r) = "Missed" -> nth_error (Dash15.labels df) n = Some 1)
           /\ (Dash15.status (snd r) = "Taken" -> nth_error (Dash15.labels df) n = Some 0))
  /\
  (forall ts : Timestamp,
      0 <= dt_hour ts <= 23 /\ 0 <= dt_dayofweek ts <= 6
      /\ nth_error day_names (Z.to_nat (dt_dayofweek ts)) = Some (dt_day_name ts)).
Proof.
  split; [|split; [|split]].
  - intros logs ms Hnd. unfold Medi12.features, Medi12.labels.
    rewrite (merged_one_row_per_event logs ms Hnd), !map_map. simpl. auto.
  - intros d u choice st now mid Hget. unfold Medi12.log_tab.
    destruct (Medi12.get_user_meds d u) as [|m ms] eqn:Hm; [discriminate|].
    rewrite Hget. simpl. eexists. split; [reflexivity|].
    unfold Medi12.get_logs, Medi12.log_dose. simpl.
    apply select_insert_once. simpl. apply String.eqb_refl.
  - intros df. unfold Dash15.features, Dash15.labels.
    rewrite !length_map. split; [reflexivity|]. split; [reflexivity|].
    intros n r Hn. rewrite !nth_error_map, Hn. simpl.
    split; [reflexivity|]. split; intros ->; reflexivity.
  - intros ts. split; [apply dt_hour_range|]. split; [apply dt_dayofweek_range|].
    apply dt_day_name_nth.
Qed.

(** The seeded medicines of the demo user and two of her doses. *)
Lemma C6_feature_rows_witness :
  let ms := [(1, Medi12.Med "demo" "Metformin" "500 mg" "08:00");
             (2, Medi12.Med "demo" "Atorvastatin" "20 mg" "21:00")] in
  let logs := [(1, Medi12.Log "demo" 2 (datetime 2025 6 9 21 10 0) 1);
               (2, Medi12.Log "demo" 1 (datetime 2025 6 10 8 2 0) 0)] in
  Medi12.features logs ms = [(Some "21:00", [21; 0]); (Some "08:00", [8; 1])]
  /\ Medi12.labels logs ms = [1; 0].
Proof.
  cbv zeta.
  apply (proj1 C6_feature_rows
           [(1, Medi12.Log "demo" 2 (datetime 2025 6 9 21 10 0) 1);
            (2, Medi12.Log "demo" 1 (datetime 2025 6 10 8 2 0) 0)]
           [(1, Medi12.Med "demo" "Metformin" "500 mg" "08:00");
            (2, Medi12.Med "demo" "Atorvastatin" "20 mg" "21:00")]).
  simpl. repeat constructor; simpl; intuition discriminate.
Defined.

(** In [12medi.py] two medicines with one label share a key of [med_dict]:
    the later row, id 2, is the one a dose is logged for. *)
Example med_dict_last_wins :
  let d := Medi12.add_med
             (Medi12.add_med Medi12.init_db "demo" "Metformin" "500 mg" "08:00")
             "demo" "Metformin" "850 mg" "08:00" in
  map snd (Medi12.med_dict (Medi12.get_user_meds d "demo")) = [1; 2]
  /\ Medi12.dict_get (Medi12.med_dict (Medi12.get_user_meds d "demo"))
       (Medi12.med_label (Medi12.Med "demo" "Metformin" "500 mg" "08:00")) = Ok 2.
Proof. split; reflexivity. Qed.

(** In the dashboard a Taken dose is labelled 0 and a Missed one 1, and
    the rows carry no medicine label. *)
Lemma C6_counterexample :
  let log d st ts :=
    match Dash15.page_dashboard_log d 1 "Aspirin" st ts with
    | Ok (d', _) => d'
    | Raise _ => d
    end in
  let d0 := fst (Dash15.page_dashboard_meds Dash15.init_db 1 "Aspirin" "10mg" "Morning") in
  let d2 := log (log d0 Dash15.Taken (datetime 2025 6 9 8 0 0))
                Dash15.Missed (datetime 2025 6 9 21 30 0) in
  map (fun r => Dash15.status (snd r)) (Dash15.user_doses d2 1) = ["Taken"; "Missed"]
  /\ Dash15.features (Dash15.user_doses d2 1) = [("Monday", [8]); ("Monday", [21])]
  /\ Dash15.labels (Dash15.user_doses d2 1) = [0; 1].
Proof. repeat split. Qed.

(** ** C1: a fit on one class *)

Lemma train_predictor_nonempty `{Solver}
    (logs : list (Z * Medi12.log)) (ms : list (Z * Medi12.med)) :
  logs <> [] ->
  let X := Medi12.features logs ms in
  let enc := ohe_fit HU_ignore (map fst X) in
  Medi12.train_predictor logs ms
  = match logreg_fit 1000
            (map (fun row => one_hot (categories_ enc) (fst row) ++ snd row) X)
            (Medi12.labels logs ms) with
    | Ok m => Ok (Some (Pipe enc m))
    | Raise e => Raise e
    end.
Proof.
  intros Hne. cbv zeta. unfold Medi12.train_predictor.
  destruct logs as [|l logs]; [contradiction|].
  rewrite pipeline_fit_eq. cbv zeta.
  destruct (logreg_fit _ _ _); reflexivity.
Qed.

Lemma train_predictor_none_iff `{Solver}
    (logs : list (Z * Medi12.log)) (ms : list (Z * Medi12.med)) :
  Medi12.train_predictor logs ms = Ok None <-> logs = [].
Proof.
  split.
  - intros Hnone. destruct logs as [|l logs]; [reflexivity|].
    rewrite train_predictor_nonempty in Hnone by discriminate.
    cbv zeta in Hnone. destruct (logreg_fit _ _ _); discriminate.
  - intros ->. reflexivity.
Qed.

Lemma fit_pipe_eq `{Solver} (df : list (Z * Dash15.dose)) :
  let X := Dash15.features df in
  let enc := ohe_fit HU_error (map fst X) in
  Dash15.fit_pipe df
  = match logreg_fit 100
            (map (fun row => one_hot (categories_ enc) (fst row) ++ snd row) X)
            (Dash15.labels df) with
    | Ok m => Ok (Pipe enc m)
    | Raise e => Raise e
    end.
Proof. cbv zeta. unfold Dash15.fit_pipe. now rewrite pipeline_fit_eq. Qed.

Section OneClass.
Context `{Solver}.

(** A label column of one value has one class. *)
Lemma classes_of_constant (c : Z) (y : list Z) :
  y <> [] -> (forall v, In v y -> v = c) -> classes_of y = [c].
Proof.
  intros Hne Hall. unfold classes_of, unique.
  assert (Hc : forall l, (forall v, In v l -> v = c) ->
             fold_left (fun acc x => if existsb (Z.eqb x) acc then acc else acc ++ [x])
                       l [c] = [c]).
  { induction l as [|x l IH]; intros Hl; [reflexivity|].
    cbn [fold_left]. rewrite (Hl x (or_introl eq_refl)).
    cbn [existsb]. rewrite Z.eqb_refl. cbn [orb]. apply IH.
    intros v Hv. apply Hl. now right. }
  destruct y as [|x y]; [contradiction|].
  cbn [fold_left existsb app]. rewrite (Hall x (or_introl eq_refl)).
  rewrite Hc; [reflexivity|]. intros v Hv. apply Hall. now right.
Qed.

Lemma logreg_fit_one_class (max_iter : Z) (X : list (list Z)) (y : list Z) (c : Z) :
  (forall v, In v y -> v = c) -> logreg_fit max_iter X y = Raise ValueError.
Proof.
  intros Hall. unfold logreg_fit. destruct y as [|x y]; [reflexivity|].
  rewrite (classes_of_constant c) by (auto; discriminate). reflexivity.
Qed.

(** A fit that returns had two labels that differ. *)
Lemma logreg_fit_two_classes (max_iter : Z) (X : list (list Z)) (y : list Z)
    (m : LogReg) :
  logreg_fit max_iter X y = Ok m ->
  exists a b, In a y /\ In b y /\ a <> b.
Proof.
  intros Hfit. destruct y as [|c y].
  - discriminate.
  - destruct (forallb (Z.eqb c) y) eqn:Hf.
    + rewrite (logreg_fit_one_class _ _ _ c) in Hfit; [discriminate|].
      rewrite forallb_forall in Hf. intros v [<-|Hv]; [reflexivity|].
      symmetry. now apply Z.eqb_eq, Hf.
    + assert (Hex : exists b, In b y /\ Z.eqb c b = false).
      { clear Hfit. induction y as [|b y IH]; [discriminate|].
        cbn [forallb] in Hf. destruct (Z.eqb c b) eqn:E.
        - destruct (IH Hf) as [b' [Hin Hb']]. exists b'. split; [now right|assumption].
        - exists b. split; [now left|assumption]. }
      destruct Hex as [b [Hin Hb]]. apply Z.eqb_neq in Hb.
      exists c, b. repeat split; [now left|now right|assumption].
Qed.
End OneClass.

Lemma merge_left_fst {L R V} (on : L -> R -> bool) (col : R -> V)
    (left : list L) (right : list R) (r : L * option V) :
  In r (merge_left on col left right) -> In (fst r) left.
Proof.
  unfold merge_left. rewrite in_flat_map. intros [l [Hl Hr]].
  destruct (filter (on l) right) as [|x ms].
  - destruct Hr as [<-|[]]. exact Hl.
  - apply in_map_iff in Hr as [y [<- _]]. exact Hl.
Qed.

Lemma labels12_In (logs : list (Z * Medi12.log)) (ms : list (Z * Medi12.med)) (v : Z) :
  In v (Medi12.labels logs ms) ->
  exists l, In l logs /\ Medi12.taken (snd l) = v.
Proof.
  unfold Medi12.labels, Medi12.merged. rewrite in_map_iff.
  intros [r [<- Hr]]. exists (fst r). split; [|reflexivity].
  now apply merge_left_fst in Hr.
Qed.

Lemma labels15_In (df : list (Z * Dash15.dose)) (v : Z) :
  In v (Dash15.labels df) ->
  exists r, In r df /\ Z.b2z (String.eqb (Dash15.status (snd r)) "Missed") = v.
Proof.
  unfold Dash15.labels. rewrite in_map_iff. intros [r [<- Hr]]. eauto.
Qed.

(** On a log of one class [train_predictor] raises, whatever the optimiser. *)
Lemma train_predictor_one_class `{Solver}
    (logs : list (Z * Medi12.log)) (ms : list (Z * Medi12.med)) (c : Z) :
  logs <> [] -> (forall l, In l logs -> Medi12.taken (snd l) = c) ->
  Medi12.train_predictor logs ms = Raise ValueError.
Proof.
  intros Hne Hall. rewrite train_predictor_nonempty by assumption. cbv zeta.
  rewrite (logreg_fit_one_class _ _ _ c); [reflexivity|].
  intros v [l [Hl <-]]%labels12_In. now apply Hall.
Qed.

Lemma fit_pipe_one_class `{Solver} (df : list (Z * Dash15.dose)) (b : bool) :
  (forall r, In r df -> String.eqb (Dash15.status (snd r)) "Missed" = b) ->
  Dash15.fit_pipe df = Raise ValueError.
Proof.
  intros Hall. rewrite fit_pipe_eq. cbv zeta.
  rewrite (logreg_fit_one_class _ _ _ (Z.b2z b)); [reflexivity|].
  intros v [r [Hr <-]]%labels15_In. now rewrite (Hall r Hr).
Qed.

(** C1 (as amended).  On a table whose label column holds one class the
    fit fails and returns no model: [LogisticRegression.fit] raises
    [ValueError] before it optimises, whatever the optimiser, and neither
    [train_predictor] of [12medi.py] nor the Insights tab of [15.py]
    catches it.  That [ValueError] is the library's; the code has no
    exception of its own for this.  A fit that returns a model was given
    labels of two classes at least: in [15.py] a dose that is [Missed] and
    one that is not. *)
Theorem C1_fit_needs_two_classes :
  (forall (S : Solver) (logs : list (Z * Medi12.log)) (ms : list (Z * Medi12.med))
          (c : Z),
      logs <> [] -> (forall l, In l logs -> Medi12.taken (snd l) = c) ->
      Medi12.train_predictor logs ms = Raise ValueError)
  /\
  (forall (S : Solver) (logs : list (Z * Medi12.log)) (ms : list (Z * Medi12.med))
          (p : Pipeline (option string)),
      Medi12.train_predictor logs ms = Ok (Some p) ->
      exists l1 l2, In l1 logs /\ In l2 logs
                    /\ Medi12.taken (snd l1) <> Medi12.taken (snd l2))
  /\
  (forall (S : Solver) (df : list (Z * Dash15.dose)),
      (forall r, In r df -> Dash15.status (snd r) = "Taken")
      \/ (forall r, In r df -> Dash15.status (snd r) = "Missed") ->
      Dash15.fit_pipe df = Raise ValueError
      /\ forall h day, (pipe <- Dash15.fit_pipe df ;; Dash15.query_risk pipe h day)
                       = Raise ValueError)
  /\
  (forall (S : Solver) (df : list (Z * Dash15.dose)) (pipe : Pipeline string),
      Dash15.fit_pipe df = Ok pipe ->
      exists r1 r2, In r1 df /\ In r2 df
                    /\ Dash15.status (snd r1) = "Missed"
                    /\ Dash15.status (snd r2) <> "Missed").
Proof.
  split; [|split; [|split]].
  - intros S logs ms c. apply train_predictor_one_class.
  - intros S logs ms p Hfit.
    destruct logs as [|l0 logs]; [discriminate|].
    rewrite train_predictor_nonempty in Hfit by discriminate. cbv zeta in Hfit.
    destruct (logreg_fit _ _ _) as [m|e] eqn:Hm; [|discriminate].
    apply logreg_fit_two_classes in Hm as [a [b [Ha [Hb Hab]]]].
    apply labels12_In in Ha as [l1 [Hl1 <-]].
    apply labels12_In in Hb as [l2 [Hl2 <-]].
    exists l1, l2. auto.
  - intros S df Hone.
    assert (Hfit : Dash15.fit_pipe df = Raise ValueError).
    { destruct Hone as [Hall|Hall].
      - apply (fit_pipe_one_class df false). intros r Hr. now rewrite (Hall r Hr).
      - apply (fit_pipe_one_class df true). intros r Hr. now rewrite (Hall r Hr). }
    split; [exact Hfit|]. intros h day. now rewrite Hfit.
  - intros S df pipe Hfit. rewrite fit_pipe_eq in Hfit. cbv zeta in Hfit.
    destruct (logreg_fit _ _ _) as [m|e] eqn:Hm; [|discriminate].
    apply logreg_fit_two_classes in Hm as [a [b [Ha [Hb Hab]]]].
    apply labels15_In in Ha as [r1 [Hr1 <-]].
    apply labels15_In in Hb as [r2 [Hr2 <-]].
    destruct (String.eqb_spec (Dash15.status (snd r1)) "Missed") as [E1|E1];
      destruct (String.eqb_spec (Dash15.status (snd r2)) "Missed") as [E2|E2];
      try (now destruct Hab).
    + exists r1, r2. auto.
    + exists r2, r1. auto.
Qed.

(** Scenario B of the specification, a single dose, taken, on a Wednesday
    at 21:00: the fit fails, with the [ValueError] of the library, in
    [12medi.py] and in [15.py]. *)
Lemma C1_counterexample :
  let ms := [(1, Medi12.Med "demo" "Atorvastatin" "20 mg" "21:00")] in
  let logs := [(1, Medi12.Log "demo" 1 (datetime 2025 6 11 21 0 0) 1)] in
  let df := [(1, Dash15.Dose 1 1 (datetime 2025 6 11 21 0 0) "Taken")] in
  Medi12.labels logs ms = [1]
  /\ @Medi12.train_predictor null_solver logs ms = Raise ValueError
  /\ Dash15.labels df = [0]
  /\ @Dash15.fit_pipe null_solver df = Raise ValueError.
Proof. cbv zeta. repeat split; vm_compute; reflexivity. Qed.

(** ** C2: queries with values not seen during the fit *)

Section PredictFacts.
Context {A : Type} `{CategoryLaws A}.

Lemma pipeline_predict_ignore (p : Pipeline A) (row : A * list Z) :
  handle (pre p) = HU_ignore ->
  pipeline_predict_proba p row
  = Ok (predict_proba (clf p) (one_hot (categories_ (pre p)) (fst row) ++ snd row)).
Proof.
  intros Hh. unfold pipeline_predict_proba, ct_transform.
  now rewrite (ohe_transform_ignore _ _ Hh).
Qed.

Lemma pipeline_predict_error (p : Pipeline A) (row : A * list Z) :
  handle (pre p) = HU_error ->
  pipeline_predict_proba p row
  = if known (pre p) (fst row)
    then Ok (predict_proba (clf p) (one_hot (categories_ (pre p)) (fst row) ++ snd row))
    else Raise ValueError.
Proof.
  intros Hh. unfold pipeline_predict_proba, ct_transform.
  rewrite (ohe_transform_error _ _ Hh). now destruct (known (pre p) (fst row)).
Qed.

Lemma pipeline_fit_pre `{Solver} (hu : handle_unknown) (max_iter : Z)
    (X : list (A * list Z)) (y : list Z) (p : Pipeline A) :
  pipeline_fit hu max_iter X y = Ok p -> pre p = ohe_fit hu (map fst X).
Proof.
  rewrite pipeline_fit_eq. cbv zeta.
  destruct (logreg_fit _ _ _); [|discriminate]. now intros [= <-].
Qed.
End PredictFacts.

Lemma train_predictor_pre `{Solver} logs ms p :
  Medi12.train_predictor logs ms = Ok (Some p) ->
  pre p = ohe_fit HU_ignore (map fst (Medi12.features logs ms)).
Proof.
  unfold Medi12.train_predictor. destruct logs as [|l logs]; [discriminate|].
  destruct (pipeline_fit _ _ _ _) as [q|e] eqn:Hfit; simpl; [|discriminate].
  intros [= <-]. now apply pipeline_fit_pre in Hfit.
Qed.

Lemma predict_proba_col0_ok (p : Pipeline (option string))
    (X : list (option string * list Z)) :
  handle (pre p) = HU_ignore ->
  exists probs, Medi12.predict_proba_col0 p X = Ok probs
                /\ length probs = length X
                /\ Forall (fun q => (0 <= q <= 1)%R) probs.
Proof.
  intros Hh. induction X as [|row X [probs [Hp [Hlen Hall]]]].
  - exists []. simpl. auto.
  - exists (fst (predict_proba (clf p)
                   (one_hot (categories_ (pre p)) (fst row) ++ snd row)) :: probs).
    simpl. rewrite (pipeline_predict_ignore _ _ Hh). simpl. rewrite Hp. simpl.
    split; [reflexivity|]. split; [congruence|].
    constructor; [|assumption].
    proba_bounds (clf p) (one_hot (categories_ (pre p)) (fst row) ++ snd row).
Qed.

Lemma day_choices_In (df : list (Z * Dash15.dose)) (day : string) :
  In day (Dash15.day_choices df) <-> In day (map Dash15.day_of df).
Proof.
  unfold Dash15.day_choices. rewrite sorted_In.
  exact (unique_In (map Dash15.day_of df) day).
Qed.

(** The select box of [14.py] offers the same days, in order of appearance. *)
Lemma day_choices14_In (df : list (Z * Dash15.dose)) (day : string) :
  In day (Dash15.day_choices14 df) <-> In day (Dash15.day_choices df).
Proof.
  rewrite day_choices_In. unfold Dash15.day_choices14.
  exact (unique_In (map Dash15.day_of df) day).
Qed.

(** C2 (as amended).  A pipeline fitted by [train_predictor] of [12medi.py]
    answers every query (hour, day of week, time-of-day label) with a
    probability in [0,1] and never raises: a label not seen during the fit
    is encoded by zeros in every label column.  So the Insights tab, whose
    24 queries carry the labels 00:00 to 23:00, shows 24 probabilities
    whenever a model was fitted.  The pipeline of the dashboard of [15.py]
    encodes the weekday name with the default policy: it answers with a
    probability in [0,1] for every day seen during the fit, which are the
    only days the select box offers, and raises [ValueError] for a day not
    seen. *)
Theorem C2_predict_unseen_category :
  (forall (S : Solver) (logs : list (Z * Medi12.log)) (ms : list (Z * Medi12.med))
          (p : Pipeline (option string)) (slot : option string) (h dow : Z),
      Medi12.train_predictor logs ms = Ok (Some p) ->
      (exists pr, pipeline_predict_proba p (slot, [h; dow]) = Ok pr
                  /\ (0 <= fst pr <= 1)%R /\ (0 <= snd pr <= 1)%R)
      /\ (~ In slot (map fst (Medi12.features logs ms)) ->
          ct_transform (pre p) (slot, [h; dow])
          = Ok (repeat 0 (length (categories_ (pre p))) ++ [h; dow])))
  /\
  (forall (S : Solver) (d : Medi12.db) (u : string)
          (p : Pipeline (option string)) (today : Z),
      Medi12.train_predictor (Medi12.get_logs d u) (Medi12.get_user_meds d u)
      = Ok (Some p) ->
      exists probs, Medi12.insights_tab d u today = Ok (Some probs)
                    /\ length probs = 24%nat
                    /\ Forall (fun q => (0 <= q <= 1)%R) probs)
  /\
  (forall (S : Solver) (df : list (Z * Dash15.dose)) (pipe : Pipeline string)
          (h : Z) (day : string),
      Dash15.fit_pipe df = Ok pipe ->
      (In day (Dash15.day_choices df) <-> In day (map Dash15.day_of df))
      /\ (In day (Dash15.day_choices df) ->
          exists q, Dash15.query_risk pipe h day = Ok q /\ (0 <= q <= 1)%R)
      /\ (~ In day (Dash15.day_choices df) ->
          Dash15.query_risk pipe h day = Raise ValueError)).
Proof.
  split; [|split].
  - intros S logs ms p slot h dow Hfit.
    apply train_predictor_pre in Hfit as Hpre.
    assert (Hh : handle (pre p) = HU_ignore) by (now rewrite Hpre).
    split.
    + eexists. split; [apply (pipeline_predict_ignore _ _ Hh)|].
      match goal with
      | |- context [predict_proba ?m ?x] => proba_bounds m x
      end.
    + intros Hunseen. unfold ct_transform. rewrite (ohe_transform_ignore _ _ Hh).
      simpl. rewrite one_hot_unknown; [reflexivity|].
      rewrite Hpre. now apply known_fit_false.
  - intros S d u p today Hfit.
    apply train_predictor_pre in Hfit as Hpre.
    assert (Hh : handle (pre p) = HU_ignore) by (now rewrite Hpre).
    destruct (predict_proba_col0_ok p (Medi12.future today) Hh) as [probs [Hp [Hlen Hall]]].
    exists probs. split; [|split; [|assumption]].
    + unfold Medi12.insights_tab.
      destruct (Medi12.get_logs d u) as [|l logs] eqn:Hl; [discriminate|].
      rewrite Hfit. cbv beta iota delta [bind]. now rewrite Hp.
    + rewrite Hlen. reflexivity.
  - intros S df pipe h day Hfit.
    apply pipeline_fit_pre in Hfit as Hpre.
    assert (Hh : handle (pre pipe) = HU_error) by (now rewrite Hpre).
    assert (Hcol : map fst (Dash15.features df) = map Dash15.day_of df).
    { unfold Dash15.features. now rewrite map_map. }
    split; [apply day_choices_In|]. split.
    + intros Hin. apply day_choices_In in Hin. rewrite <- Hcol in Hin.
      assert (Hk : known (pre pipe) day = true)
        by (rewrite Hpre; now apply known_fit).
      exists (snd (predict_proba (clf pipe)
                     (one_hot (categories_ (pre pipe)) day ++ [h]))).
      unfold Dash15.query_risk. rewrite (pipeline_predict_error _ _ Hh). simpl.
      rewrite Hk. simpl. split; [reflexivity|].
      proba_bounds (clf pipe) (one_hot (categories_ (pre pipe)) day ++ [h]).
    + intros Hout. rewrite day_choices_In, <- Hcol in Hout.
      unfold Dash15.query_risk. rewrite (pipeline_predict_error _ _ Hh). simpl.
      rewrite Hpre. now rewrite (proj2 (known_fit_false _ _ _) Hout).
Qed.

(** Doses logged on a Monday only, one taken and one missed: whatever model
    the library fits, asking it about a Tuesday raises. *)
Lemma C2_counterexample :
  let df := [(1, Dash15.Dose 1 1 (datetime 2025 6 9 8 0 0) "Taken");
             (2, Dash15.Dose 1 1 (datetime 2025 6 9 21 0 0) "Missed")] in
  Dash15.labels df = [0; 1]
  /\ (forall (S : Solver) (pipe : Pipeline string),
         Dash15.fit_pipe df = Ok pipe -> pre pipe = Encoder HU_error ["Monday"])
  /\ (forall m : LogReg,
         Dash15.query_risk (Pipe (Encoder HU_error ["Monday"]) m) 8 "Tuesday"
         = Raise ValueError)
  /\ (exists pipe : Pipeline string,
         @Dash15.fit_pipe null_solver df = Ok pipe
         /\ Dash15.query_risk pipe 8 "Tuesday" = Raise ValueError).
Proof.
  cbv zeta. split; [reflexivity|]. split; [|split].
  - intros S pipe Hfit. apply pipeline_fit_pre in Hfit as ->. reflexivity.
  - intros m. reflexivity.
  - eexists. split; reflexivity.
Qed.

(** ** The statements at concrete inputs *)

(** Every store the application of [15.py] can build satisfies the rowid
    invariant of its tables. *)
Lemma reachable_db_wf (d : Dash15.db) : Dash15.reachable d -> Dash15.db_wf d.
Proof.
  assert (Hsplit : forall u m x, wf u -> wf m -> wf x ->
                     Dash15.db_wf (Dash15.DB u m x)) by (intros u m x Hu Hm Hx; exact (conj Hu (conj Hm Hx))).
  induction 1 as [|d u p a g d' m _ IH Hreg|d uid m dos sched _ IH
                  |d uid med st now d' m _ IH Hlog].
  - apply Hsplit; apply wf_empty.
  - destruct IH as [Hu [Hm Hd]]. unfold Dash15.page_register in Hreg.
    destruct (String.eqb u "" || String.eqb p "").
    + inversion Hreg; subst. destruct d'. now apply Hsplit.
    + unfold Dash15.insert_user in Hreg. simpl in Hreg.
      destruct (existsb _ _); inversion Hreg; subst.
      * destruct d'. now apply Hsplit.
      * apply Hsplit; auto. now apply wf_insert.
  - destruct IH as [Hu [Hm Hd]]. unfold Dash15.page_dashboard_meds.
    destruct (String.eqb m ""); simpl.
    + destruct d. now apply Hsplit.
    + apply Hsplit; auto. now apply wf_insert.
  - destruct IH as [Hu [Hm Hd]].
    apply page_dashboard_log_inv in Hlog as [[_ [-> _]]|[_ [mid [_ ->]]]].
    + destruct d. now apply Hsplit.
    + apply Hsplit; auto. now apply wf_insert.
Qed.

Lemma C1_fit_needs_two_classes_witness :
  let ms := [(1, Medi12.Med "demo" "Atorvastatin" "20 mg" "21:00")] in
  let logs := [(1, Medi12.Log "demo" 1 (datetime 2025 6 11 21 0 0) 1);
               (2, Medi12.Log "demo" 1 (datetime 2025 6 12 21 0 0) 1)] in
  @Medi12.train_predictor null_solver logs ms = Raise ValueError.
Proof.
  cbv zeta.
  apply (proj1 C1_fit_needs_two_classes null_solver
           [(1, Medi12.Log "demo" 1 (datetime 2025 6 11 21 0 0) 1);
            (2, Medi12.Log "demo" 1 (datetime 2025 6 12 21 0 0) 1)]
           [(1, Medi12.Med "demo" "Atorvastatin" "20 mg" "21:00")] 1).
  - discriminate.
  - intros l [<-|[<-|[]]]; reflexivity.
Defined.

(** The model fitted on two 21:00 doses, one taken and one missed, is asked
    about 08:00, a label it has not seen. *)
Lemma C2_predict_unseen_category_witness :
  let ms := [(1, Medi12.Med "demo" "Atorvastatin" "20 mg" "21:00")] in
  let logs := [(1, Medi12.Log "demo" 1 (datetime 2025 6 11 21 0 0) 1);
               (2, Medi12.Log "demo" 1 (datetime 2025 6 12 21 0 0) 0)] in
  let p := Pipe (Encoder HU_ignore [Some "21:00"]) (Clf [0; 0; 0] 0)%R in
  (exists pr, pipeline_predict_proba p (Some "08:00", [8; 3]) = Ok pr
              /\ (0 <= fst pr <= 1)%R /\ (0 <= snd pr <= 1)%R)
  /\ (~ In (Some "08:00") (map fst (Medi12.features logs ms)) ->
      ct_transform (pre p) (Some "08:00", [8; 3])
      = Ok (repeat 0 (length (categories_ (pre p))) ++ [8; 3])).
Proof.
  cbv zeta.
  apply (proj1 C2_predict_unseen_category null_solver
           [(1, Medi12.Log "demo" 1 (datetime 2025 6 11 21 0 0) 1);
            (2, Medi12.Log "demo" 1 (datetime 2025 6 12 21 0 0) 0)]
           [(1, Medi12.Med "demo" "Atorvastatin" "20 mg" "21:00")]).
  reflexivity.
Defined.



(* ========================================================================= *)
(** * Further properties of the code *)
(* ========================================================================= *)

(** ** The store of [15.py]: accounts *)

Section Accounts15.
Import Dash15.

Lemma existsb_username d u :
  existsb (fun r => String.eqb (username (snd r)) u) (rows (users d)) = true
  <-> In u (Dash15.usernames d).
Proof.
  unfold usernames. rewrite existsb_exists, in_map_iff. split.
  - intros [x [Hin Heq]]. apply String.eqb_eq in Heq. eauto.
  - intros [x [Heq Hin]]. exists x. split; [assumption|]. now apply String.eqb_eq.
Qed.

Lemma NoDup_snoc {A} (l : list A) (x : A) : NoDup l -> ~ In x l -> NoDup (l ++ [x]).
Proof.
  intros Hnd Hni. apply NoDup_app; [assumption|repeat constructor; intros []|].
  intros y Hy [<-|[]]. contradiction.
Qed.

(** What a registration does, whatever its message. *)
Lemma page_register_inv d u p a g d' m :
  page_register d u p a g = Ok (d', m) ->
  (m = AccountCreated /\ ~ In u (Dash15.usernames d) /\ u <> "" /\ p <> ""
   /\ d' = DB (insert (users d) (User u (hash_pw p) a g)) (meds d) (doses d))
  \/ (m <> AccountCreated /\ d' = d).
Proof.
  unfold page_register, insert_user. cbn [username].
  destruct (String.eqb_spec u "") as [->|Hu]; cbn [orb].
  { intros [= <- <-]. right. split; [discriminate|reflexivity]. }
  destruct (String.eqb_spec p "") as [->|Hp]; cbn [orb].
  { intros [= <- <-]. right. split; [discriminate|reflexivity]. }
  destruct (existsb _ (rows (users d))) eqn:Hex.
  - intros [= <- <-]. right. split; [discriminate|reflexivity].
  - intros [= <- <-]. left. repeat split; auto.
    intros Hin. apply existsb_username in Hin. congruence.
Qed.

Lemma usernames_insert d u h a g :
  usernames (DB (insert (users d) (User u h a g)) (meds d) (doses d))
  = Dash15.usernames d ++ [u].
Proof. unfold usernames. cbn [users]. now rewrite rows_insert, map_app. Qed.

Lemma reachable_usernames_NoDup d : reachable d -> NoDup (Dash15.usernames d).
Proof.
  induction 1 as [|d u p a g d' m _ IH Hreg|d uid m dos sched _ IH
                  |d uid med st now d' m _ IH Hlog].
  - constructor.
  - apply page_register_inv in Hreg as [[_ [Hni [_ [_ ->]]]]|[_ ->]]; [|assumption].
    rewrite usernames_insert. now apply NoDup_snoc.
  - unfold page_dashboard_meds. now destruct (String.eqb m "").
  - apply page_dashboard_log_inv in Hlog as [[_ [-> _]]|[_ [mid [_ ->]]]]; assumption.
Qed.

Lemma NoDup_map_eq {A B} (f : A -> B) (l : list A) (x y : A) :
  NoDup (map f l) -> In x l -> In y l -> f x = f y -> x = y.
Proof.
  induction l as [|z l IH]; simpl; [tauto|].
  intros Hnd Hx Hy Hf. inversion Hnd as [|? ? Hni Hnd']; subst.
  destruct Hx as [->|Hx], Hy as [->|Hy]; auto.
  - exfalso. apply Hni. rewrite Hf. now apply in_map.
  - exfalso. apply Hni. rewrite <- Hf. now apply in_map.
Qed.
End Accounts15.

(** X1. In every store the application of [15.py] can build the user names
    are pairwise distinct; registering a name that is taken stores nothing
    and answers that the name is taken, and registering a new name with a
    password appends one account that holds this name and the digest of
    the password. *)
Theorem register_keeps_usernames_unique (d : Dash15.db) :
  Dash15.reachable d ->
  NoDup (Dash15.usernames d)
  /\ (forall u p a g, u <> "" -> p <> "" -> In u (Dash15.usernames d) ->
        Dash15.page_register d u p a g = Ok (d, Dash15.UsernameTaken))
  /\ (forall u p a g, u <> "" -> p <> "" -> ~ In u (Dash15.usernames d) ->
        exists d', Dash15.page_register d u p a g = Ok (d', Dash15.AccountCreated)
                   /\ Dash15.usernames d' = Dash15.usernames d ++ [u]
                   /\ NoDup (Dash15.usernames d')).
Proof.
  intros Hr. pose proof (reachable_usernames_NoDup d Hr) as Hnd.
  split; [assumption|]. split.
  - intros u p a g Hu Hp Hin. unfold Dash15.page_register, Dash15.insert_user.
    apply String.eqb_neq in Hu, Hp. rewrite Hu, Hp. cbn [orb Dash15.username].
    now rewrite (proj2 (existsb_username d u) Hin).
  - intros u p a g Hu Hp Hni. eexists.
    unfold Dash15.page_register, Dash15.insert_user.
    apply String.eqb_neq in Hu, Hp. rewrite Hu, Hp. cbn [orb Dash15.username].
    destruct (existsb _ (rows (Dash15.users d))) eqn:Hex.
    { apply existsb_username in Hex. contradiction. }
    split; [reflexivity|]. rewrite usernames_insert.
    split; [reflexivity|]. now apply NoDup_snoc.
Qed.

Lemma sample_store_reachable : Dash15.reachable Dash15.sample_store.
Proof.
  set (d1 := match Dash15.page_register Dash15.init_db "alice" "hunter2" 30 "Female" with
             | Ok (d, _) => d
             | Raise _ => Dash15.init_db
             end).
  assert (H1 : Dash15.reachable d1).
  { apply (Dash15.reach_register Dash15.init_db "alice" "hunter2" 30 "Female"
             d1 Dash15.AccountCreated Dash15.reach_init).
    vm_compute. reflexivity. }
  pose proof (Dash15.reach_meds d1 1 "Aspirin" "10mg" "Morning" H1) as H2.
  apply (Dash15.reach_log _ 1 "Aspirin" Dash15.Taken (datetime 2025 6 9 8 0 0)
           Dash15.sample_store Dash15.Logged H2).
  vm_compute. reflexivity.
Qed.

Lemma register_keeps_usernames_unique_witness :
  NoDup (Dash15.usernames Dash15.sample_store)
  /\ (forall u p a g, u <> "" -> p <> "" -> In u (Dash15.usernames Dash15.sample_store) ->
        Dash15.page_register Dash15.sample_store u p a g
        = Ok (Dash15.sample_store, Dash15.UsernameTaken))
  /\ (forall u p a g, u <> "" -> p <> "" -> ~ In u (Dash15.usernames Dash15.sample_store) ->
        exists d', Dash15.page_register Dash15.sample_store u p a g
                   = Ok (d', Dash15.AccountCreated)
                   /\ Dash15.usernames d' = Dash15.usernames Dash15.sample_store ++ [u]
                   /\ NoDup (Dash15.usernames d')).
Proof.
  apply (register_keeps_usernames_unique Dash15.sample_store).
  apply sample_store_reachable.
Defined.

(** X2. In every such store a login succeeds exactly with the name of an
    account and a password whose digest is the credential stored for it,
    and it yields the id of that account. *)
Theorem login_accepts_exactly_stored_credentials
    (d : Dash15.db) (u p : string) (i : Z) :
  Dash15.reachable d ->
  (Dash15.page_login d u p = Some i
   <-> exists a g, In (i, Dash15.User u (Dash15.hash_pw p) a g)
                      (rows (Dash15.users d))).
Proof.
  intros Hr. pose proof (reachable_usernames_NoDup d Hr) as Hnd.
  unfold Dash15.page_login.
  set (q := fun r => String.eqb (Dash15.username r) u
                     && String.eqb (Dash15.password r) (Dash15.hash_pw p)).
  assert (Hq : forall x, In x (select q (Dash15.users d)) <->
                 In x (rows (Dash15.users d)) /\ Dash15.username (snd x) = u
                 /\ Dash15.password (snd x) = Dash15.hash_pw p).
  { intros x. rewrite select_In. unfold q.
    rewrite andb_true_iff, !String.eqb_eq. reflexivity. }
  split.
  - destruct (select q (Dash15.users d)) as [|[j r] l]; [discriminate|].
    intros [= ->].
    assert (Hin : In (i, r) ((i, r) :: l)) by now left.
    apply Hq in Hin as [Hin [Hu Hp]]. destruct r as [ru rp ra rg].
    cbn [snd Dash15.username Dash15.password] in Hu, Hp. subst. eauto.
  - intros [a [g Hin]].
    assert (Hsel : In (i, Dash15.User u (Dash15.hash_pw p) a g)
                      (select q (Dash15.users d))) by (apply Hq; auto).
    destruct (select q (Dash15.users d)) as [|[j r] l]; [destruct Hsel|].
    assert (Hj : In (j, r) ((j, r) :: l)) by now left.
    apply Hq in Hj as [Hj [Hu _]].
    assert (Heq : (j, r) = (i, Dash15.User u (Dash15.hash_pw p) a g)).
    { apply (NoDup_map_eq (fun x => Dash15.username (snd x))
                          (rows (Dash15.users d))); auto. }
    now inversion Heq.
Qed.

Lemma login_accepts_exactly_stored_credentials_witness :
  Dash15.page_login Dash15.sample_store "alice" "hunter2" = Some 1
  <-> exists a g, In (1, Dash15.User "alice" (Dash15.hash_pw "hunter2") a g)
                     (rows (Dash15.users Dash15.sample_store)).
Proof.
  apply (login_accepts_exactly_stored_credentials Dash15.sample_store "alice" "hunter2" 1).
  apply sample_store_reachable.
Defined.

(** ** The store of [15.py]: doses *)

(** X3. In every store the application of [15.py] can build, every dose
    has the status Taken or Missed and names a stored medicine that
    belongs to the user the dose belongs to. *)
Theorem doses_reference_own_medicines (d : Dash15.db) :
  Dash15.reachable d -> Forall (Dash15.dose_consistent d) (rows (Dash15.doses d)).
Proof.
  induction 1 as [|d u p a g d' m _ IH Hreg|d uid m dos sched _ IH
                  |d uid med st now d' m _ IH Hlog].
  - constructor.
  - apply page_register_inv in Hreg as [[_ [_ [_ [_ ->]]]]|[_ ->]]; assumption.
  - unfold Dash15.page_dashboard_meds. destruct (String.eqb m ""); [assumption|].
    cbn [fst Dash15.doses]. eapply Forall_impl; [|exact IH].
    intros r [Hst [x [Hin Hu]]]. split; [assumption|]. exists x.
    cbn [Dash15.meds]. rewrite rows_insert. split; [|assumption].
    apply in_or_app. now left.
  - apply page_dashboard_log_inv in Hlog as [[_ [-> _]]|[_ [mid [Hres ->]]]];
      [assumption|].
    cbn [Dash15.doses]. rewrite rows_insert. apply Forall_app. split.
    + eapply Forall_impl; [|exact IH]. intros r Hc. exact Hc.
    + constructor; [|constructor]. split.
      * destruct st; simpl; auto.
      * apply resolve_med_In, user_meds_owned in Hres as [x [Hin [Hu _]]].
        exists x. simpl. auto.
Qed.

Lemma doses_reference_own_medicines_witness :
  Forall (Dash15.dose_consistent Dash15.sample_store)
         (rows (Dash15.doses Dash15.sample_store)).
Proof.
  apply (doses_reference_own_medicines Dash15.sample_store).
  apply sample_store_reachable.
Defined.

(** ** The heat-map of [15.py] *)

Lemma ascii_compare_refl (a : ascii) : Ascii.compare a a = Eq.
Proof. unfold Ascii.compare. apply N.compare_refl. Qed.

Lemma ascii_compare_lt_trans (a b c : ascii) :
  Ascii.compare a b = Lt -> Ascii.compare b c = Lt -> Ascii.compare a c = Lt.
Proof.
  unfold Ascii.compare. rewrite !N.compare_lt_iff. apply N.lt_trans.
Qed.

Lemma string_compare_refl (s : string) : String.compare s s = Eq.
Proof. induction s as [|a s IH]; simpl; [reflexivity|]. now rewrite ascii_compare_refl. Qed.

Lemma string_compare_eq (s t : string) : String.compare s t = Eq <-> s = t.
Proof.
  split; [apply String.compare_eq_iff|]. intros ->. apply string_compare_refl.
Qed.

Lemma string_compare_lt_trans (s t u : string) :
  String.compare s t = Lt -> String.compare t u = Lt -> String.compare s u = Lt.
Proof.
  revert t u. induction s as [|a s IH]; intros [|b t] [|c u]; simpl;
    try discriminate; auto.
  destruct (Ascii.compare a b) eqn:Hab; try discriminate.
  - apply Ascii.compare_eq_iff in Hab as ->.
    destruct (Ascii.compare b c); try discriminate; auto. apply IH.
  - intros _. destruct (Ascii.compare b c) eqn:Hbc; try discriminate.
    + apply Ascii.compare_eq_iff in Hbc as <-. now rewrite Hab.
    + now rewrite (ascii_compare_lt_trans _ _ _ Hab Hbc).
Qed.

(** The order of the heat-map rows: by day name, then hour, then status. *)
Lemma heat_key_compare_eq (a b : Dash15.heat_key) :
  Dash15.heat_key_compare a b = Eq <-> a = b.
Proof.
  destruct a as [[d1 h1] s1], b as [[d2 h2] s2]. simpl. split.
  - destruct (String.compare d1 d2) eqn:Hd; try discriminate.
    destruct (Z.compare h1 h2) eqn:Hh; try discriminate.
    intros Hs. apply string_compare_eq in Hd, Hs. apply Z.compare_eq in Hh.
    congruence.
  - intros [= -> -> ->]. now rewrite !string_compare_refl, Z.compare_refl.
Qed.

Lemma heat_key_compare_antisym (a b : Dash15.heat_key) :
  Dash15.heat_key_compare a b = CompOpp (Dash15.heat_key_compare b a).
Proof.
  destruct a as [[d1 h1] s1], b as [[d2 h2] s2]. simpl.
  rewrite (String.compare_antisym d1 d2), (Z.compare_antisym h2 h1),
    (String.compare_antisym s1 s2).
  destruct (String.compare d2 d1), (Z.compare h2 h1); reflexivity.
Qed.

Lemma heat_key_compare_lt_trans (a b c : Dash15.heat_key) :
  Dash15.heat_key_compare a b = Lt -> Dash15.heat_key_compare b c = Lt ->
  Dash15.heat_key_compare a c = Lt.
Proof.
  destruct a as [[d1 h1] s1], b as [[d2 h2] s2], c as [[d3 h3] s3]. simpl.
  destruct (String.compare d1 d2) eqn:Hd12; try discriminate.
  - apply string_compare_eq in Hd12 as ->.
    destruct (String.compare d2 d3) eqn:Hd23; try discriminate; auto.
    destruct (Z.compare h1 h2) eqn:Hh12; try discriminate.
    + apply Z.compare_eq in Hh12 as ->.
      destruct (Z.compare h2 h3); try discriminate; auto.
      apply string_compare_lt_trans.
    + intros _. destruct (Z.compare h2 h3) eqn:Hh23; try discriminate.
      * apply Z.compare_eq in Hh23 as <-. now rewrite Hh12.
      * intros _. rewrite Z.compare_lt_iff in *.
        assert (Hlt : h1 < h3) by lia. apply Z.compare_lt_iff in Hlt.
        now rewrite Hlt.
  - intros _. destruct (String.compare d2 d3) eqn:Hd23; try discriminate.
    + apply string_compare_eq in Hd23 as <-. now rewrite Hd12.
    + now rewrite (string_compare_lt_trans _ _ _ Hd12 Hd23).
Qed.

Section GroupByExact.
Context {K : Type} (cmp : K -> K -> comparison).
Hypothesis cmp_eq : forall a b, cmp a b = Eq <-> a = b.
Hypothesis cmp_antisym : forall a b, cmp a b = CompOpp (cmp b a).
Hypothesis cmp_lt_trans : forall a b c, cmp a b = Lt -> cmp b c = Lt -> cmp a c = Lt.

Local Abbreviation is_key := (is_key cmp).
Local Abbreviation key_lt := (key_lt cmp).
Local Abbreviation listed := (listed cmp).

Lemma is_key_true k x : is_key k x = true <-> k = x.
Proof.
  unfold is_key. rewrite <- cmp_eq. destruct (cmp k x); split; congruence.
Qed.

Lemma bump_In k l x :
  In x (bump cmp k l) -> fst x = k \/ exists y, In y l /\ fst y = fst x.
Proof.
  induction l as [|[k' n] l IH]; cbn [bump].
  - intros [<-|[]]. now left.
  - destruct (cmp k k') eqn:Hc.
    + intros [<-|Hin]; right; [exists (k', n)|exists x]; simpl; auto.
    + intros [<-|Hin]; [now left|]. right. exists x. auto.
    + intros [<-|Hin].
      * right. exists (k', n). simpl. auto.
      * destruct (IH Hin) as [Hk|[y [Hy Hf]]]; [now left|].
        right. exists y. simpl. auto.
Qed.

Lemma bump_sorted k l :
  StronglySorted key_lt l -> StronglySorted key_lt (bump cmp k l).
Proof.
  induction 1 as [|[k' n] l Hs IH Hall]; cbn [bump]; [repeat constructor|].
  destruct (cmp k k') eqn:Hc.
  - constructor; assumption.
  - constructor; [constructor; assumption|].
    constructor; [exact Hc|].
    eapply Forall_impl; [|exact Hall]. intros y Hy. unfold key_lt in *.
    simpl in *. now apply (cmp_lt_trans _ k').
  - constructor; [assumption|]. apply Forall_forall. intros x Hx.
    rewrite Forall_forall in Hall. unfold key_lt. simpl.
    destruct (bump_In _ _ _ Hx) as [Hk|[y [Hy Hf]]].
    + rewrite Hk, cmp_antisym, Hc. reflexivity.
    + rewrite <- Hf. apply (Hall y Hy).
Qed.

Lemma groupby_size_sorted keys : StronglySorted key_lt (groupby_size cmp keys).
Proof.
  unfold groupby_size.
  assert (Hgen : forall acc, StronglySorted key_lt acc ->
                   StronglySorted key_lt
                     (fold_left (fun acc k => bump cmp k acc) keys acc)).
  { induction keys as [|k keys IH]; intros acc Hacc; cbn [fold_left]; [assumption|].
    apply IH. now apply bump_sorted. }
  apply Hgen. constructor.
Qed.

Lemma listed_bump k k' l :
  listed k (bump cmp k' l) = listed k l + (if is_key k k' then 1 else 0).
Proof.
  unfold listed. induction l as [|[x n] l IH]; cbn [bump filter fst].
  - destruct (is_key k k'); reflexivity.
  - destruct (cmp k' x) eqn:Hc.
    + apply cmp_eq in Hc as ->. cbn [filter fst].
      destruct (is_key k x); cbn [total]; lia.
    + cbn [filter fst]. destruct (is_key k k') eqn:Hk, (is_key k x) eqn:Hx;
        cbn [total]; try lia.
    + cbn [filter fst]. destruct (is_key k x); cbn [total]; rewrite IH; lia.
Qed.

Lemma listed_groupby k keys :
  listed k (groupby_size cmp keys) = Z.of_nat (length (filter (is_key k) keys)).
Proof.
  unfold groupby_size.
  assert (Hgen : forall acc,
             listed k (fold_left (fun acc k => bump cmp k acc) keys acc)
             = listed k acc + Z.of_nat (length (filter (is_key k) keys))).
  { induction keys as [|k' keys IH]; intros acc; cbn [fold_left filter]; [simpl; lia|].
    rewrite IH, listed_bump. destruct (is_key k k'); cbn [length]; lia. }
  rewrite Hgen. reflexivity.
Qed.

Lemma bump_positive k l :
  Forall (fun e => 0 < snd e) l -> Forall (fun e => 0 < snd e) (bump cmp k l).
Proof.
  induction 1 as [|[k' n] l Hn Hall IH]; cbn [bump]; [repeat constructor|].
  simpl in Hn. destruct (cmp k k'); repeat constructor; simpl; auto; lia.
Qed.

Lemma groupby_size_positive keys :
  Forall (fun e => 0 < snd e) (groupby_size cmp keys).
Proof.
  unfold groupby_size.
  assert (Hgen : forall acc, Forall (fun e => 0 < snd e) acc ->
                   Forall (fun e => 0 < snd e)
                     (fold_left (fun acc k => bump cmp k acc) keys acc)).
  { induction keys as [|k keys IH]; intros acc Hacc; cbn [fold_left]; [assumption|].
    apply IH. now apply bump_positive. }
  apply Hgen. constructor.
Qed.

(** In a table sorted by key an entry is the only one of its key. *)
Lemma listed_sorted k n l :
  StronglySorted key_lt l -> In (k, n) l -> listed k l = n.
Proof.
  unfold listed. induction 1 as [|[x m] l Hs IH Hall]; [intros []|].
  assert (Hirr : forall a, cmp a a = Lt -> False).
  { intros a Ha. rewrite (proj2 (cmp_eq a a) eq_refl) in Ha. discriminate. }
  intros [[= -> ->]|Hin]; cbn [filter fst].
  - rewrite (proj2 (is_key_true k k) eq_refl). cbn [total].
    rewrite filter_nil_iff; [simpl; lia|].
    intros [y p] Hy. rewrite Forall_forall in Hall. specialize (Hall _ Hy).
    unfold key_lt in Hall. simpl in *.
    destruct (is_key k y) eqn:E; [|reflexivity].
    apply is_key_true in E. subst. exfalso. eauto.
  - destruct (is_key k x) eqn:E; [|auto].
    apply is_key_true in E. subst. exfalso.
    rewrite Forall_forall in Hall. specialize (Hall _ Hin). unfold key_lt in Hall.
    simpl in Hall. eauto.
Qed.

Lemma listed_absent k l :
  (forall n, ~ In (k, n) l) -> listed k l = 0.
Proof.
  intros Hno. unfold listed. rewrite filter_nil_iff; [reflexivity|].
  intros [x n] Hx. simpl. destruct (is_key k x) eqn:E; [|reflexivity].
  apply is_key_true in E. subst. exfalso. eapply Hno; eauto.
Qed.

(** [groupby(...).size()]: a row [(k, n)] is listed exactly when [k]
    occurs [n > 0] times among the keys. *)
Lemma groupby_size_exact keys k n :
  In (k, n) (groupby_size cmp keys)
  <-> n = Z.of_nat (length (filter (is_key k) keys)) /\ 0 < n.
Proof.
  pose proof (groupby_size_sorted keys) as Hs.
  pose proof (groupby_size_positive keys) as Hp.
  pose proof (listed_groupby k keys) as Hl.
  split.
  - intros Hin. rewrite <- Hl. rewrite (listed_sorted k n _ Hs Hin).
    split; [reflexivity|]. rewrite Forall_forall in Hp. apply (Hp _ Hin).
  - intros [-> Hpos]. rewrite <- Hl in *.
    assert (Hex : exists m, In (k, m) (groupby_size cmp keys)).
    { destruct (existsb (fun e => is_key k (fst e)) (groupby_size cmp keys)) eqn:E.
      - apply existsb_exists in E as [[x m] [Hx Hk]]. simpl in Hk.
        apply is_key_true in Hk. subst. eauto.
      - exfalso. rewrite listed_absent in Hpos; [lia|].
        intros m Hm.
        assert (existsb (fun e => is_key k (fst e)) (groupby_size cmp keys) = true).
        { apply existsb_exists. exists (k, m). split; [assumption|].
          simpl. now apply is_key_true. }
        congruence. }
    destruct Hex as [m Hm]. now rewrite (listed_sorted k m _ Hs Hm).
Qed.
End GroupByExact.

Lemma filter_map_length {A B} (f : A -> B) (p : B -> bool) (l : list A) :
  length (filter p (map f l)) = length (filter (fun x => p (f x)) l).
Proof.
  induction l as [|x l IH]; simpl; [reflexivity|].
  destruct (p (f x)); simpl; congruence.
Qed.

(** X4. The heat-map rows of the Insights tab are sorted by day name, then
    hour, then status, so no combination is listed twice; a combination is
    listed exactly when some dose of the user has it, with the number of
    those doses as its count; and the counts add up to the number of the
    user's doses. *)
Theorem heat_counts_are_exact (df : list (Z * Dash15.dose)) :
  StronglySorted (key_lt Dash15.heat_key_compare) (Dash15.heat df)
  /\ (forall (day : string) (hour : Z) (st : string) (n : Z),
        In ((day, hour, st), n) (Dash15.heat df)
        <-> n = Z.of_nat (length (filter (fun r =>
                   String.eqb (Dash15.day_of r) day
                   && (Dash15.hour_of r =? hour)
                   && String.eqb (Dash15.status (snd r)) st) df))
            /\ 0 < n)
  /\ total (Dash15.heat df) = Z.of_nat (length df).
Proof.
  unfold Dash15.heat. split; [|split].
  - apply (groupby_size_sorted _ heat_key_compare_antisym heat_key_compare_lt_trans).
  - intros day hour st n.
    rewrite (groupby_size_exact _ heat_key_compare_eq heat_key_compare_antisym
               heat_key_compare_lt_trans).
    rewrite filter_map_length.
    assert (Hext : forall r : Z * Dash15.dose,
               is_key Dash15.heat_key_compare (day, hour, st)
                 (Dash15.day_of r, Dash15.hour_of r, Dash15.status (snd r))
               = String.eqb (Dash15.day_of r) day && (Dash15.hour_of r =? hour)
                 && String.eqb (Dash15.status (snd r)) st).
    { intros r. apply Bool.eq_iff_eq_true.
      rewrite (is_key_true _ heat_key_compare_eq), !andb_true_iff,
        !String.eqb_eq, Z.eqb_eq.
      split; [intros [= -> -> ->]; auto|intros [[-> ->] ->]; reflexivity]. }
    rewrite (filter_ext _ _ Hext). reflexivity.
  - rewrite groupby_size_total. now rewrite length_map.
Qed.

(** ** The session of [15.py] *)

Section Session15.
Import Dash15.
Context `{Solver}.

Lemma app_eta (a : app) : App (store a) (sess a) = a.
Proof. now destruct a. Qed.

Lemma sidebar_uid s ev : uid (sidebar s ev) = uid s.
Proof.
  destruct ev as [|k|u p ag g|u p|m dos sched|mn st]; try reflexivity.
  cbn [sidebar]. now destruct (existsb _ _).
Qed.

Lemma page_login_In d u p i :
  page_login d u p = Some i -> exists r, In (i, r) (rows (users d)).
Proof.
  unfold page_login.
  destruct (select _ (users d)) as [|[j r] l] eqn:Hs; [discriminate|].
  intros [= ->]. exists r.
  assert (Hin : In (i, r) (select (fun r => String.eqb (username r) u
                                     && String.eqb (password r) (hash_pw p))
                                  (users d)))
    by (rewrite Hs; now left).
  now apply select_In in Hin as [Hin _].
Qed.

Lemma login_step_inv a ev a2 o :
  login_step a ev = (a2, o) ->
  (a2 = a /\ o = Finished)
  \/ (exists u p i, ev = SubmitLogin u p /\ page_login (store a) u p = Some i
                    /\ a2 = App (store a) (Session (Some i) "dash" true)
                    /\ o = Stopped).
Proof.
  unfold login_step.
  destruct ev as [|k|u p ag g|u p|m dos sched|mn st];
    try (intros [= <- <-]; now left).
  destruct (page_login (store a) u p) as [i|] eqn:Hl; intros [= <- <-].
  - right. exists u, p, i. auto.
  - now left.
Qed.

Lemma register_step_inv a ev a2 o :
  register_step a ev = (a2, o) ->
  (a2 = a /\ o <> Stopped)
  \/ (exists u p ag g d', ev = SubmitRegister u p ag g
        /\ page_register (store a) u p ag g = Ok (d', AccountCreated)
        /\ a2 = App d' (Session (uid (sess a)) "login" true) /\ o = Stopped).
Proof.
  unfold register_step.
  destruct ev as [|k|u p ag g|u p|m dos sched|mn st];
    try (intros [= <- <-]; left; split; [reflexivity|discriminate]).
  destruct (page_register (store a) u p ag g) as [[d' m]|e] eqn:Hr.
  - destruct m; intros [= <- <-];
      try (apply page_register_inv in Hr as [[Hm _]|[_ ->]];
           [discriminate|left; split; [apply app_eta|discriminate]]).
    right. exists u, p, ag, g, d'. auto.
  - intros [= <- <-]. left. split; [reflexivity|discriminate].
Qed.

Lemma dashboard_step_inv a i ev now h day a2 o :
  dashboard_step a i ev now h day = (a2, o) ->
  (a2 = a /\ o <> Stopped)
  \/ (exists m dos sched, ev = SaveMedicine m dos sched /\ m <> ""
        /\ a2 = App (DB (users (store a))
                        (insert (meds (store a)) (Med i m dos sched))
                        (doses (store a)))
                    (Session (uid (sess a)) (page (sess a)) true)
        /\ o = Stopped)
  \/ (exists mn st mid d', ev = SaveDose mn st
        /\ page_dashboard_log (store a) i mn st now = Ok (d', Logged)
        /\ resolve_med (user_meds (store a) i) mn = Ok mid
        /\ d' = DB (users (store a)) (meds (store a))
                   (insert (doses (store a)) (Dose i mid now (status_label st)))
        /\ a2 = App d' (Session (uid (sess a)) (page (sess a)) true)
        /\ o = Stopped).
Proof.
  unfold dashboard_step.
  assert (Hins : forall a2 o,
             match snd (page_dashboard_insights (store a) i h day) with
             | HeatAndRisk _ (Raise e) => (a, Crashed e)
             | _ => (a, Finished)
             end = (a2, o) -> a2 = a /\ o <> Stopped).
  { intros b c. destruct (snd (page_dashboard_insights (store a) i h day)) as [|? [r|e]];
      intros [= <- <-]; split; try reflexivity; discriminate. }
  destruct ev as [|k|u p ag g|u p|m dos sched|mn st];
    try (intros Hi; left; now apply Hins).
  - unfold page_dashboard_meds. destruct (String.eqb_spec m "") as [->|Hm].
    + intros Hi. left. now apply Hins.
    + intros [= <- <-]. right. left. exists m, dos, sched. auto.
  - destruct (page_dashboard_log (store a) i mn st now) as [[d' m]|e] eqn:Hl.
    + pose proof (page_dashboard_log_inv _ _ _ _ _ _ _ Hl)
        as [[-> _]|[-> [mid [Hres Hd]]]].
      * intros Hi. left. now apply Hins.
      * intros [= <- <-]. right. right. exists mn, st, mid, d'. auto 10.
    + intros [= <- <-]. left. split; [reflexivity|discriminate].
Qed.

(** What one pass through the router does. *)
Lemma router_inv a ev now h day a2 o :
  router a ev now h day = (a2, o) ->
  (a2 = a /\ o <> Stopped)
  \/ (exists u p ag g d', ev = SubmitRegister u p ag g
        /\ page_register (store a) u p ag g = Ok (d', AccountCreated)
        /\ a2 = App d' (Session (uid (sess a)) "login" true) /\ o = Stopped)
  \/ (exists u p i, ev = SubmitLogin u p /\ page_login (store a) u p = Some i
        /\ a2 = App (store a) (Session (Some i) "dash" true) /\ o = Stopped)
  \/ (exists i m dos sched, uid (sess a) = Some i /\ i <> 0
        /\ ev = SaveMedicine m dos sched /\ m <> ""
        /\ a2 = App (DB (users (store a))
                        (insert (meds (store a)) (Med i m dos sched))
                        (doses (store a)))
                    (Session (uid (sess a)) (page (sess a)) true)
        /\ o = Stopped)
  \/ (exists i mn st mid d', uid (sess a) = Some i /\ i <> 0
        /\ ev = SaveDose mn st
        /\ page_dashboard_log (store a) i mn st now = Ok (d', Logged)
        /\ resolve_med (user_meds (store a) i) mn = Ok mid
        /\ d' = DB (users (store a)) (meds (store a))
                   (insert (doses (store a)) (Dose i mid now (status_label st)))
        /\ a2 = App d' (Session (uid (sess a)) (page (sess a)) true)
        /\ o = Stopped)
  \/ (page (sess a) = "logout"
        /\ a2 = App (store a) (Session None "home" true) /\ o = Stopped).
Proof.
  unfold router.
  assert (Hlogin : forall a2 o, login_step a ev = (a2, o) ->
            (a2 = a /\ o <> Stopped)
            \/ (exists u p i, ev = SubmitLogin u p /\ page_login (store a) u p = Some i
                  /\ a2 = App (store a) (Session (Some i) "dash" true) /\ o = Stopped)).
  { intros b c Hl. apply login_step_inv in Hl as [[-> ->]|Hl]; [left|right; exact Hl].
    split; [reflexivity|discriminate]. }
  destruct (String.eqb (page (sess a)) "home").
  { intros [= <- <-]. left. split; [reflexivity|discriminate]. }
  destruct (String.eqb (page (sess a)) "reg").
  { intros Hr. apply register_step_inv in Hr as [Hr|Hr]; [left|right; left]; exact Hr. }
  destruct (String.eqb (page (sess a)) "login").
  { intros Hl. apply Hlogin in Hl as [Hl|Hl]; [left|right; right; left]; exact Hl. }
  destruct (String.eqb (page (sess a)) "dash").
  { destruct (uid (sess a)) as [i|] eqn:Hu.
    - unfold logged_in. rewrite Hu. destruct (Z.eqb_spec i 0) as [->|Hi]; cbn [negb].
      + intros Hl. apply Hlogin in Hl as [Hl|Hl]; [left|right; right; left]; exact Hl.
      + intros Hd. apply dashboard_step_inv in Hd
          as [Hd|[[m [dos [sched [-> [Hm [-> ->]]]]]]
                 |[mn [st [mid [d' [-> [Hlog [Hres [Hd [-> ->]]]]]]]]]]].
        * now left.
        * do 3 right. left. exists i, m, dos, sched. rewrite Hu. auto 10.
        * do 4 right. left. exists i, mn, st, mid, d'. rewrite Hu. auto 12.
    - intros Hl. apply Hlogin in Hl as [Hl|Hl]; [left|right; right; left]; exact Hl. }
  destruct (String.eqb_spec (page (sess a)) "logout") as [Hp|Hp].
  { intros [= <- <-]. do 5 right. auto. }
  intros [= <- <-]. left. split; [reflexivity|discriminate].
Qed.

(** A pass that reaches the last lines of the script has changed nothing. *)
Lemma router_Finished a ev now h day a2 :
  router a ev now h day = (a2, Finished) -> a2 = a.
Proof.
  intros Hr. apply router_inv in Hr
    as [[-> _]|[[? [? [? [? [? [_ [_ [_ Ho]]]]]]]]
       |[[? [? [? [_ [_ [_ Ho]]]]]]|[[? [? [? [? [_ [_ [_ [_ [_ Ho]]]]]]]]]
       |[[? [? [? [? [? [_ [_ [_ [_ [_ [_ [_ Ho]]]]]]]]]]]]|[_ [_ Ho]]]]]]];
    try discriminate; reflexivity.
Qed.

(** A pass without an event changes nothing, unless it logs out. *)
Lemma router_NoEvent a now h day a2 o :
  router a NoEvent now h day = (a2, o) ->
  (a2 = a /\ o <> Stopped)
  \/ (page (sess a) = "logout"
        /\ a2 = App (store a) (Session None "home" true) /\ o = Stopped).
Proof.
  intros Hr. apply router_inv in Hr
    as [Hr|[[u [p [ag [g [d' [Hev _]]]]]]|[[u [p [i [Hev _]]]]
       |[[i [m [dos [sched [_ [_ [Hev _]]]]]]]|[[i [mn [st [mid [d' [_ [_ [Hev _]]]]]]]]|Hr]]]]];
    try discriminate; auto.
Qed.

(** The rerun: a pass without an event and with the flag cleared ends the
    interaction, whatever the fuel. *)
Lemma run_NoEvent fuel a now h day :
  rerun (sess a) = false ->
  run fuel a NoEvent now h day = Some (router a NoEvent now h day).
Proof.
  intros Hre.
  destruct (router a NoEvent now h day) as [a2 o] eqn:Hr.
  assert (Hfin : o = Finished -> rerun (sess a2) = false).
  { intros ->. apply router_Finished in Hr. now subst. }
  destruct fuel as [|f]; cbn [run sidebar]; rewrite app_eta, Hr;
    destruct o; try reflexivity; now rewrite Hfin.
Qed.

(** One interaction is one pass, or one pass and one rerun. *)
Lemma run_S fuel a ev now h day :
  let a1 := App (store a) (sidebar (sess a) ev) in
  run (S fuel) a ev now h day =
  Some (match router a1 ev now h day with
        | (a2, Finished) =>
            if rerun (sess a1)
            then router (App (store a1) (Session (uid (sess a1)) (page (sess a1)) false))
                        NoEvent now h day
            else (a1, Finished)
        | r => r
        end).
Proof.
  cbv zeta. cbn [run].
  destruct (router (App (store a) (sidebar (sess a) ev)) ev now h day)
    as [a2 o2] eqn:Hr1.
  destruct o2; try reflexivity.
  apply router_Finished in Hr1. subst a2. cbn [store sess].
  destruct (rerun (sidebar (sess a) ev)) eqn:Hre; [|reflexivity].
  now apply run_NoEvent.
Qed.

Lemma run_inv fuel a ev now h day a' o :
  run (S fuel) a ev now h day = Some (a', o) ->
  let a1 := App (store a) (sidebar (sess a) ev) in
  router a1 ev now h day = (a', o)
  \/ (router a1 ev now h day = (a1, Finished)
      /\ router (App (store a1) (Session (uid (sess a1)) (page (sess a1)) false))
                NoEvent now h day = (a', o)).
Proof.
  cbv zeta. rewrite run_S. cbv zeta.
  destruct (router (App (store a) (sidebar (sess a) ev)) ev now h day)
    as [a2 o2] eqn:Hr1.
  destruct o2; try (intros [= <- <-]; now left).
  pose proof (router_Finished _ _ _ _ _ _ Hr1) as ->.
  destruct (rerun _).
  - intros [= Hx]. right. split; [reflexivity|exact Hx].
  - intros [= <- <-]. left. reflexivity.
Qed.

Lemma router_session_ok a ev now h day a2 o :
  session_ok a -> router a ev now h day = (a2, o) -> session_ok a2.
Proof.
  intros [Hre Hu] Hr. apply router_inv in Hr
    as [[-> _]|[[u [p [ag [g [d' [_ [Hreg [-> _]]]]]]]]
       |[[u [p [i [_ [Hl [-> _]]]]]]|[[i [m [dos [sched [_ [_ [_ [Hm [-> _]]]]]]]]]
       |[[i [mn [st [mid [d' [_ [_ [_ [Hlog [_ [_ [-> _]]]]]]]]]]]]|[_ [-> _]]]]]]];
    unfold session_ok; cbn [store sess uid].
  - now split.
  - split; [now apply (reach_register _ _ _ _ _ _ _ Hre Hreg)|].
    intros i Hi. destruct (Hu i Hi) as [r Hin].
    apply page_register_created in Hreg as [_ ->]. cbn [users].
    exists r. rewrite rows_insert. apply in_or_app. now left.
  - split; [assumption|]. intros j [= <-]. now apply page_login_In in Hl.
  - split; [|exact Hu].
    pose proof (reach_meds _ i m dos sched Hre) as Hm'.
    unfold page_dashboard_meds in Hm'.
    destruct (String.eqb_spec m "") as [->|_]; [now destruct Hm|exact Hm'].
  - split; [now apply (reach_log _ _ _ _ _ _ _ Hre Hlog)|].
    apply page_dashboard_log_inv in Hlog as [[Hx _]|[_ [mid' [_ ->]]]];
      [discriminate|exact Hu].
  - split; [assumption|discriminate].
Qed.

(** What one pass adds to the three tables. *)
Lemma router_store a ev now h day a2 o :
  router a ev now h day = (a2, o) ->
  exists nu nm nd,
    rows (users (store a2)) = rows (users (store a)) ++ nu
    /\ rows (meds (store a2)) = rows (meds (store a)) ++ nm
    /\ rows (doses (store a2)) = rows (doses (store a)) ++ nd
    /\ (length nu + length nm + length nd <= 1)%nat
    /\ (nm <> [] \/ nd <> [] ->
        exists i, uid (sess a) = Some i /\ i <> 0
                  /\ Forall (fun r => med_user_id (snd r) = i) nm
                  /\ Forall (fun r => dose_user_id (snd r) = i) nd).
Proof.
  intros Hr. apply router_inv in Hr
    as [[-> _]|[[u [p [ag [g [d' [_ [Hreg [-> _]]]]]]]]
       |[[u [p [i [_ [Hl [-> _]]]]]]|[[i [m [dos [sched [Hu [Hi [_ [Hm [-> _]]]]]]]]]
       |[[i [mn [st [mid [d' [Hu [Hi [_ [_ [_ [-> [-> _]]]]]]]]]]]]|[_ [-> _]]]]]]];
    cbn [store users meds doses].
  - exists [], [], []. rewrite !app_nil_r. repeat split; auto.
    intros [X|X]; now destruct X.
  - apply page_register_created in Hreg as [_ ->]. cbn [users meds doses].
    exists [(next_rowid (users (store a)), User u (hash_pw p) ag g)], [], [].
    rewrite rows_insert, !app_nil_r. repeat split; auto.
    intros [X|X]; now destruct X.
  - exists [], [], []. rewrite !app_nil_r. repeat split; auto.
    intros [X|X]; now destruct X.
  - exists [], [(next_rowid (meds (store a)), Med i m dos sched)], [].
    rewrite rows_insert, !app_nil_r. repeat split; auto.
    intros _. exists i. repeat split; auto.
  - exists [], [], [(next_rowid (doses (store a)), Dose i mid now (status_label st))].
    rewrite rows_insert, !app_nil_r. repeat split; auto.
    intros _. exists i. repeat split; auto.
  - exists [], [], []. rewrite !app_nil_r. repeat split; auto.
    intros [X|X]; now destruct X.
Qed.
End Session15.

(** X5. Every interaction with [15.py] ends after at most one rerun: with
    fuel for one rerun the run returns a result, more fuel gives the same
    result, and a run that reaches the last lines of the script leaves the
    rerun flag cleared. *)
Theorem one_rerun_suffices `{Solver} (fuel : nat) (a : Dash15.app)
    (ev : Dash15.event) (now : Timestamp) (h : Z) (day : string) :
  exists a' o,
    Dash15.run 1 a ev now h day = Some (a', o)
    /\ Dash15.run (S fuel) a ev now h day = Some (a', o)
    /\ (o = Dash15.Finished -> Dash15.rerun (Dash15.sess a') = false).
Proof.
  rewrite !run_S. cbv zeta.
  destruct (Dash15.router _ ev now h day) as [a2 o2] eqn:Hr1.
  destruct o2; try (eexists _, _; repeat split; discriminate).
  destruct (Dash15.rerun _) eqn:Hre.
  - destruct (Dash15.router _ Dash15.NoEvent now h day) as [a3 o3] eqn:Hr2.
    exists a3, o3. repeat split. intros ->.
    apply router_Finished in Hr2. now subst.
  - eexists _, _. repeat split. intros _. exact Hre.
Qed.

(** A leftover rerun flag does need that rerun. *)
Example leftover_flag_reruns :
  Dash15.rerun (Dash15.sess Dash15.sample_app) = true
  /\ @Dash15.run null_solver 0 Dash15.sample_app Dash15.NoEvent
       (datetime 2025 6 9 8 0 0) 8 "Monday" = None.
Proof. vm_compute. split; reflexivity. Qed.

(** X6. An interaction only appends to the tables, at most one row in all;
    a medicine or a dose is added only in a session that is logged in, and
    the new row carries the user id of that session. *)
Theorem only_session_user_adds_rows `{Solver} (fuel : nat) (a a' : Dash15.app)
    (ev : Dash15.event) (now : Timestamp) (h : Z) (day : string)
    (o : Dash15.outcome) :
  Dash15.run (S fuel) a ev now h day = Some (a', o) ->
  exists nu nm nd,
    rows (Dash15.users (Dash15.store a')) = rows (Dash15.users (Dash15.store a)) ++ nu
    /\ rows (Dash15.meds (Dash15.store a')) = rows (Dash15.meds (Dash15.store a)) ++ nm
    /\ rows (Dash15.doses (Dash15.store a')) = rows (Dash15.doses (Dash15.store a)) ++ nd
    /\ (length nu + length nm + length nd <= 1)%nat
    /\ (nm <> [] \/ nd <> [] ->
        exists i, Dash15.uid (Dash15.sess a) = Some i /\ i <> 0
                  /\ Forall (fun r => Dash15.med_user_id (snd r) = i) nm
                  /\ Forall (fun r => Dash15.dose_user_id (snd r) = i) nd).
Proof.
  intros Hrun. apply run_inv in Hrun. cbv zeta in Hrun.
  destruct Hrun as [Hr|[_ Hr]].
  - apply router_store in Hr. cbn [Dash15.store Dash15.sess] in Hr.
    now rewrite sidebar_uid in Hr.
  - apply router_NoEvent in Hr as [[-> _]|[_ [-> _]]]; cbn [Dash15.store];
      exists [], [], []; rewrite !app_nil_r; repeat split; auto;
      intros [X|X]; now destruct X.
Qed.

Lemma only_session_user_adds_rows_witness :
  let a := Dash15.sample_app in
  let a' := Dash15.interact a (Dash15.SaveMedicine "Aspirin" "10mg" "Morning") in
  exists nu nm nd,
    rows (Dash15.users (Dash15.store a')) = rows (Dash15.users (Dash15.store a)) ++ nu
    /\ rows (Dash15.meds (Dash15.store a')) = rows (Dash15.meds (Dash15.store a)) ++ nm
    /\ rows (Dash15.doses (Dash15.store a')) = rows (Dash15.doses (Dash15.store a)) ++ nd
    /\ (length nu + length nm + length nd <= 1)%nat
    /\ (nm <> [] \/ nd <> [] ->
        exists i, Dash15.uid (Dash15.sess a) = Some i /\ i <> 0
                  /\ Forall (fun r => Dash15.med_user_id (snd r) = i) nm
                  /\ Forall (fun r => Dash15.dose_user_id (snd r) = i) nd).
Proof.
  cbv zeta.
  apply (@only_session_user_adds_rows null_solver 0 Dash15.sample_app _
           (Dash15.SaveMedicine "Aspirin" "10mg" "Morning")
           (datetime 2025 6 9 8 0 0) 8 "Monday" Dash15.Stopped).
  vm_compute. reflexivity.
Defined.

Lemma sample_app_reachable : @Dash15.app_reachable null_solver Dash15.sample_app.
Proof.
  assert (Hstep : forall a ev, @Dash15.app_reachable null_solver a ->
                               @Dash15.app_reachable null_solver (Dash15.interact a ev)).
  { intros a ev Ha. unfold Dash15.interact.
    destruct (@Dash15.run null_solver 1 a ev _ 8 "Monday") as [[a' o]|] eqn:E;
      [|exact Ha].
    exact (Dash15.app_step _ _ _ _ _ _ _ Ha E). }
  unfold Dash15.sample_app. do 3 apply Hstep. apply Dash15.app_init.
Qed.

Example sample_app_session :
  Dash15.sess Dash15.sample_app = Dash15.Session (Some 1) "dash" true.
Proof. vm_compute. reflexivity. Qed.

(** X7. In every state of the application a user can bring about, the
    store is one the pages can build, and a user id held by the session is
    the id of a stored account. *)
Theorem session_user_is_registered `{Solver} (a : Dash15.app) :
  Dash15.app_reachable a ->
  Dash15.reachable (Dash15.store a)
  /\ forall i, Dash15.uid (Dash15.sess a) = Some i ->
               exists r, In (i, r) (rows (Dash15.users (Dash15.store a))).
Proof.
  intros Ha. change (Dash15.session_ok a).
  induction Ha as [|a ev now h day a' o Ha IH Hrun].
  - split; [apply Dash15.reach_init|discriminate].
  - assert (IH1 : Dash15.session_ok
                    (Dash15.App (Dash15.store a) (Dash15.sidebar (Dash15.sess a) ev))).
    { destruct IH as [Hre Hu]. split; [exact Hre|].
      cbn [Dash15.store Dash15.sess]. now rewrite sidebar_uid. }
    apply run_inv in Hrun. cbv zeta in Hrun. destruct Hrun as [Hr|[_ Hr]].
    + exact (router_session_ok _ _ _ _ _ _ _ IH1 Hr).
    + refine (router_session_ok _ _ _ _ _ _ _ _ Hr).
      destruct IH1 as [Hre Hu]. split; assumption.
Qed.

Lemma session_user_is_registered_witness :
  Dash15.reachable (Dash15.store Dash15.sample_app)
  /\ forall i, Dash15.uid (Dash15.sess Dash15.sample_app) = Some i ->
               exists r, In (i, r) (rows (Dash15.users (Dash15.store Dash15.sample_app))).
Proof.
  apply (@session_user_is_registered null_solver Dash15.sample_app).
  apply sample_app_reachable.
Defined.

(** ** Accounts, the first boot and the Log Dose tab of [12medi.py] *)

Section Accounts12.
Import Medi12.

Lemma filter_nil_existsb {A} (f : A -> bool) (l : list A) :
  filter f l = [] <-> existsb f l = false.
Proof.
  induction l as [|x l IH]; simpl; [tauto|].
  destruct (f x); simpl; [split; discriminate|exact IH].
Qed.

Lemma get_user_None d u :
  get_user d u = None
  <-> select (fun r => String.eqb (username r) u) (users d) = [].
Proof.
  unfold get_user.
  destruct (select _ (users d)) as [|[i r] l]; split; try discriminate; reflexivity.
Qed.

Lemma create_user_fresh d u e p a dn dp :
  get_user d u = None ->
  create_user d u e p a dn dp
  = Ok (DB (insert (users d) (User u e (hash_pwd p) a dn dp)) (meds d) (dose_log d)).
Proof.
  intros Hn. apply get_user_None in Hn. unfold select in Hn.
  apply filter_nil_existsb in Hn. unfold create_user. now rewrite Hn.
Qed.

Lemma get_user_insert_same d u e h a dn dp ms ls :
  get_user d u = None ->
  get_user (DB (insert (users d) (User u e h a dn dp)) ms ls) u
  = Some (User u e h a dn dp).
Proof.
  intros Hn. apply get_user_None in Hn. unfold get_user. cbn [users].
  rewrite select_insert, Hn. cbn [username]. now rewrite String.eqb_refl.
Qed.

Lemma get_user_insert_other d u v e h a dn dp ms ls :
  v <> u ->
  get_user (DB (insert (users d) (User u e h a dn dp)) ms ls) v = get_user d v.
Proof.
  intros Hne. unfold get_user. cbn [users]. rewrite select_insert. cbn [username].
  destruct (String.eqb_spec u v) as [->|_]; [now destruct Hne|].
  now rewrite app_nil_r.
Qed.

Lemma get_user_add_med d u name dos tod v :
  get_user (add_med d u name dos tod) v = get_user d v.
Proof. reflexivity. Qed.

Lemma StronglySorted_app_gt (pre post : list Z) (x y : Z) :
  StronglySorted Z.lt (pre ++ x :: post) -> In y pre -> y < x.
Proof.
  induction pre as [|p pre IH]; simpl; intros Hs Hin; [destruct Hin|].
  inversion Hs as [|? ? Hs' Hall]; subst. destruct Hin as [->|Hin]; [|auto].
  rewrite Forall_forall in Hall. apply Hall. apply in_or_app. right. now left.
Qed.

(** [med_dict[k]] is the id of the last of the rows labelled [k]. *)
Lemma dict_get_med_dict (ms : list (Z * med)) (k : string) :
  In k (map (fun m => med_label (snd m)) ms) ->
  exists pre mid m post,
    ms = pre ++ (mid, m) :: post /\ med_label m = k
    /\ dict_get (med_dict ms) k = Ok mid
    /\ forall x, In x post -> med_label (snd x) <> k.
Proof.
  induction ms as [|[j n] ms IH] using rev_ind; [intros []|].
  rewrite map_app, in_app_iff. intros Hin.
  unfold dict_get, med_dict. rewrite map_app, rev_app_distr. cbn [map rev app filter fst snd].
  destruct (String.eqb_spec (med_label n) k) as [Hk|Hk].
  - exists ms, j, n, []. repeat split; auto.
  - destruct Hin as [Hin|[Hin|[]]]; [|now destruct Hk].
    destruct (IH Hin) as [pre [mid [m [post [-> [Hm [Hget Hpost]]]]]]].
    exists pre, mid, m, (post ++ [(j, n)]). repeat split; auto.
    + now rewrite <- app_assoc.
    + intros x [Hx|[<-|[]]]%in_app_iff; auto.
Qed.
End Accounts12.

(** X8. The registration form of [12medi.py] never raises: the look-up
    before the insert keeps the primary key of [users] from being violated.
    An account is created only when the form is submitted with the terms
    accepted and the name is free; it can log in with its password at once,
    and no other account is touched.  In every other case the store is
    unchanged. *)
Theorem register_screen_never_raises (d : Medi12.db) (u e p : string) (a : Z)
    (dn dp : string) (agree submit : bool) :
  exists d' n,
    Medi12.register_screen d u e p a dn dp agree submit = Ok (d', n)
    /\ (n = Some Medi12.AccountCreated ->
        submit = true /\ agree = true /\ Medi12.get_user d u = None
        /\ Medi12.login_screen d' u p = Some u
        /\ forall v, v <> u -> Medi12.get_user d' v = Medi12.get_user d v)
    /\ (n <> Some Medi12.AccountCreated -> d' = d).
Proof.
  unfold Medi12.register_screen.
  destruct submit, agree; cbn [andb];
    try (exists d, None; split; [reflexivity|split; [discriminate|reflexivity]]).
  destruct (Medi12.get_user d u) as [r|] eqn:Hg.
  - exists d, (Some Medi12.UsernameExists).
    split; [reflexivity|split; [discriminate|reflexivity]].
  - rewrite (create_user_fresh _ _ e p a dn dp Hg). cbn [bind].
    eexists _, _. split; [reflexivity|]. split; [|intros Hn; now destruct Hn].
    intros _. do 3 (split; [reflexivity|]). split.
    + unfold Medi12.login_screen. rewrite (get_user_insert_same _ _ _ _ _ _ _ _ _ Hg).
      cbn [Medi12.pwd_hash]. now rewrite verify_pwd_hash.
    + intros v Hv. now apply get_user_insert_other.
Qed.

(** X9. The seeding of the sample user at start-up is idempotent and never
    raises; after it the account [demo] exists, and when the seeding
    created it, it logs in with the password [demo] and has its two
    medicines, added after the ones already stored under that name; the
    dosage texts are as in the source, with a narrow no-break space. *)
Theorem main_seed_idempotent (d : Medi12.db) :
  exists d1,
    Medi12.main_seed d = Ok d1
    /\ Medi12.main_seed d1 = Ok d1
    /\ Medi12.get_user d1 "demo" <> None
    /\ (Medi12.get_user d "demo" <> None -> d1 = d)
    /\ (Medi12.get_user d "demo" = None ->
        Medi12.login_screen d1 "demo" "demo" = Some "demo"
        /\ map snd (Medi12.get_user_meds d1 "demo")
           = map snd (Medi12.get_user_meds d "demo")
             ++ [Medi12.Med "demo" "Metformin" Medi12.dose_500_mg "08:00";
                 Medi12.Med "demo" "Atorvastatin" Medi12.dose_20_mg "21:00"]).
Proof.
  unfold Medi12.main_seed at 1.
  destruct (Medi12.get_user d "demo") as [r|] eqn:Hg.
  - exists d. unfold Medi12.main_seed. rewrite Hg.
    split; [reflexivity|]. split; [reflexivity|]. split; [discriminate|].
    split; [reflexivity|discriminate].
  - rewrite (create_user_fresh _ _ _ _ _ _ _ Hg). cbn [bind].
    eexists. split; [reflexivity|].
    assert (Hu : forall ms ls,
               Medi12.get_user
                 (Medi12.DB (insert (Medi12.users d)
                               (Medi12.User "demo" "demo@med.com" (Medi12.hash_pwd "demo")
                                  42 "Dr. Strange" Medi12.demo_phone)) ms ls) "demo"
               = Some (Medi12.User "demo" "demo@med.com" (Medi12.hash_pwd "demo")
                         42 "Dr. Strange" Medi12.demo_phone)).
    { intros ms ls. now apply get_user_insert_same. }
    split; [|split; [|split]].
    + unfold Medi12.main_seed, Medi12.add_med. cbn [Medi12.users Medi12.meds Medi12.dose_log].
      now rewrite Hu.
    + unfold Medi12.add_med. cbn [Medi12.users Medi12.meds Medi12.dose_log].
      rewrite Hu. discriminate.
    + intros Hn. now destruct Hn.
    + intros _. split.
      * unfold Medi12.login_screen, Medi12.add_med.
        cbn [Medi12.users Medi12.meds Medi12.dose_log]. rewrite Hu.
        cbn [Medi12.pwd_hash]. now rewrite verify_pwd_hash.
      * unfold Medi12.get_user_meds, Medi12.add_med.
        cbn [Medi12.users Medi12.meds Medi12.dose_log].
        rewrite !select_insert. cbn [Medi12.med_username].
        change (String.eqb "demo" "demo") with true. cbv iota.
        rewrite !map_app, <- app_assoc. reflexivity.
Qed.

Example seeded_dosage_bytes :
  map nat_of_ascii (list_ascii_of_string Medi12.dose_500_mg)
  = [53; 48; 48; 226; 128; 175; 109; 103]%nat.
Proof. reflexivity. Qed.

(** X10. The Log Dose tab of [12medi.py]: for a label the select box
    offers, saving never raises and appends one dose for the user, for one
    of the user's own medicines with that label; when several of them share
    the label it is the one stored last, the largest id. *)
Theorem log_tab_resolves_to_largest_id (d : Medi12.db) (u choice : string)
    (st : Medi12.Status) (now : Timestamp) :
  wf (Medi12.meds d) ->
  In choice (map fst (Medi12.med_dict (Medi12.get_user_meds d u))) ->
  exists mid m,
    Medi12.log_tab d u choice st now
    = Ok (Medi12.log_dose d u mid
            (match st with Medi12.Taken => 1 | Medi12.Missed => 0 end) now)
    /\ In (mid, m) (rows (Medi12.meds d))
    /\ Medi12.med_username m = u
    /\ Medi12.med_label m = choice
    /\ forall mid' m', In (mid', m') (Medi12.get_user_meds d u) ->
                       Medi12.med_label m' = choice -> mid' <= mid.
Proof.
  intros Hwf Hin. unfold Medi12.med_dict in Hin. rewrite map_map in Hin.
  cbn [fst] in Hin.
  destruct (dict_get_med_dict _ _ Hin) as [pre [mid [m [post [Hms [Hm [Hget Hpost]]]]]]].
  exists mid, m.
  assert (Hmem : In (mid, m) (Medi12.get_user_meds d u)).
  { rewrite Hms. apply in_or_app. right. now left. }
  pose proof Hmem as Hsel. apply select_In in Hsel as [Hrow Hown].
  cbn [snd] in Hown. apply String.eqb_eq in Hown.
  split; [|repeat split; auto].
  - unfold Medi12.log_tab.
    destruct (Medi12.get_user_meds d u) as [|x l] eqn:Hl; [destruct Hmem|].
    rewrite Hget. reflexivity.
  - intros mid' m' Hin' Hlab.
    pose proof (select_sorted (fun m => String.eqb (Medi12.med_username m) u) _ Hwf)
      as Hs.
    fold (Medi12.get_user_meds d u) in Hs. rewrite Hms in Hs, Hin'.
    rewrite map_app in Hs. cbn [map fst] in Hs.
    apply in_app_or in Hin' as [Hp|[Heq|Hp]].
    + assert (mid' < mid); [|lia].
      apply (StronglySorted_app_gt _ _ _ _ Hs).
      apply in_map_iff. exists (mid', m'). auto.
    + inversion Heq. lia.
    + exfalso. apply (Hpost _ Hp). exact Hlab.
Qed.

Lemma log_tab_resolves_to_largest_id_witness :
  let d := Medi12.add_med
             (Medi12.add_med Medi12.init_db "demo" "Metformin" "500 mg" "08:00")
             "demo" "Metformin" "850 mg" "08:00" in
  let choice := Medi12.med_label (Medi12.Med "demo" "Metformin" "500 mg" "08:00") in
  exists mid m,
    Medi12.log_tab d "demo" choice Medi12.Missed (datetime 2025 6 9 8 0 0)
    = Ok (Medi12.log_dose d "demo" mid 0 (datetime 2025 6 9 8 0 0))
    /\ In (mid, m) (rows (Medi12.meds d))
    /\ Medi12.med_username m = "demo"
    /\ Medi12.med_label m = choice
    /\ forall mid' m', In (mid', m') (Medi12.get_user_meds d "demo") ->
                       Medi12.med_label m' = choice -> mid' <= mid.
Proof.
  cbv zeta.
  apply (log_tab_resolves_to_largest_id
           (Medi12.add_med
              (Medi12.add_med Medi12.init_db "demo" "Metformin" "500 mg" "08:00")
              "demo" "Metformin" "850 mg" "08:00")
           "demo" _ Medi12.Missed (datetime 2025 6 9 8 0 0)).
  - apply wf_insert, wf_insert, wf_empty.
  - vm_compute. now left.
Defined.

(** X11. The hour labels of the forecast and the labels the Schedule tab
    stores, [12medi.py]: the label [f"{h:02d}:00"] of hour [h] equals the
    stored [strftime("%H:%M")] of a medicine exactly when the medicine is
    scheduled at [h] o'clock sharp. *)
Theorem forecast_label_matches_on_the_hour (h h' m : Z) :
  0 <= h < 24 -> 0 <= h' < 24 -> 0 <= m < 60 ->
  (Medi12.hh00 h = Medi12.strftime_HM h' m <-> h' = h /\ m = 0).
Proof.
  intros Hh Hh' Hm.
  assert (Hinj : forall k k', 0 <= k < 10 -> 0 <= k' < 10 ->
             ascii_of_nat (48 + Z.to_nat k) = ascii_of_nat (48 + Z.to_nat k') ->
             k = k').
  { intros k k' Hk Hk' E. apply (f_equal nat_of_ascii) in E.
    rewrite !nat_ascii_embedding in E by lia. lia. }
  unfold Medi12.hh00, Medi12.strftime_HM, Medi12.two_digits.
  cbn [String.append]. split.
  - intros E. injection E as E1 E2 E3 E4.
    change "0"%char with (ascii_of_nat (48 + Z.to_nat 0)) in E3, E4.
    apply Hinj in E1, E2, E3, E4;
      try (split; [apply Z.div_pos|apply Z.div_lt_upper_bound]; lia);
      try (apply Z.mod_pos_bound; lia); try lia.
    split.
    + rewrite (Z.div_mod h 10), (Z.div_mod h' 10) by lia. lia.
    + rewrite (Z.div_mod m 10) by lia. lia.
  - intros [-> ->]. reflexivity.
Qed.

Lemma forecast_label_matches_on_the_hour_witness :
  Medi12.hh00 8 = Medi12.strftime_HM 8 0 <-> 8 = 8 /\ 0 = 0.
Proof. apply (forecast_label_matches_on_the_hour 8 8 0); lia. Defined.

Example forecast_label_off_the_hour :
  Medi12.strftime_HM 8 30 = "08:30" /\ Medi12.hh00 8 = "08:00"
  /\ Medi12.hh00 23 = Medi12.strftime_HM 23 0.
Proof. repeat split. Qed.

(** ** Doctors, patients and adherence in [1medipredict.py] *)

Section Registry1.
Import Predict1.

Lemma existsb_email r e :
  existsb (fun x => String.eqb (doctor_email (snd x)) e) (rows (doctors r)) = true
  <-> In e (map (fun x => doctor_email (snd x)) (rows (doctors r))).
Proof.
  rewrite existsb_exists, in_map_iff. split.
  - intros [x [Hin He]]. apply String.eqb_eq in He. eauto.
  - intros [x [He Hin]]. exists x. split; [assumption|]. now apply String.eqb_eq.
Qed.

(** The row a name resolves to: the first one with that name. *)
Lemma chosen_doctor_spec (ds : list (Z * doctor)) (c : string) :
  In c (map (fun d => doctor_name (snd d)) ds) ->
  exists pre did dn post,
    ds = pre ++ (did, dn) :: post /\ doctor_name dn = c
    /\ chosen_doctor ds (Some c) = Ok did
    /\ forall x, In x pre -> doctor_name (snd x) <> c.
Proof.
  unfold chosen_doctor. induction ds as [|[j n] ds IH]; [intros []|].
  cbn [map In filter snd]. intros Hin.
  destruct (String.eqb_spec (doctor_name n) c) as [Hc|Hc].
  - exists [], j, n, ds. repeat split; auto.
  - destruct Hin as [Hin|Hin]; [now destruct Hc|].
    destruct (IH Hin) as [pre [did [dn [post [-> [Hn [Hget Hpre]]]]]]].
    exists ((j, n) :: pre), did, dn, post. repeat split; auto.
    intros x [<-|Hx]; auto.
Qed.

Lemma selectbox_In (options : list string) (pick : nat) (c : string) :
  selectbox options pick = Some c -> In c options.
Proof.
  unfold selectbox. destruct options as [|o l]; [discriminate|].
  intros [= E]. subst c. destruct pick as [|m]; [now left|].
  destruct (Nat.lt_ge_cases m (length l)) as [Hlt|Hge].
  - right. apply nth_In. exact Hlt.
  - left. rewrite nth_overflow by assumption. reflexivity.
Qed.

Lemma select_all {Row} (t : table Row) : select (fun _ => true) t = rows t.
Proof.
  unfold select. induction (rows t) as [|x l IH]; simpl; [reflexivity|].
  now rewrite IH.
Qed.

Lemma Q_percentage (a b : Z) :
  0 <= a <= b -> 0 < b ->
  (0 <= inject_Z a / inject_Z b * 100 <= 100)%Q
  /\ ((inject_Z a / inject_Z b * 100 == 100)%Q <-> a = b)
  /\ ((inject_Z a / inject_Z b * 100 == 0)%Q <-> a = 0).
Proof.
  intros Ha Hb. destruct b as [|b|b]; try lia.
  unfold Qle, Qeq, Qdiv, Qmult, Qinv, inject_Z. cbn [Qnum Qden].
  repeat split; intros; try nia.
Qed.
End Registry1.

(** X12. The Doctors page of [1medipredict.py] raises [IntegrityError]
    exactly when a name is given and the e-mail is already stored for a
    doctor; an e-mail left empty counts like any other, so after one doctor
    has been added with some e-mail, adding another with the same e-mail
    raises, whatever the name. *)
Theorem doctors_page_duplicate_email (r : Predict1.registry) (d_name d_email : string) :
  (Predict1.doctors_page r d_name d_email = Raise IntegrityError
   <-> d_name <> ""
       /\ In d_email (map (fun x => Predict1.doctor_email (snd x))
                          (rows (Predict1.doctors r))))
  /\ (forall e, Predict1.doctors_page r d_name d_email = Raise e -> e = IntegrityError)
  /\ (forall r', Predict1.doctors_page r d_name d_email = Ok (r', Predict1.DoctorAdded) ->
      rows (Predict1.doctors r')
      = rows (Predict1.doctors r)
        ++ [(next_rowid (Predict1.doctors r), Predict1.Doctor d_name d_email)]
      /\ forall other, other <> "" ->
           Predict1.doctors_page r' other d_email = Raise IntegrityError).
Proof.
  unfold Predict1.doctors_page, Predict1.add_doctor.
  rewrite <- existsb_email.
  destruct (String.eqb_spec d_name "") as [->|Hn].
  - split; [|split].
    + split; [discriminate|]. intros [Hx _]. now destruct Hx.
    + discriminate.
    + discriminate.
  - destruct (existsb _ (rows (Predict1.doctors r))) eqn:Hex; cbn [bind].
    + split; [|split].
      * split; auto.
      * intros e [= <-]. reflexivity.
      * discriminate.
    + split; [|split].
      * split; [discriminate|]. intros [_ Hx]. discriminate.
      * discriminate.
      * intros r' [= <-]. cbn [Predict1.doctors]. rewrite rows_insert.
        split; [reflexivity|]. intros other Ho.
        destruct (String.eqb_spec other "") as [->|_]; [now destruct Ho|].
        rewrite existsb_app. cbn [existsb snd Predict1.doctor_email].
        rewrite String.eqb_refl, orb_true_r. reflexivity.
Qed.

Example second_doctor_without_email :
  exists r1,
    Predict1.doctors_page Predict1.init_registry "Dr. A" "" = Ok (r1, Predict1.DoctorAdded)
    /\ Predict1.doctors_page r1 "Dr. B" "" = Raise IntegrityError.
Proof. eexists. split; reflexivity. Qed.

(** X13. The Patients page of [1medipredict.py] raises [IndexError] exactly
    when no doctor is registered; otherwise it adds the patient, and the
    doctor its select box resolves to has the chosen name and, of the
    doctors with that name, the smallest id.  What it stores as the
    patient's [doctor_id] is not that integer but a blob, the eight bytes
    of the [numpy.int64] it read. *)
Theorem patients_page_needs_a_doctor (r : Predict1.registry) (p_name : string)
    (p_age : Z) (p_email : string) (pick : nat) :
  wf (Predict1.doctors r) ->
  (Predict1.patients_page r p_name p_age p_email pick = Raise IndexError
   <-> rows (Predict1.doctors r) = [])
  /\ (rows (Predict1.doctors r) <> [] ->
      exists c did dn,
        Predict1.selectbox (map (fun d => Predict1.doctor_name (snd d))
                                (Predict1.get_doctors r)) pick = Some c
        /\ Predict1.chosen_doctor (Predict1.get_doctors r) (Some c) = Ok did
        /\ (exists r',
              Predict1.patients_page r p_name p_age p_email pick = Ok r'
              /\ Predict1.doctors r' = Predict1.doctors r
              /\ rows (Predict1.patients r')
                 = rows (Predict1.patients r)
                   ++ [(next_rowid (Predict1.patients r),
                        Predict1.Patient p_name p_age p_email
                          (Blob (Predict1.int64_bytes did)))])
        /\ In (did, dn) (rows (Predict1.doctors r))
        /\ Predict1.doctor_name dn = c
        /\ forall did' dn', In (did', dn') (rows (Predict1.doctors r)) ->
                            Predict1.doctor_name dn' = c -> did <= did').
Proof.
  intros [Hs _]. unfold Predict1.patients_page, Predict1.get_doctors.
  rewrite select_all.
  destruct (rows (Predict1.doctors r)) as [|x l] eqn:Hrows.
  - split; [split; reflexivity|]. intros Hne. now destruct Hne.
  - rewrite <- Hrows in *.
    destruct (Predict1.selectbox
                (map (fun d => Predict1.doctor_name (snd d)) (rows (Predict1.doctors r)))
                pick) as [c|] eqn:Hsel;
      [|rewrite Hrows in Hsel; discriminate].
    pose proof (selectbox_In _ _ _ Hsel) as Hin.
    destruct (chosen_doctor_spec _ _ Hin)
      as [pre [did [dn [post [Hds [Hn [Hget Hpre]]]]]]].
    cbv zeta. rewrite Hget. cbn [bind].
    split.
    + split; [discriminate|]. rewrite Hrows. discriminate.
    + intros _. exists c, did, dn. repeat split; auto.
      * eexists. split; [reflexivity|]. split; [reflexivity|].
        unfold Predict1.add_patient. cbn [Predict1.patients]. apply rows_insert.
      * rewrite Hds. apply in_or_app. right. now left.
      * intros did' dn' Hin' Hn'. rewrite Hds in Hin', Hs.
        rewrite map_app in Hs. cbn [map fst] in Hs.
        apply in_app_or in Hin' as [Hp|[Heq|Hp]].
        -- exfalso. apply (Hpre _ Hp). exact Hn'.
        -- inversion Heq. lia.
        -- assert (did < did'); [|lia].
           apply (StronglySorted_app_lt _ _ _ _ Hs).
           apply in_map_iff. exists (did', dn'). auto.
Qed.

Lemma patients_page_needs_a_doctor_witness :
  let r := Predict1.two_doctors in
  (Predict1.patients_page r "Pat" 40 "" 1 = Raise IndexError
   <-> rows (Predict1.doctors r) = [])
  /\ (rows (Predict1.doctors r) <> [] ->
      exists c did dn,
        Predict1.selectbox (map (fun d => Predict1.doctor_name (snd d))
                                (Predict1.get_doctors r)) 1 = Some c
        /\ Predict1.chosen_doctor (Predict1.get_doctors r) (Some c) = Ok did
        /\ (exists r',
              Predict1.patients_page r "Pat" 40 "" 1 = Ok r'
              /\ Predict1.doctors r' = Predict1.doctors r
              /\ rows (Predict1.patients r')
                 = rows (Predict1.patients r)
                   ++ [(next_rowid (Predict1.patients r),
                        Predict1.Patient "Pat" 40 ""
                          (Blob (Predict1.int64_bytes did)))])
        /\ In (did, dn) (rows (Predict1.doctors r))
        /\ Predict1.doctor_name dn = c
        /\ forall did' dn', In (did', dn') (rows (Predict1.doctors r)) ->
                            Predict1.doctor_name dn' = c -> did <= did').
Proof.
  cbv zeta.
  apply (patients_page_needs_a_doctor Predict1.two_doctors "Pat" 40 "" 1).
  apply wf_insert, wf_insert, wf_empty.
Defined.

(** The patient assigned to the first of the two doctors. *)
Example patient_doctor_id_is_a_blob :
  match Predict1.patients_page Predict1.two_doctors "Pat" 40 "" 1 with
  | Ok r' => map (fun p => Predict1.doctor_id (snd p)) (rows (Predict1.patients r'))
  | Raise _ => []
  end = [Blob [1; 0; 0; 0; 0; 0; 0; 0]].
Proof. reflexivity. Qed.

(** X14. The overall adherence of the Adherence Insights page,
    [1medipredict.py]: the notice without a figure exactly when the patient
    has no log, so the division is never by zero; otherwise a percentage
    between 0 and 100, which is 100 exactly when every log of the patient
    is [Taken] and 0 exactly when none is. *)
Theorem taken_rate_is_a_percentage (d : Predict1.db) (pid : Z) :
  (Predict1.taken_rate d pid = None <-> Predict1.get_logs d (Some pid) = [])
  /\ forall q, Predict1.taken_rate d pid = Some q ->
       (0 <= q <= 100)%Q
       /\ ((q == 100)%Q <->
           Forall (fun l => Predict1.status (snd l) = "Taken")
                  (Predict1.get_logs d (Some pid)))
       /\ ((q == 0)%Q <->
           Forall (fun l => Predict1.status (snd l) <> "Taken")
                  (Predict1.get_logs d (Some pid))).
Proof.
  unfold Predict1.taken_rate.
  set (ls := Predict1.get_logs d (Some pid)).
  set (f := fun l : Z * Predict1.log => String.eqb (Predict1.status (snd l)) "Taken").
  assert (Hlen : (length (filter f ls) <= length ls)%nat) by apply filter_length_le.
  assert (Hall : length (filter f ls) = length ls
                 <-> Forall (fun l => Predict1.status (snd l) = "Taken") ls).
  { clear Hlen. induction ls as [|x l IH]; cbn [filter length].
    - split; [constructor|reflexivity].
    - unfold f at 1. destruct (String.eqb_spec (Predict1.status (snd x)) "Taken") as [E|E].
      + cbn [length]. split.
        * intros [= Hl]. constructor; [assumption|now apply IH].
        * intros Hf. inversion Hf; subst. f_equal. now apply IH.
      + pose proof (filter_length_le f l). split; [lia|].
        intros Hf. inversion Hf; subst. contradiction. }
  assert (Hnone : length (filter f ls) = 0%nat
                  <-> Forall (fun l => Predict1.status (snd l) <> "Taken") ls).
  { clear Hlen Hall. induction ls as [|x l IH]; cbn [filter length].
    - split; [constructor|reflexivity].
    - unfold f at 1. destruct (String.eqb_spec (Predict1.status (snd x)) "Taken") as [E|E].
      + cbn [length]. split; [discriminate|].
        intros Hf. inversion Hf; subst. contradiction.
      + rewrite IH. split.
        * intros Hf. now constructor.
        * intros Hf. now inversion Hf. }
  destruct ls as [|x l] eqn:Hls.
  - split; [split; reflexivity|discriminate].
  - rewrite <- Hls in *. split; [split; [discriminate|]|].
    { rewrite Hls. discriminate. }
    intros q [= <-].
    assert (Hpos : 0 < Z.of_nat (length ls)) by (rewrite Hls; cbn [length]; lia).
    destruct (Q_percentage (Z.of_nat (length (filter f ls))) (Z.of_nat (length ls)))
      as [Hr [H100 H0]]; [lia|assumption|].
    split; [exact Hr|]. split.
    + rewrite H100, <- Hall. lia.
    + rewrite H0, <- Hnone. lia.
Qed.

Example taken_rate_half :
  let d := Predict1.log_dose
             (Predict1.log_dose Predict1.init_db 1 1 "08:00" "Taken"
                (datetime 2025 6 9 8 0 0))
             1 1 "20:00" "Missed" (datetime 2025 6 9 20 0 0) in
  exists q, Predict1.taken_rate d 1 = Some q /\ (q == 50)%Q.
Proof. eexists. split; reflexivity. Qed.

(** ** The options of the Day select box, [15.py] and [14.py] *)

Section DistinctValues.
Context {A : Type} `{CategoryLaws A}.

Lemma unique_acc_NoDup (l acc : list A) :
  NoDup acc ->
  NoDup (fold_left (fun acc x => if existsb (cat_eqb x) acc then acc else acc ++ [x])
                   l acc).
Proof.
  revert acc. induction l as [|y l IH]; intros acc Hnd; simpl; [assumption|].
  apply IH. destruct (existsb (cat_eqb y) acc) eqn:E; [assumption|].
  apply NoDup_snoc; [assumption|]. intros Hin.
  apply existsb_cat_eqb in Hin. congruence.
Qed.

Lemma unique_NoDup (l : list A) : NoDup (unique cat_eqb l).
Proof. apply unique_acc_NoDup. constructor. Qed.

Lemma first_index_lt (x : A) (p q : list A) :
  In x p -> (first_index cat_eqb x (p ++ q) < length p)%nat.
Proof.
  induction p as [|y p IH]; [intros []|]. cbn [app first_index length].
  destruct (cat_eqb x y) eqn:E; [lia|].
  intros [->|Hin].
  - assert (cat_eqb x x = true) by now apply cat_eqb_eq. congruence.
  - specialize (IH Hin). lia.
Qed.

Lemma first_index_fresh (y : A) (p t : list A) :
  ~ In y p -> first_index cat_eqb y (p ++ y :: t) = length p.
Proof.
  induction p as [|z p IH]; cbn [app first_index length]; intros Hn.
  - now rewrite (proj2 (cat_eqb_eq y y) eq_refl).
  - destruct (cat_eqb y z) eqn:E.
    + apply cat_eqb_eq in E. subst. destruct Hn. now left.
    + rewrite IH; [reflexivity|]. intros Hin. apply Hn. now right.
Qed.

Lemma StronglySorted_snoc_rel (R : A -> A -> Prop) (l : list A) (x : A) :
  StronglySorted R l -> (forall y, In y l -> R y x) -> StronglySorted R (l ++ [x]).
Proof.
  induction 1 as [|y l Hs IH Hall]; intros Hx; cbn [app].
  - constructor; constructor.
  - constructor.
    + apply IH. intros z Hz. apply Hx. now right.
    + rewrite Forall_forall in *. intros z [Hz|[<-|[]]]%in_app_iff; auto.
      apply Hx. now left.
Qed.

(** [unique] lists the values in the order in which they first appear. *)
Lemma unique_first_appearance (col : list A) :
  StronglySorted
    (fun a b => (first_index cat_eqb a col < first_index cat_eqb b col)%nat)
    (unique cat_eqb col).
Proof.
  unfold unique.
  set (R := fun a b => (first_index cat_eqb a col < first_index cat_eqb b col)%nat).
  assert (Hgen : forall rest p acc,
             col = p ++ rest -> StronglySorted R acc ->
             (forall x, In x acc <-> In x p) ->
             StronglySorted R
               (fold_left (fun acc x => if existsb (cat_eqb x) acc then acc else acc ++ [x])
                          rest acc)).
  { induction rest as [|y rest IH]; intros p acc Hcol Hs Hmem; [exact Hs|].
    cbn [fold_left].
    assert (Hcol' : col = (p ++ [y]) ++ rest) by (now rewrite <- app_assoc).
    destruct (existsb (cat_eqb y) acc) eqn:E.
    - apply existsb_cat_eqb in E. apply (IH (p ++ [y])); [assumption|assumption|].
      intros x. rewrite in_app_iff, Hmem. split; [tauto|].
      intros [Hx|[<-|[]]]; [assumption|]. now apply Hmem.
    - assert (Hy : ~ In y p).
      { intros Hin. apply Hmem, existsb_cat_eqb in Hin. congruence. }
      apply (IH (p ++ [y])); [assumption| |].
      + apply StronglySorted_snoc_rel; [assumption|].
        intros x Hx. unfold R. rewrite Hcol at 2.
        rewrite (first_index_fresh _ _ _ Hy). rewrite Hcol.
        apply first_index_lt. now apply Hmem.
      + intros x. rewrite !in_app_iff, Hmem. tauto. }
  apply (Hgen col [] []); [reflexivity|constructor|].
  intros x. tauto.
Qed.

Lemma insert_sorted_NoDup (leb : A -> A -> bool) (a : A) (l : list A) :
  NoDup l -> ~ In a l -> NoDup (insert_sorted leb a l).
Proof.
  induction l as [|y l IH]; simpl; intros Hnd Hin.
  - constructor; [tauto|constructor].
  - destruct (leb a y).
    + constructor; [simpl; tauto|assumption].
    + inversion Hnd as [|? ? Hy Hl]; subst. constructor.
      * rewrite insert_sorted_In. intros [->|Hx]; tauto.
      * apply IH; tauto.
Qed.

Lemma sorted_NoDup (leb : A -> A -> bool) (l : list A) :
  NoDup l -> NoDup (sorted leb l).
Proof.
  induction 1 as [|x l Hx Hnd IH]; simpl; [constructor|].
  apply insert_sorted_NoDup; [assumption|]. now rewrite sorted_In.
Qed.

Lemma insert_sorted_sorted (leb : A -> A -> bool) (a : A) (l : list A) :
  (forall x y, leb x y = true \/ leb y x = true) ->
  (forall x y z, leb x y = true -> leb y z = true -> leb x z = true) ->
  StronglySorted (fun x y => leb x y = true) l ->
  StronglySorted (fun x y => leb x y = true) (insert_sorted leb a l).
Proof.
  intros Htot Htr. induction 1 as [|y l Hs IH Hall]; simpl.
  - constructor; constructor.
  - destruct (leb a y) eqn:E.
    + constructor; [now constructor|]. constructor; [assumption|].
      rewrite Forall_forall in *. intros z Hz. apply (Htr a y z); auto.
    + constructor; [assumption|]. rewrite Forall_forall in *.
      intros z [Hz|Hz]%insert_sorted_In; [subst z|auto].
      destruct (Htot y a); congruence.
Qed.

Lemma sorted_sorted (leb : A -> A -> bool) (l : list A) :
  (forall x y, leb x y = true \/ leb y x = true) ->
  (forall x y z, leb x y = true -> leb y z = true -> leb x z = true) ->
  StronglySorted (fun x y => leb x y = true) (sorted leb l).
Proof.
  intros Htot Htr. induction l as [|x l IH]; simpl; [constructor|].
  now apply insert_sorted_sorted.
Qed.
End DistinctValues.

Lemma string_leb_trans (x y z : string) :
  String.leb x y = true -> String.leb y z = true -> String.leb x z = true.
Proof.
  unfold String.leb.
  destruct (String.compare x y) eqn:E1; try discriminate;
    destruct (String.compare y z) eqn:E2; try discriminate; intros _ _.
  - apply string_compare_eq in E1, E2. subst. now rewrite string_compare_refl.
  - apply string_compare_eq in E1. subst. now rewrite E2.
  - apply string_compare_eq in E2. subst. now rewrite E1.
  - now rewrite (string_compare_lt_trans _ _ _ E1 E2).
Qed.

(** X15. The Day select box of the Insights tab offers exactly the
    weekdays on which the user has logged a dose, each once, so at most
    seven options, all of them day names; [15.py] lists them in
    alphabetical order, [14.py] in the order in which they first appear
    among the user's doses. *)
Theorem day_options_are_the_logged_weekdays (df : list (Z * Dash15.dose)) :
  (forall day, In day (Dash15.day_choices df)
               <-> exists r, In r df /\ Dash15.day_of r = day)
  /\ (forall day, In day (Dash15.day_choices14 df) <-> In day (Dash15.day_choices df))
  /\ NoDup (Dash15.day_choices df) /\ NoDup (Dash15.day_choices14 df)
  /\ StronglySorted (fun a b => String.leb a b = true) (Dash15.day_choices df)
  /\ StronglySorted
       (fun a b => (first_index String.eqb a (map Dash15.day_of df)
                    < first_index String.eqb b (map Dash15.day_of df))%nat)
       (Dash15.day_choices14 df)
  /\ (forall day, In day (Dash15.day_choices df) -> In day day_names)
  /\ (length (Dash15.day_choices df) <= 7)%nat
  /\ length (Dash15.day_choices14 df) = length (Dash15.day_choices df).
Proof.
  assert (Hin : forall day, In day (Dash15.day_choices df)
                            <-> exists r, In r df /\ Dash15.day_of r = day).
  { intros day. rewrite day_choices_In, in_map_iff. split; intros [r Hr]; exists r; tauto. }
  assert (Hnd : NoDup (Dash15.day_choices df)).
  { apply sorted_NoDup.
    exact (@unique_NoDup string string_category string_category_laws _). }
  assert (Hnd14 : NoDup (Dash15.day_choices14 df))
    by exact (@unique_NoDup string string_category string_category_laws _).
  assert (Hnames : forall day, In day (Dash15.day_choices df) -> In day day_names).
  { intros day [r [_ <-]]%Hin. unfold Dash15.day_of.
    eapply nth_error_In. apply dt_day_name_nth. }
  split; [exact Hin|]. split; [exact (day_choices14_In df)|].
  split; [exact Hnd|]. split; [exact Hnd14|].
  split; [|split; [|split; [exact Hnames|split]]].
  - apply sorted_sorted; [apply String.leb_total|apply string_leb_trans].
  - exact (@unique_first_appearance string string_category string_category_laws _).
  - change 7%nat with (length day_names).
    apply NoDup_incl_length; [exact Hnd|exact Hnames].
  - apply Nat.le_antisymm; apply NoDup_incl_length; auto;
      intros day; apply day_choices14_In.
Qed.

Example day_options_order :
  let df := [(1, Dash15.Dose 1 1 (datetime 2025 6 11 8 0 0) "Taken");
             (2, Dash15.Dose 1 1 (datetime 2025 6 9 8 0 0) "Missed");
             (3, Dash15.Dose 1 1 (datetime 2025 6 11 20 0 0) "Taken")] in
  Dash15.day_choices df = ["Monday"; "Wednesday"]
  /\ Dash15.day_choices14 df = ["Wednesday"; "Monday"].
Proof. split; reflexivity. Qed.
